(** * PBR Explorer: filename classifier, texture slots and viewer settings

    A shallow embedding of the two front-ends of the repository:
    - the component-based version ([App], [MaterialViewer]; App.tsx,
      types.ts, components/MaterialViewer.tsx) and
    - the vanilla DOM version ([Vanilla]; the script with [initThree],
      [updateGeometry], [updateMaterial], [initUI], [handleFiles]).

    Modelling conventions.
    - A file name is a [string] of code units; [toLowerCase] lowers the
      letters 'A'..'Z' and leaves every other code unit alone.  All keywords
      of the classifier are lower-case ASCII words.
    - A JavaScript number is a [number]: NaN, the two infinities, or a
      rational.  The code only stores, compares and clamps numbers
      ([parseFloat] results are taken as given), so no rounding occurs.
    - [null] is [None]; the truthiness test [if (x)] on an object-or-null
      is [truthy]; a property access on a value that may be null is [deref]
      and raises [TypeError] on [None].
    - Browser object URLs and three.js textures are handles ([nat]) issued
      from a counter; every [revokeObjectURL] and [dispose] call is logged. *)

From Stdlib Require Import Bool Arith List Ascii String QArith Lia Lqa.
From stdpp Require Import base list.
Import ListNotations.

Local Open Scope string_scope.
Local Open Scope list_scope.

(** ** JavaScript strings *)

Definition toLowerCaseChar (c : ascii) : ascii :=
  let n := nat_of_ascii c in
  if (65 <=? n)%nat && (n <=? 90)%nat then ascii_of_nat (n + 32) else c.

(** [String.prototype.toLowerCase] *)
Fixpoint toLowerCase (s : string) : string :=
  match s with
  | EmptyString => EmptyString
  | String c s' => String (toLowerCaseChar c) (toLowerCase s')
  end.

Fixpoint startsWith (s kw : string) : bool :=
  match kw, s with
  | EmptyString, _ => true
  | String a kw', String b s' => Ascii.eqb a b && startsWith s' kw'
  | String _ _, EmptyString => false
  end.

(** [String.prototype.includes]: [kw] occurs in [s] at some position. *)
Fixpoint includes (s kw : string) : bool :=
  startsWith s kw ||
  match s with
  | EmptyString => false
  | String _ s' => includes s' kw
  end.

(** [kw] is a substring of [s]. *)
Definition Substring (kw s : string) : Prop :=
  exists pre post : string, s = String.append pre (String.append kw post).

(** ** JavaScript values that may be null *)

Definition truthy {A : Type} (o : option A) : bool :=
  match o with Some _ => true | None => false end.

Inductive Result (A : Type) : Type :=
| Ok (a : A)
| TypeError.
Arguments Ok {A} a.
Arguments TypeError {A}.

(** State-and-error monad for the event handlers. *)
Definition M (S A : Type) : Type := S -> Result (A * S).

Definition ret {S A : Type} (a : A) : M S A := fun s => Ok (a, s).

Definition bind {S A B : Type} (c : M S A) (k : A -> M S B) : M S B :=
  fun s => match c s with
           | Ok (a, s') => k a s'
           | TypeError => TypeError
           end.

Definition gets {S A : Type} (f : S -> A) : M S A := fun s => Ok (f s, s).

Definition modify {S : Type} (f : S -> S) : M S unit := fun s => Ok (tt, f s).

Definition throwTypeError {S A : Type} : M S A := fun _ => TypeError.

(** [o.field] / [o.method()] on a value that may be null. *)
Definition deref {S A : Type} (o : option A) : M S A :=
  match o with
  | Some a => ret a
  | None => throwTypeError
  end.

Notation "'let*' x ':=' c 'in' k" := (bind c (fun x => k))
  (at level 10, x name, c at level 100, k at level 200).
Notation "'run' c 'then' k" := (bind c (fun _ => k))
  (at level 10, c at level 100, k at level 200).

(** [Array.prototype.forEach] with an effectful body. *)
Fixpoint forEach {S A : Type} (xs : list A) (body : A -> M S unit) : M S unit :=
  match xs with
  | [] => ret tt
  | x :: xs' => bind (body x) (fun _ => forEach xs' body)
  end.

(** The final state of a run, when it did not throw. *)
Definition exec {S A : Type} (c : M S A) (s : S) : Result S :=
  match c s with
  | Ok (_, s') => Ok s'
  | TypeError => TypeError
  end.

(** ** JavaScript numbers *)

Inductive number : Type :=
| NaN
| NegInfinity
| Finite (q : Q)
| Infinity.

Definition isNaN (x : number) : bool :=
  match x with NaN => true | _ => false end.

(** [x < y] on numbers; false as soon as one side is NaN. *)
Definition num_ltb (x y : number) : bool :=
  match x, y with
  | NaN, _ | _, NaN => false
  | NegInfinity, NegInfinity => false
  | NegInfinity, _ => true
  | _, NegInfinity => false
  | Infinity, _ => false
  | Finite _, Infinity => true
  | Finite a, Finite b => negb (Qle_bool b a)
  end.

(** [x <= y] on numbers; false as soon as one side is NaN. *)
Definition num_leb (x y : number) : bool :=
  match x, y with
  | NaN, _ | _, NaN => false
  | NegInfinity, _ => true
  | _, Infinity => true
  | Finite a, Finite b => Qle_bool a b
  | _, _ => false
  end.

(** Same numeric value (NaN is the same value as NaN). *)
Definition num_same (x y : number) : bool :=
  match x, y with
  | NaN, NaN | NegInfinity, NegInfinity | Infinity, Infinity => true
  | Finite a, Finite b => Qeq_bool a b
  | _, _ => false
  end.

Definition Math_max (x y : number) : number :=
  if isNaN x || isNaN y then NaN else if num_ltb x y then y else x.

Definition Math_min (x y : number) : number :=
  if isNaN x || isNaN y then NaN else if num_ltb y x then y else x.

(** ** types.ts *)

Inductive TextureMapType : Type :=
| Tmap | TnormalMap | TroughnessMap | TmetalnessMap | TaoMap | TdisplacementMap.

(** The string literal each member of the union stands for. *)
Definition slotName (t : TextureMapType) : string :=
  match t with
  | Tmap => "map"
  | TnormalMap => "normalMap"
  | TroughnessMap => "roughnessMap"
  | TmetalnessMap => "metalnessMap"
  | TaoMap => "aoMap"
  | TdisplacementMap => "displacementMap"
  end.

Definition TextureMapType_eqb (a b : TextureMapType) : bool :=
  match a, b with
  | Tmap, Tmap | TnormalMap, TnormalMap | TroughnessMap, TroughnessMap
  | TmetalnessMap, TmetalnessMap | TaoMap, TaoMap
  | TdisplacementMap, TdisplacementMap => true
  | _, _ => false
  end.

(** Keyed record of the six texture slots ([MaterialState], and the
    [material] and [textureFiles] objects of the vanilla state). *)
Record Slots (A : Type) : Type := mkSlots {
  map_ : A;
  normalMap : A;
  roughnessMap : A;
  metalnessMap : A;
  aoMap : A;
  displacementMap : A;
}.
Arguments mkSlots {A}.
Arguments map_ {A}.
Arguments normalMap {A}.
Arguments roughnessMap {A}.
Arguments metalnessMap {A}.
Arguments aoMap {A}.
Arguments displacementMap {A}.

(** [m[type]] *)
Definition getSlot {A : Type} (type : TextureMapType) (m : Slots A) : A :=
  match type with
  | Tmap => map_ m
  | TnormalMap => normalMap m
  | TroughnessMap => roughnessMap m
  | TmetalnessMap => metalnessMap m
  | TaoMap => aoMap m
  | TdisplacementMap => displacementMap m
  end.

(** [m[type] = v] *)
Definition setSlot {A : Type} (type : TextureMapType) (v : A) (m : Slots A) : Slots A :=
  match type with
  | Tmap => mkSlots v (normalMap m) (roughnessMap m) (metalnessMap m) (aoMap m) (displacementMap m)
  | TnormalMap => mkSlots (map_ m) v (roughnessMap m) (metalnessMap m) (aoMap m) (displacementMap m)
  | TroughnessMap => mkSlots (map_ m) (normalMap m) v (metalnessMap m) (aoMap m) (displacementMap m)
  | TmetalnessMap => mkSlots (map_ m) (normalMap m) (roughnessMap m) v (aoMap m) (displacementMap m)
  | TaoMap => mkSlots (map_ m) (normalMap m) (roughnessMap m) (metalnessMap m) v (displacementMap m)
  | TdisplacementMap => mkSlots (map_ m) (normalMap m) (roughnessMap m) (metalnessMap m) (aoMap m) v
  end.

(** [Object.values(m)] *)
Definition slotValues {A : Type} (m : Slots A) : list A :=
  [map_ m; normalMap m; roughnessMap m; metalnessMap m; aoMap m; displacementMap m].

Definition allNull {A : Type} : Slots (option A) :=
  mkSlots None None None None None None.

(** A browser object URL, by the order of issue. *)
Definition Url : Type := nat.

(** A dropped [File]: its name and its bytes. *)
Record File : Type := mkFile {
  name : string;
  bytes : string;
}.

Record TextureData : Type := mkTextureData {
  url : Url;
  td_name : string;
}.

Definition MaterialState : Type := Slots (option TextureData).

Inductive ShapeType : Type := cube | sphere | plane.

Record ViewerSettings (shapeT : Type) : Type := mkSettings {
  shape : shapeT;
  tiling : number;
  displacementScale : number;
  exposure : number;
  roughness : number;
  metalness : number;
}.
Arguments mkSettings {shapeT}.
Arguments shape {shapeT}.
Arguments tiling {shapeT}.
Arguments displacementScale {shapeT}.
Arguments exposure {shapeT}.
Arguments roughness {shapeT}.
Arguments metalness {shapeT}.

(** ** Browser object URLs ([URL.createObjectURL], [URL.revokeObjectURL]) *)

Record Browser : Type := mkBrowser {
  issued : nat;                (* number of object URLs handed out so far *)
  live : list (Url * File);    (* URLs that still keep their blob alive *)
  revokeLog : list Url;        (* arguments of the revokeObjectURL calls *)
}.

Definition noUrls : Browser := mkBrowser 0 [] [].

Definition createObjectURL (file : File) (b : Browser) : Url * Browser :=
  (issued b, mkBrowser (S (issued b)) (live b ++ [(issued b, file)]) (revokeLog b)).

Definition revokeObjectURL (u : Url) (b : Browser) : Browser :=
  mkBrowser (issued b)
            (List.filter (fun e => negb (Nat.eqb (fst e) u)) (live b))
            (revokeLog b ++ [u]).

(** ** Geometry elements of the rendering library *)

Inductive Geometry : Type :=
| SphereGeometry (args : list Q)
| PlaneGeometry (args : list Q)
| BoxGeometry (args : list Q).

Inductive GeometryKind : Type := KSphere | KPlane | KBox.

Definition kind (g : Geometry) : GeometryKind :=
  match g with
  | SphereGeometry _ => KSphere
  | PlaneGeometry _ => KPlane
  | BoxGeometry _ => KBox
  end.

(** Mesh rotation: [[0, 0, 0]] or [[-Math.PI / 2, 0, 0]]. *)
Inductive Rotation : Type := NoRotation | MinusHalfPiX.

Inductive Wrapping : Type := ClampToEdgeWrapping | RepeatWrapping.

Inductive ColorSpace : Type := NoColorSpace | SRGBColorSpace.

(** A texture object of the rendering library: the image it was loaded
    from and the properties the viewers configure.  [version] counts the
    [needsUpdate = true] assignments. *)
Record Texture : Type := mkTexture {
  source : Url;
  wrapS : Wrapping;
  wrapT : Wrapping;
  repeat : number * number;
  colorSpace : ColorSpace;
  version : nat;
}.

(** A texture object as the loader creates it, before the image has arrived. *)
Definition newTexture (u : Url) : Texture :=
  mkTexture u ClampToEdgeWrapping ClampToEdgeWrapping (Finite 1, Finite 1) NoColorSpace 0.

(** ** The filename classifier, as written in App.tsx *)

Module App.

Definition matchTextureType (filename : string) : option TextureMapType :=
  let f := toLowerCase filename in
  if includes f "albedo" || includes f "diffuse" || includes f "basecolor" || includes f "color"
  then Some Tmap
  else if includes f "normal" || includes f "nrm" || includes f "nm"
  then Some TnormalMap
  else if includes f "roughness" || includes f "rough" || includes f "rgh"
  then Some TroughnessMap
  else if includes f "metal" || includes f "mtl"
  then Some TmetalnessMap
  else if includes f "ao" || includes f "ambientocclusion" || includes f "occlusion"
  then Some TaoMap
  else if includes f "height" || includes f "displacement" || includes f "disp"
  then Some TdisplacementMap
  else None.

(** The component's state ([useState] cells) and the browser's URL registry. *)
Record State : Type := mkState {
  material : MaterialState;
  settings : ViewerSettings ShapeType;
  isDragging : bool;
  urls : Browser;
}.

Definition initialState : State :=
  mkState allNull
          (mkSettings cube (Finite 1) (Finite (5 # 100)) (Finite 1) (Finite 1) (Finite 0))
          false
          noUrls.

Definition setMaterial (f : MaterialState -> MaterialState) : M State unit :=
  modify (fun st => mkState (f (material st)) (settings st) (isDragging st) (urls st)).

Definition setSettings (f : ViewerSettings ShapeType -> ViewerSettings ShapeType) : M State unit :=
  modify (fun st => mkState (material st) (f (settings st)) (isDragging st) (urls st)).

Definition setIsDragging (b : bool) : M State unit :=
  modify (fun st => mkState (material st) (settings st) b (urls st)).

Definition URL_createObjectURL (file : File) : M State Url :=
  fun st => let (u, b) := createObjectURL file (urls st) in
            Ok (u, mkState (material st) (settings st) (isDragging st) b).

Definition URL_revokeObjectURL (u : Url) : M State unit :=
  modify (fun st => mkState (material st) (settings st) (isDragging st)
                            (revokeObjectURL u (urls st))).

(** Body of the [forEach] callback of [handleFiles]; [newMaterial] is the
    local copy the callback updates. *)
Definition handleFile (newMaterial : MaterialState) (file : File) : M State MaterialState :=
  let type := matchTextureType (name file) in
  match type with
  | Some type =>
      run (if truthy (getSlot type newMaterial)
           then let* old := deref (getSlot type newMaterial) in
                URL_revokeObjectURL (url old)
           else ret tt) then
      let* u := URL_createObjectURL file in
      ret (setSlot type (Some (mkTextureData u (name file))) newMaterial)
  | None => ret newMaterial
  end.

Fixpoint handleFilesLoop (newMaterial : MaterialState) (files : list File)
  : M State MaterialState :=
  match files with
  | [] => ret newMaterial
  | file :: rest =>
      let* newMaterial' := handleFile newMaterial file in
      handleFilesLoop newMaterial' rest
  end.

Definition handleFiles (files : list File) : M State unit :=
  let* newMaterial := gets material in
  let* newMaterial' := handleFilesLoop newMaterial files in
  setMaterial (fun _ => newMaterial').

Definition onDragOver : M State unit := setIsDragging true.

Definition onDragLeave : M State unit := setIsDragging false.

Definition onDrop (files : list File) : M State unit :=
  run setIsDragging false then
  if (0 <? List.length files)%nat then handleFiles files else ret tt.

Definition resetTexture (type : TextureMapType) : M State unit :=
  let* material := gets material in
  if truthy (getSlot type material)
  then let* old := deref (getSlot type material) in
       run URL_revokeObjectURL (url old) then
       setMaterial (fun prev => setSlot type None prev)
  else ret tt.

(** What the user can do to the component. *)
Inductive Event : Type :=
| DragOver
| DragLeave
| Drop (files : list File)
| ClickShape (s : ShapeType)
| ClickTrash (type : TextureMapType)
| ChangeTiling (v : number)
| ChangeDisplacement (v : number)
| ChangeExposure (v : number).

Definition handle (e : Event) : M State unit :=
  match e with
  | DragOver => onDragOver
  | DragLeave => onDragLeave
  | Drop files => onDrop files
  | ClickShape s =>
      setSettings (fun st => mkSettings s (tiling st) (displacementScale st)
                                        (exposure st) (roughness st) (metalness st))
  | ClickTrash type => resetTexture type
  | ChangeTiling v =>
      setSettings (fun st => mkSettings (shape st) v (displacementScale st)
                                        (exposure st) (roughness st) (metalness st))
  | ChangeDisplacement v =>
      setSettings (fun st => mkSettings (shape st) (tiling st) v
                                        (exposure st) (roughness st) (metalness st))
  | ChangeExposure v =>
      setSettings (fun st => mkSettings (shape st) (tiling st) (displacementScale st)
                                        v (roughness st) (metalness st))
  end.

End App.

(** ** components/MaterialViewer.tsx *)

Module MaterialViewer.

(** Props of a [meshStandardMaterial] element. *)
Record MaterialProps : Type := mkMaterialProps {
  textures : list (string * Texture);
  color : option string;
  displacementScale_prop : option number;
  roughness_prop : number;
  metalness_prop : number;
}.

Record MeshElement : Type := mkMeshElement {
  rotation : Rotation;
  geometry : Geometry;
  meshMaterial : MaterialProps;
}.

(** The [mapConfig] object: one entry per slot that holds a URL. *)
Definition mapConfig (material : MaterialState) : list (string * Url) :=
  let config := [] in
  let config := match map_ material with
                | Some t => config ++ [("map", url t)]
                | None => config
                end in
  let config := match normalMap material with
                | Some t => config ++ [("normalMap", url t)]
                | None => config
                end in
  let config := match roughnessMap material with
                | Some t => config ++ [("roughnessMap", url t)]
                | None => config
                end in
  let config := match metalnessMap material with
                | Some t => config ++ [("metalnessMap", url t)]
                | None => config
                end in
  let config := match aoMap material with
                | Some t => config ++ [("aoMap", url t)]
                | None => config
                end in
  let config := match displacementMap material with
                | Some t => config ++ [("displacementMap", url t)]
                | None => config
                end in
  config.

(** A texture as the loader hands it to its caller once the image has
    arrived: the loader has marked it for upload. *)
Definition loadedTexture (u : Url) : Texture :=
  let t := newTexture u in
  mkTexture (source t) (wrapS t) (wrapT t) (repeat t) (colorSpace t) (S (version t)).

(** [useTexture(mapConfig)], once every image is loaded: one loaded texture
    per entry, under the entry's key. *)
Definition useTexture (config : list (string * Url)) : list (string * Texture) :=
  List.map (fun e => (fst e, loadedTexture (snd e))) config.

(** The effect that configures tiling, wrapping and colour space. *)
Definition configureTextures (tiling : number) (textures : list (string * Texture))
  : list (string * Texture) :=
  List.map (fun e =>
              let key := fst e in
              let tex := snd e in
              (key, mkTexture (source tex) RepeatWrapping RepeatWrapping (tiling, tiling)
                              (if String.eqb key "map" then SRGBColorSpace else NoColorSpace)
                              (S (version tex))))
           textures.

Definition PBRGeometry (s : ShapeType) : Geometry :=
  match s with
  | sphere => SphereGeometry [1; 128; 128]%Q
  | plane => PlaneGeometry [2; 2; 512; 512]%Q
  | cube => BoxGeometry [15 # 10; 15 # 10; 15 # 10; 128; 128; 128]%Q
  end.

Definition meshRotation (s : ShapeType) : Rotation :=
  match s with plane => MinusHalfPiX | _ => NoRotation end.

(** [PBRMeshInternal], at the render that follows the loading of its
    textures, with the effect run once.  The hook keeps the texture objects
    between renders and the effect runs again when the tiling changes, so
    over the life of the page [version] of a texture only grows; nothing
    below depends on its value. *)
Definition PBRMeshInternal (material : MaterialState) (settings : ViewerSettings ShapeType)
  : MeshElement :=
  let textures := configureTextures (tiling settings) (useTexture (mapConfig material)) in
  mkMeshElement
    (meshRotation (shape settings))
    (PBRGeometry (shape settings))
    (mkMaterialProps
       textures
       None
       (Some (displacementScale settings))
       (if truthy (roughnessMap material) then Finite 1 else roughness settings)
       (if truthy (metalnessMap material) then Finite 1 else metalness settings)).

Definition FallbackGeometry (s : ShapeType) : Geometry :=
  match s with
  | sphere => SphereGeometry [1; 32; 32]%Q
  | plane => PlaneGeometry [2; 2]%Q
  | cube => BoxGeometry [15 # 10; 15 # 10; 15 # 10]%Q
  end.

Definition FallbackMesh (settings : ViewerSettings ShapeType) : MeshElement :=
  mkMeshElement
    (meshRotation (shape settings))
    (FallbackGeometry (shape settings))
    (mkMaterialProps [] (Some "#27272a") None (Finite (8 # 10)) (Finite (2 # 10))).

Record Viewer : Type := mkViewer {
  stageIntensity : number;
  mesh : MeshElement;
  autoRotate : bool;
  readyOverlay : bool;
}.

Definition MaterialViewer (material : MaterialState) (settings : ViewerSettings ShapeType)
  : Viewer :=
  let hasTextures := existsb truthy (slotValues material) in
  mkViewer (exposure settings)
           (if hasTextures then PBRMeshInternal material settings else FallbackMesh settings)
           (negb hasTextures)
           (negb hasTextures).

End MaterialViewer.

(** ** The vanilla DOM version *)

Module Vanilla.

(** A texture object, by its position in the heap of textures created. *)
Definition TexRef : Type := nat.

(** [THREE.MeshStandardMaterial] *)
Record Material : Type := mkMaterial {
  color : Z;
  mat_roughness : number;
  mat_metalness : number;
  mat_displacementScale : number;
  maps : Slots (option TexRef);
  mat_version : nat;
}.

Record Mesh : Type := mkMesh {
  geometry : Geometry;
  rotation : Rotation;
  mesh_material : Material;
}.

(** The five numeric parameters of the [params] table of [initUI]. *)
Inductive Param : Type :=
| Ptiling | PdisplacementScale | Pexposure | Proughness | Pmetalness.

Definition getParam (p : Param) (s : ViewerSettings string) : number :=
  match p with
  | Ptiling => tiling s
  | PdisplacementScale => displacementScale s
  | Pexposure => exposure s
  | Proughness => roughness s
  | Pmetalness => metalness s
  end.

Definition setParam (p : Param) (v : number) (s : ViewerSettings string)
  : ViewerSettings string :=
  match p with
  | Ptiling =>
      mkSettings (shape s) v (displacementScale s) (exposure s) (roughness s) (metalness s)
  | PdisplacementScale =>
      mkSettings (shape s) (tiling s) v (exposure s) (roughness s) (metalness s)
  | Pexposure =>
      mkSettings (shape s) (tiling s) (displacementScale s) v (roughness s) (metalness s)
  | Proughness =>
      mkSettings (shape s) (tiling s) (displacementScale s) (exposure s) v (metalness s)
  | Pmetalness =>
      mkSettings (shape s) (tiling s) (displacementScale s) (exposure s) (roughness s) v
  end.

(** The slider [param-<id>] and the text box [val-<id>] of one parameter.
    [min] and [max] are [parseFloat(slider.min)] and [parseFloat(slider.max)];
    the page that declares them is not part of the sources. *)
Record Control : Type := mkControl {
  min : number;
  max : number;
  slider_value : number;
  input_value : number;
}.

Record Controls : Type := mkControls {
  c_tiling : Control;
  c_displacement : Control;
  c_exposure : Control;
  c_roughness : Control;
  c_metalness : Control;
}.

Definition getControl (p : Param) (c : Controls) : Control :=
  match p with
  | Ptiling => c_tiling c
  | PdisplacementScale => c_displacement c
  | Pexposure => c_exposure c
  | Proughness => c_roughness c
  | Pmetalness => c_metalness c
  end.

Definition setControl (p : Param) (x : Control) (c : Controls) : Controls :=
  match p with
  | Ptiling => mkControls x (c_displacement c) (c_exposure c) (c_roughness c) (c_metalness c)
  | PdisplacementScale => mkControls (c_tiling c) x (c_exposure c) (c_roughness c) (c_metalness c)
  | Pexposure => mkControls (c_tiling c) (c_displacement c) x (c_roughness c) (c_metalness c)
  | Proughness => mkControls (c_tiling c) (c_displacement c) (c_exposure c) x (c_metalness c)
  | Pmetalness => mkControls (c_tiling c) (c_displacement c) (c_exposure c) (c_roughness c) x
  end.

(** One [div] appended to the [texture-slots] container: the class and the
    markup the script assigns to it, and the slot its click listener resets
    (the listener is registered on the first [.remove-btn] element of the
    markup, and only for a loaded slot).  [innerHTML] is the string the
    script assigns; how the browser parses it, and the icons
    [lucide.createIcons] puts in place of the [i] elements, are not
    modelled: the listener is recorded as registered on the button of the
    template, which is the element [querySelector] finds whenever the file
    name opens no tag or comment (has no '<'). *)
Record SlotView : Type := mkSlotView {
  className : string;
  innerHTML : string;
  removeListener : option TextureMapType;
}.

Definition dquote : string := String "034"%char EmptyString.
Definition newline : string := String "010"%char EmptyString.

(** [name="value"], as written in the template. *)
Definition attr (n v : string) : string :=
  String.concat EmptyString [n; "="; dquote; v; dquote].

Record Dom : Type := mkDom {
  textureSlots : list SlotView;
  controlsUI : Controls;
  activeShapeBtn : option string;
  overlayActive : bool;
}.

(** A [textureLoader.load] call whose image has not arrived yet. *)
Record PendingLoad : Type := mkPendingLoad {
  pl_type : TextureMapType;
  pl_file : File;
  pl_texture : TexRef;
}.

Record State : Type := mkState {
  material : Slots (option TexRef);        (* state.material *)
  settings : ViewerSettings string;        (* state.settings *)
  textureFiles : Slots (option File);      (* state.textureFiles *)
  mesh : option Mesh;
  autoRotate : bool;                       (* controls.autoRotate *)
  toneMappingExposure : number;            (* renderer.toneMappingExposure *)
  heap : list Texture;                     (* every texture object created *)
  disposeLog : list TexRef;                (* receivers of the dispose() calls *)
  urls : Browser;
  pending : list PendingLoad;
  dom : Dom;
}.

Definition with_material (v : Slots (option TexRef)) (st : State) : State :=
  mkState v (settings st) (textureFiles st) (mesh st) (autoRotate st)
          (toneMappingExposure st) (heap st) (disposeLog st) (urls st) (pending st) (dom st).

Definition with_settings (v : ViewerSettings string) (st : State) : State :=
  mkState (material st) v (textureFiles st) (mesh st) (autoRotate st)
          (toneMappingExposure st) (heap st) (disposeLog st) (urls st) (pending st) (dom st).

Definition with_textureFiles (v : Slots (option File)) (st : State) : State :=
  mkState (material st) (settings st) v (mesh st) (autoRotate st)
          (toneMappingExposure st) (heap st) (disposeLog st) (urls st) (pending st) (dom st).

Definition with_mesh (v : option Mesh) (st : State) : State :=
  mkState (material st) (settings st) (textureFiles st) v (autoRotate st)
          (toneMappingExposure st) (heap st) (disposeLog st) (urls st) (pending st) (dom st).

Definition with_autoRotate (v : bool) (st : State) : State :=
  mkState (material st) (settings st) (textureFiles st) (mesh st) v
          (toneMappingExposure st) (heap st) (disposeLog st) (urls st) (pending st) (dom st).

Definition with_toneMappingExposure (v : number) (st : State) : State :=
  mkState (material st) (settings st) (textureFiles st) (mesh st) (autoRotate st)
          v (heap st) (disposeLog st) (urls st) (pending st) (dom st).

Definition with_heap (v : list Texture) (st : State) : State :=
  mkState (material st) (settings st) (textureFiles st) (mesh st) (autoRotate st)
          (toneMappingExposure st) v (disposeLog st) (urls st) (pending st) (dom st).

Definition with_disposeLog (v : list TexRef) (st : State) : State :=
  mkState (material st) (settings st) (textureFiles st) (mesh st) (autoRotate st)
          (toneMappingExposure st) (heap st) v (urls st) (pending st) (dom st).

Definition with_urls (v : Browser) (st : State) : State :=
  mkState (material st) (settings st) (textureFiles st) (mesh st) (autoRotate st)
          (toneMappingExposure st) (heap st) (disposeLog st) v (pending st) (dom st).

Definition with_pending (v : list PendingLoad) (st : State) : State :=
  mkState (material st) (settings st) (textureFiles st) (mesh st) (autoRotate st)
          (toneMappingExposure st) (heap st) (disposeLog st) (urls st) v (dom st).

Definition with_dom (v : Dom) (st : State) : State :=
  mkState (material st) (settings st) (textureFiles st) (mesh st) (autoRotate st)
          (toneMappingExposure st) (heap st) (disposeLog st) (urls st) (pending st) v.

(** The [slots] table. *)
Definition slots : list (TextureMapType * string) :=
  [ (Tmap, "Albedo / Map");
    (TnormalMap, "Normal");
    (TroughnessMap, "Roughness");
    (TmetalnessMap, "Metallic");
    (TaoMap, "AO");
    (TdisplacementMap, "Height") ].

(** One round of the [slots.forEach] of [updateMaterial]: configure the
    texture held by the slot and hand it to the mesh material, or clear the
    material's slot. *)
Definition applySlot (st : State) (acc : Material * list Texture)
           (slot : TextureMapType * string) : Material * list Texture :=
  let mat := fst acc in
  let h := snd acc in
  let id := fst slot in
  let setMap v :=
    mkMaterial (color mat) (mat_roughness mat) (mat_metalness mat)
               (mat_displacementScale mat) (setSlot id v (maps mat)) (mat_version mat) in
  match getSlot id (material st) with
  | Some tex =>
      let configure t :=
        mkTexture (source t) RepeatWrapping RepeatWrapping
                  (tiling (settings st), tiling (settings st))
                  (match id with Tmap => SRGBColorSpace | _ => NoColorSpace end)
                  (S (version t)) in
      (setMap (Some tex), alter configure tex h)
  | None => (setMap None, h)
  end.

Definition updateMaterial (st : State) : State :=
  match mesh st with
  | None => st
  | Some m =>
      let mat := mesh_material m in
      let hasTextures := existsb truthy (slotValues (material st)) in
      (* Update material properties *)
      let mat := mkMaterial (color mat) (roughness (settings st)) (metalness (settings st))
                            (displacementScale (settings st)) (maps mat) (mat_version mat) in
      (* Apply textures *)
      let '(mat, h) := fold_left (applySlot st) slots (mat, heap st) in
      (* Handle initial color if no albedo map *)
      let mat := mkMaterial (if negb (truthy (map_ (material st))) then 0x27272a else 0xffffff)%Z
                            (mat_roughness mat) (mat_metalness mat)
                            (mat_displacementScale mat) (maps mat) (S (mat_version mat)) in
      with_autoRotate (negb hasTextures)
        (with_heap h (with_mesh (Some (mkMesh (geometry m) (rotation m) mat)) st))
  end.

Definition shapeGeometry (s : string) : Geometry :=
  if String.eqb s "sphere" then SphereGeometry [1; 128; 128]%Q
  else if String.eqb s "plane" then PlaneGeometry [2; 2; 512; 512]%Q
  else BoxGeometry [15 # 10; 15 # 10; 15 # 10; 128; 128; 128]%Q.

Definition updateGeometry (st : State) : State :=
  let geometry := shapeGeometry (shape (settings st)) in
  let material := mkMaterial 0xffffff%Z (roughness (settings st)) (metalness (settings st))
                             (Finite 1) allNull 0 in
  let mesh := mkMesh geometry
                     (if String.eqb (shape (settings st)) "plane" then MinusHalfPiX else NoRotation)
                     material in
  updateMaterial (with_mesh (Some mesh) st).

(** The body of the loop of [renderTextureSlots] for one slot: the template
    literal is filled with [slot.label], [slot.id] and [file.name] as they
    are, with no escaping. *)
Definition slotElement (slot : TextureMapType * string) (file : option File) : SlotView :=
  mkSlotView
    (String.concat EmptyString ["texture-slot "; if truthy file then "loaded" else ""])
    (String.concat EmptyString
       [ newline;
         "            <div "; attr "class" "slot-info"; ">"; newline;
         "                <span "; attr "class" "slot-label"; ">"; snd slot; "</span>"; newline;
         "                <span "; attr "class" "slot-filename"; ">";
         match file with Some f => name f | None => "Not loaded" end;
         "</span>"; newline;
         "            </div>"; newline;
         "            ";
         match file with
         | Some _ =>
             String.concat EmptyString
               [ newline;
                 "                <button "; attr "class" "remove-btn"; " ";
                 attr "data-id" (slotName (fst slot)); ">"; newline;
                 "                    <i "; attr "data-lucide" "trash-2"; "></i>"; newline;
                 "                </button>"; newline;
                 "            " ]
         | None =>
             String.concat EmptyString
               [ newline;
                 "                <div "; attr "class" "slot-action"; ">"; newline;
                 "                    <i "; attr "data-lucide" "upload"; "></i>"; newline;
                 "                </div>"; newline;
                 "            " ]
         end;
         newline;
         "        " ])
    (match file with Some _ => Some (fst slot) | None => None end).

Definition renderTextureSlots (st : State) : State :=
  let view (slot : TextureMapType * string) :=
    slotElement slot (getSlot (fst slot) (textureFiles st)) in
  with_dom (mkDom (List.map view slots) (controlsUI (dom st))
                  (activeShapeBtn (dom st)) (overlayActive (dom st))) st.

Definition matchTextureType (filename : string) : option TextureMapType :=
  let f := toLowerCase filename in
  if includes f "albedo" || includes f "diffuse" || includes f "basecolor" || includes f "color"
  then Some Tmap
  else if includes f "normal" || includes f "nrm" || includes f "nm"
  then Some TnormalMap
  else if includes f "roughness" || includes f "rough" || includes f "rgh"
  then Some TroughnessMap
  else if includes f "metal" || includes f "mtl"
  then Some TmetalnessMap
  else if includes f "ao" || includes f "ambientocclusion" || includes f "occlusion"
  then Some TaoMap
  else if includes f "height" || includes f "displacement" || includes f "disp"
  then Some TdisplacementMap
  else None.

(** [texture.dispose()] *)
Definition dispose (tex : TexRef) : M State unit :=
  modify (fun st => with_disposeLog (disposeLog st ++ [tex]) st).

Definition URL_createObjectURL (file : File) : M State Url :=
  fun st => let (u, b) := createObjectURL file (urls st) in Ok (u, with_urls b st).

(** [textureLoader.load(url, onLoad)]: the loader creates the texture
    object at once and calls [onLoad] with it when the image has arrived;
    the callback of [handleFiles] is kept as the slot and the file it closes
    over. *)
Definition textureLoader_load (u : Url) (type : TextureMapType) (file : File) : M State unit :=
  modify (fun st =>
            with_pending (pending st ++ [mkPendingLoad type file (List.length (heap st))])
                         (with_heap (heap st ++ [newTexture u]) st)).

(** The [onLoad] callback passed by [handleFiles]. *)
Definition onLoad (type : TextureMapType) (file : File) (texture : TexRef) : M State unit :=
  run modify (fun st => with_material (setSlot type (Some texture) (material st)) st) then
  run modify (fun st => with_textureFiles (setSlot type (Some file) (textureFiles st)) st) then
  run modify renderTextureSlots then
  modify updateMaterial.

Definition handleFile (file : File) : M State unit :=
  let type := matchTextureType (name file) in
  match type with
  | Some type =>
      let* material := gets material in
      run (if truthy (getSlot type material)
           then let* tex := deref (getSlot type material) in dispose tex
           else ret tt) then
      let* u := URL_createObjectURL file in
      textureLoader_load u type file
  | None => ret tt
  end.

Definition handleFiles (files : list File) : M State unit :=
  forEach files handleFile.

Definition resetTexture (type : TextureMapType) : M State unit :=
  let* material := gets material in
  if truthy (getSlot type material)
  then let* tex := deref (getSlot type material) in
       run dispose tex then
       run modify (fun st => with_material (setSlot type None (Vanilla.material st)) st) then
       run modify (fun st => with_textureFiles (setSlot type None (textureFiles st)) st) then
       run modify renderTextureSlots then
       modify updateMaterial
  else ret tt.

(** [updateAll] of the parameter [p]. *)
Definition updateAll (p : Param) (val : number) : M State unit :=
  run modify (fun st => with_settings (setParam p val (settings st)) st) then
  match p with
  | Pexposure => modify (with_toneMappingExposure val)
  | _ => modify updateMaterial
  end.

Definition setSliderValue (p : Param) (v : number) (st : State) : State :=
  let c := getControl p (controlsUI (dom st)) in
  with_dom (mkDom (textureSlots (dom st))
                  (setControl p (mkControl (min c) (max c) v (input_value c)) (controlsUI (dom st)))
                  (activeShapeBtn (dom st)) (overlayActive (dom st))) st.

Definition setInputValue (p : Param) (v : number) (st : State) : State :=
  let c := getControl p (controlsUI (dom st)) in
  with_dom (mkDom (textureSlots (dom st))
                  (setControl p (mkControl (min c) (max c) (slider_value c) v) (controlsUI (dom st)))
                  (activeShapeBtn (dom st)) (overlayActive (dom st))) st.

Definition setOverlayActive (b : bool) (st : State) : State :=
  with_dom (mkDom (textureSlots (dom st)) (controlsUI (dom st)) (activeShapeBtn (dom st)) b) st.

(** Slider -> Input & State; [value] is [parseFloat(e.target.value)]. *)
Definition onSliderInput (p : Param) (value : number) : M State unit :=
  let val := value in
  run modify (setInputValue p val) then
  updateAll p val.

(** Input -> Slider & State; [value] is [parseFloat(e.target.value)]. *)
Definition onTextInput (p : Param) (value : number) : M State unit :=
  let val := value in
  if isNaN val then ret tt
  else
    (* Clamp to slider bounds *)
    let* min := gets (fun st => min (getControl p (controlsUI (dom st)))) in
    let* max := gets (fun st => max (getControl p (controlsUI (dom st)))) in
    let val := Math_max min (Math_min max val) in
    run modify (setSliderValue p val) then
    updateAll p val.

(** Click on a [.geometry-btn] whose [data-shape] attribute is [dataShape]. *)
Definition onShapeClick (dataShape : string) : M State unit :=
  run modify (fun st => with_dom (mkDom (textureSlots (dom st)) (controlsUI (dom st))
                                        (Some dataShape) (overlayActive (dom st))) st) then
  run modify (fun st =>
                with_settings
                  (mkSettings dataShape (tiling (settings st)) (displacementScale (settings st))
                              (exposure (settings st)) (roughness (settings st))
                              (metalness (settings st))) st) then
  modify updateGeometry.

Definition onDrop (files : list File) : M State unit :=
  run modify (setOverlayActive false) then
  if (0 <? List.length files)%nat then handleFiles files else ret tt.

(** Removes the [k]-th element of a list and returns it. *)
Fixpoint take_nth {A : Type} (k : nat) (l : list A) : option (A * list A) :=
  match l, k with
  | [], _ => None
  | x :: l', O => Some (x, l')
  | x :: l', S k' =>
      match take_nth k' l' with
      | Some (y, r) => Some (y, x :: r)
      | None => None
      end
  end.

(** The image of the [k]-th outstanding load has arrived: the loader marks
    the texture for upload and runs the callback. *)
Definition onImageLoaded (k : nat) : M State unit :=
  let* outstanding := gets pending in
  match take_nth k outstanding with
  | Some (load, others) =>
      run modify (with_pending others) then
      run modify (fun st =>
                    with_heap (alter (fun t => mkTexture (source t) (wrapS t) (wrapT t) (repeat t)
                                                         (colorSpace t) (S (version t)))
                                     (pl_texture load) (heap st)) st) then
      onLoad (pl_type load) (pl_file load) (pl_texture load)
  | None => ret tt
  end.

(** The [k]-th outstanding load failed: no callback runs. *)
Definition onImageError (k : nat) : M State unit :=
  let* outstanding := gets pending in
  match take_nth k outstanding with
  | Some (_, others) => modify (with_pending others)
  | None => ret tt
  end.

(** What can happen to the page after start-up. *)
Inductive Event : Type :=
| ShapeClick (dataShape : string)
| SliderInput (p : Param) (value : number)
| TextInput (p : Param) (value : number)
| DragOver
| DragLeave
| Drop (files : list File)
| RemoveClick (type : TextureMapType)
| ImageLoaded (k : nat)
| ImageError (k : nat).

Definition handle (e : Event) : M State unit :=
  match e with
  | ShapeClick s => onShapeClick s
  | SliderInput p v => onSliderInput p v
  | TextInput p v => onTextInput p v
  | DragOver => modify (setOverlayActive true)
  | DragLeave => modify (setOverlayActive false)
  | Drop files => onDrop files
  | RemoveClick type => resetTexture type
  | ImageLoaded k => onImageLoaded k
  | ImageError k => onImageError k
  end.

(** The [state] object as the script declares it. *)
Definition initialSettings : ViewerSettings string :=
  mkSettings "cube" (Finite 1) (Finite (5 # 100)) (Finite 1) (Finite 1) (Finite 0).

(** The page after [initThree(); initUI();].  [bounds p] is the pair of
    [min] and [max] of the slider of [p]. *)
Definition start (bounds : Param -> number * number) : State :=
  let control p := mkControl (fst (bounds p)) (snd (bounds p))
                             (getParam p initialSettings) (getParam p initialSettings) in
  let st0 :=
    mkState allNull initialSettings allNull None true (getParam Pexposure initialSettings)
            [] [] noUrls []
            (mkDom [] (mkControls (control Ptiling) (control PdisplacementScale)
                                  (control Pexposure) (control Proughness)
                                  (control Pmetalness))
                   None false) in
  (* initThree *)
  let st1 := updateGeometry st0 in
  (* initUI *)
  renderTextureSlots st1.

End Vanilla.

(** ** The classifier as the specification words it *)

(** The keyword groups in the order they are checked, each with its role. *)
Definition keywordGroups : list (TextureMapType * list string) :=
  [ (Tmap, ["albedo"; "diffuse"; "basecolor"; "color"]);
    (TnormalMap, ["normal"; "nrm"; "nm"]);
    (TroughnessMap, ["roughness"; "rough"; "rgh"]);
    (TmetalnessMap, ["metal"; "mtl"]);
    (TaoMap, ["ao"; "ambientocclusion"; "occlusion"]);
    (TdisplacementMap, ["height"; "displacement"; "disp"]) ].

(** Some keyword of [kws] occurs in [f]. *)
Definition groupOccurs (kws : list string) (f : string) : Prop :=
  exists kw, In kw kws /\ Substring kw f.

(** The role of the first group of [groups] with a keyword occurring in [f]. *)
Definition firstMatchingGroup (groups : list (TextureMapType * list string)) (f : string)
  : option TextureMapType :=
  match find (fun g => existsb (includes f) (snd g)) groups with
  | Some g => Some (fst g)
  | None => None
  end.

(** What the specification asks of a classifier [classify]. *)
Definition ClassifierSpec (classify : string -> option TextureMapType) : Prop :=
  forall filename : string,
    let f := toLowerCase filename in
    (forall role,
        classify filename = Some role <->
        exists before kws after,
          keywordGroups = before ++ (role, kws) :: after /\
          groupOccurs kws f /\
          forall g, In g before -> ~ groupOccurs (snd g) f)
    /\ (classify filename = None <->
        forall g, In g keywordGroups -> ~ groupOccurs (snd g) f)
    /\ (forall role,
           classify filename = Some role ->
           In (slotName role)
              ["map"; "normalMap"; "roughnessMap"; "metalnessMap"; "aoMap"; "displacementMap"]).

(** ** Roughness and metalness as the two versions configure them *)

(** The [roughness] and [metalness] props the component-based version
    passes to its material element. *)
Definition App_roughness_metalness (material : MaterialState)
           (settings : ViewerSettings ShapeType) : number * number :=
  let props := MaterialViewer.meshMaterial (MaterialViewer.PBRMeshInternal material settings) in
  (MaterialViewer.roughness_prop props, MaterialViewer.metalness_prop props).

(** The [roughness] and [metalness] of the material the component-based
    version renders: [MaterialViewer] mounts [PBRMeshInternal] when some
    slot is loaded and [FallbackMesh] otherwise. *)
Definition App_rendered_roughness_metalness (material : MaterialState)
           (settings : ViewerSettings ShapeType) : number * number :=
  let props := MaterialViewer.meshMaterial
                 (MaterialViewer.mesh (MaterialViewer.MaterialViewer material settings)) in
  (MaterialViewer.roughness_prop props, MaterialViewer.metalness_prop props).

(** The [roughness] and [metalness] of the mesh material after
    [updateMaterial] of the vanilla version; nothing when there is no mesh. *)
Definition Vanilla_roughness_metalness (st : Vanilla.State) : option (number * number) :=
  match Vanilla.mesh (Vanilla.updateMaterial st) with
  | Some m => Some (Vanilla.mat_roughness (Vanilla.mesh_material m),
                    Vanilla.mat_metalness (Vanilla.mesh_material m))
  | None => None
  end.

(** The two versions are in the same situation: the same slots are loaded,
    the roughness and metalness settings are the same, and the vanilla
    version has its mesh. *)
Definition SameSituation (material : MaterialState) (settings : ViewerSettings ShapeType)
           (st : Vanilla.State) : Prop :=
  (forall type, truthy (getSlot type material) = truthy (getSlot type (Vanilla.material st)))
  /\ roughness settings = roughness (Vanilla.settings st)
  /\ metalness settings = metalness (Vanilla.settings st)
  /\ Vanilla.mesh st <> None.

(** Slider bounds as the component-based version declares them for its
    three sliders, with [0, 1] for roughness and metalness. *)
Definition exampleBounds (p : Vanilla.Param) : number * number :=
  match p with
  | Vanilla.Ptiling => (Finite (1 # 10), Finite 10)
  | Vanilla.PdisplacementScale => (Finite 0, Finite 1)
  | Vanilla.Pexposure => (Finite 0, Finite 2)
  | Vanilla.Proughness => (Finite 0, Finite 1)
  | Vanilla.Pmetalness => (Finite 0, Finite 1)
  end.

(** A dropped metalness map, and the two versions after it is loaded. *)
Definition steelMetal : File := mkFile "steel_metal.png" "".

Definition App_with_metalness_map : App.State :=
  match exec (App.handle (App.Drop [steelMetal])) App.initialState with
  | Ok st => st
  | TypeError => App.initialState
  end.

Definition Vanilla_with_metalness_map : Vanilla.State :=
  match exec (forEach [Vanilla.Drop [steelMetal]; Vanilla.ImageLoaded 0] Vanilla.handle)
             (Vanilla.start exampleBounds) with
  | Ok st => st
  | TypeError => Vanilla.start exampleBounds
  end.

(** ** Slider ranges *)

(** [v] lies in the closed range [b]. *)
Definition within (b : number * number) (v : number) : bool :=
  num_leb (fst b) v && num_leb v (snd b).

(** The [min] and [max] of the slider of [p] on the page. *)
Definition boundsOf (st : Vanilla.State) (p : Vanilla.Param) : number * number :=
  let c := Vanilla.getControl p (Vanilla.controlsUI (Vanilla.dom st)) in
  (Vanilla.min c, Vanilla.max c).

(** [st'] shows the same settings, slider bounds and mesh geometry as [st]. *)
Definition KeepsView (st st' : Vanilla.State) : Prop :=
  Vanilla.settings st' = Vanilla.settings st
  /\ (forall p, boundsOf st' p = boundsOf st p)
  /\ option_map Vanilla.geometry (Vanilla.mesh st')
     = option_map Vanilla.geometry (Vanilla.mesh st).

(** ** Geometry kinds *)

Definition ValidShape (s : string) : Prop :=
  s = "cube" \/ s = "sphere" \/ s = "plane".

(** Every geometry button clicked in [es] carries one of the three shapes
    in its [data-shape] attribute. *)
Definition ShapeButtonsValid (es : list Vanilla.Event) : Prop :=
  forall s, In (Vanilla.ShapeClick s) es -> ValidShape s.

(** Every slider event of [es] delivers a value of the slider's range, as
    a range input does. *)
Definition SliderEventsWithin (bounds : Vanilla.Param -> number * number)
           (es : list Vanilla.Event) : Prop :=
  forall p v, In (Vanilla.SliderInput p v) es -> within (bounds p) v = true.

(** ** Dropped files *)

(** The file's name is classified by the component-based version. *)
Definition App_matched (file : File) : bool :=
  truthy (App.matchTextureType (name file)).

(** The file's name is classified by the vanilla version. *)
Definition Vanilla_matched (file : File) : bool :=
  truthy (Vanilla.matchTextureType (name file)).

(** Two files of one dropped batch that both classify as the albedo map. *)
Definition albedoA : File := mkFile "a_albedo.png" "A".

Definition albedoB : File := mkFile "b_albedo.png" "B".

(** ** Object URLs held by the slots of the component-based version *)

(** The live object URLs are those the slots of [m] hold, one for each
    occupied slot. *)
Definition SlotsOwnUrls (m : MaterialState) (b : Browser) : Prop :=
  (forall u, In u (List.map fst (live b)) <->
             exists type td, getSlot type m = Some td /\ url td = u)
  /\ (forall t1 t2 td1 td2,
         getSlot t1 m = Some td1 -> getSlot t2 m = Some td2 ->
         url td1 = url td2 -> t1 = t2)
  /\ (forall u, In u (List.map fst (live b)) -> (u < issued b)%nat)
  /\ List.NoDup (List.map fst (live b)).

(** The last file of [files] that the classifier assigns to [type]. *)
Fixpoint lastMatching (type : TextureMapType) (files : list File) : option File :=
  match files with
  | [] => None
  | file :: rest =>
      match lastMatching type rest with
      | Some g => Some g
      | None =>
          match App.matchTextureType (name file) with
          | Some t => if TextureMapType_eqb t type then Some file else None
          | None => None
          end
      end
  end.

(** The live object URLs are those held by the slots of [m] other than
    [type]. *)
Definition OthersOwnUrls (type : TextureMapType) (m : MaterialState) (b : Browser) : Prop :=
  (forall u, In u (List.map fst (live b)) <->
             exists t td, t <> type /\ getSlot t m = Some td /\ url td = u)
  /\ (forall t1 t2 td1 td2,
         getSlot t1 m = Some td1 -> getSlot t2 m = Some td2 ->
         url td1 = url td2 -> t1 = t2)
  /\ (forall u, In u (List.map fst (live b)) -> (u < issued b)%nat)
  /\ List.NoDup (List.map fst (live b)).

(** Unfolds the combinators of [M] in the goal and the hypotheses. *)
Ltac unfold_monad :=
  unfold bind, ret, gets, modify, deref, throwTypeError in *.

(** ** Further notions used by the properties of the two versions *)

(** Position of a role's keyword group in the order of the checks of
    [matchTextureType]. *)
Definition rank (t : TextureMapType) : nat :=
  match t with
  | Tmap => 0
  | TnormalMap => 1
  | TroughnessMap => 2
  | TmetalnessMap => 3
  | TaoMap => 4
  | TdisplacementMap => 5
  end.

(** Every occupied slot of [m] holds a name that the classifier of the
    component-based version assigns to that very slot. *)
Definition App_namesClassify (m : MaterialState) : Prop :=
  forall type td, getSlot type m = Some td -> App.matchTextureType (td_name td) = Some type.

(** Every object URL issued so far is live or was revoked, once. *)
Definition UrlsAccounted (b : Browser) : Prop :=
  issued b = (List.length (live b) + List.length (revokeLog b))%nat.

(** The six slot keys, in the order of the slot tables. *)
Definition allSlots : list TextureMapType :=
  [Tmap; TnormalMap; TroughnessMap; TmetalnessMap; TaoMap; TdisplacementMap].

(** The slots among [ts] that hold something. *)
Definition occupiedAmong {A : Type} (ts : list TextureMapType) (m : Slots (option A))
  : list TextureMapType :=
  List.filter (fun t => truthy (getSlot t m)) ts.

(** The object URLs held by the slots among [ts]. *)
Definition heldUrls (ts : list TextureMapType) (m : MaterialState) : list Url :=
  flat_map (fun t => match getSlot t m with Some td => [url td] | None => [] end) ts.

(** ** The handlers of the vanilla version as state transformers

    No handler of the vanilla version throws; these functions give the
    state each one ends in ([Vanilla_handle_step] below proves it). *)

(** [handleFiles] on one classified file: dispose the texture the slot
    holds, create the object URL and start the load. *)
Definition Vanilla_startLoad (type : TextureMapType) (file : File) (st : Vanilla.State)
  : Vanilla.State :=
  let st1 := match getSlot type (Vanilla.material st) with
             | Some tex => Vanilla.with_disposeLog (Vanilla.disposeLog st ++ [tex]) st
             | None => st
             end in
  let ub := createObjectURL file (Vanilla.urls st1) in
  let st2 := Vanilla.with_urls (snd ub) st1 in
  Vanilla.with_pending
    (Vanilla.pending st2 ++ [Vanilla.mkPendingLoad type file (List.length (Vanilla.heap st2))])
    (Vanilla.with_heap (Vanilla.heap st2 ++ [newTexture (fst ub)]) st2).

Definition Vanilla_dropFile (st : Vanilla.State) (file : File) : Vanilla.State :=
  match Vanilla.matchTextureType (name file) with
  | Some type => Vanilla_startLoad type file st
  | None => st
  end.

(** [updateAll] *)
Definition Vanilla_applyParam (p : Vanilla.Param) (val : number) (st : Vanilla.State)
  : Vanilla.State :=
  let st1 := Vanilla.with_settings (Vanilla.setParam p val (Vanilla.settings st)) st in
  match p with
  | Vanilla.Pexposure => Vanilla.with_toneMappingExposure val st1
  | _ => Vanilla.updateMaterial st1
  end.

(** The slots and the page after a slot was given the value [tex] and the
    file [file] (both null for [resetTexture]). *)
Definition Vanilla_fillSlot (type : TextureMapType) (tex : option Vanilla.TexRef)
           (file : option File) (st : Vanilla.State) : Vanilla.State :=
  Vanilla.updateMaterial
    (Vanilla.renderTextureSlots
       (Vanilla.with_textureFiles
          (setSlot type file (Vanilla.textureFiles st))
          (Vanilla.with_material (setSlot type tex (Vanilla.material st)) st))).

Definition Vanilla_step (e : Vanilla.Event) (st : Vanilla.State) : Vanilla.State :=
  match e with
  | Vanilla.ShapeClick s =>
      Vanilla.updateGeometry
        (Vanilla.with_settings
           (mkSettings s (tiling (Vanilla.settings st)) (displacementScale (Vanilla.settings st))
                       (exposure (Vanilla.settings st)) (roughness (Vanilla.settings st))
                       (metalness (Vanilla.settings st)))
           (Vanilla.with_dom (Vanilla.mkDom (Vanilla.textureSlots (Vanilla.dom st))
                                            (Vanilla.controlsUI (Vanilla.dom st))
                                            (Some s) (Vanilla.overlayActive (Vanilla.dom st)))
                             st))
  | Vanilla.SliderInput p v => Vanilla_applyParam p v (Vanilla.setInputValue p v st)
  | Vanilla.TextInput p v =>
      if isNaN v then st
      else
        let val := Math_max (fst (boundsOf st p)) (Math_min (snd (boundsOf st p)) v) in
        Vanilla_applyParam p val (Vanilla.setSliderValue p val st)
  | Vanilla.DragOver => Vanilla.setOverlayActive true st
  | Vanilla.DragLeave => Vanilla.setOverlayActive false st
  | Vanilla.Drop files => fold_left Vanilla_dropFile files (Vanilla.setOverlayActive false st)
  | Vanilla.RemoveClick type =>
      match getSlot type (Vanilla.material st) with
      | Some tex =>
          Vanilla_fillSlot type None None
            (Vanilla.with_disposeLog (Vanilla.disposeLog st ++ [tex]) st)
      | None => st
      end
  | Vanilla.ImageLoaded k =>
      match Vanilla.take_nth k (Vanilla.pending st) with
      | Some (load, others) =>
          Vanilla_fillSlot (Vanilla.pl_type load) (Some (Vanilla.pl_texture load))
            (Some (Vanilla.pl_file load))
            (Vanilla.with_heap
               (alter (fun t => mkTexture (source t) (wrapS t) (wrapT t) (repeat t)
                                          (colorSpace t) (S (version t)))
                      (Vanilla.pl_texture load) (Vanilla.heap st))
               (Vanilla.with_pending others st))
      | None => st
      end
  | Vanilla.ImageError k =>
      match Vanilla.take_nth k (Vanilla.pending st) with
      | Some (_, others) => Vanilla.with_pending others st
      | None => st
      end
  end.

(** The mesh of the vanilla version has the geometry and the rotation of
    the shape setting. *)
Definition MeshShaped (st : Vanilla.State) (m : Vanilla.Mesh) : Prop :=
  Vanilla.geometry m = Vanilla.shapeGeometry (shape (Vanilla.settings st))
  /\ Vanilla.rotation m
     = (if String.eqb (shape (Vanilla.settings st)) "plane" then MinusHalfPiX else NoRotation).

(** The mesh material, the orbit controls and the renderer of the vanilla
    version show what [state] says. *)
Definition MeshInSync (st : Vanilla.State) : Prop :=
  exists m,
    Vanilla.mesh st = Some m
    /\ MeshShaped st m
    /\ Vanilla.maps (Vanilla.mesh_material m) = Vanilla.material st
    /\ Vanilla.mat_roughness (Vanilla.mesh_material m) = roughness (Vanilla.settings st)
    /\ Vanilla.mat_metalness (Vanilla.mesh_material m) = metalness (Vanilla.settings st)
    /\ Vanilla.mat_displacementScale (Vanilla.mesh_material m)
       = displacementScale (Vanilla.settings st)
    /\ Vanilla.color (Vanilla.mesh_material m)
       = (if truthy (map_ (Vanilla.material st)) then 0xffffff else 0x27272a)%Z
    /\ Vanilla.autoRotate st = negb (existsb truthy (slotValues (Vanilla.material st)))
    /\ Vanilla.toneMappingExposure st = exposure (Vanilla.settings st).

(** The entry [renderTextureSlots] builds for one row of the slot table. *)
Definition Vanilla_slotView (files : Slots (option File)) (slot : TextureMapType * string)
  : Vanilla.SlotView :=
  Vanilla.slotElement slot (getSlot (fst slot) files).

(** The slot panel of the vanilla version is built from the loaded files, a
    slot has a file exactly when it has a texture, and every file sits in (or is
    being loaded for) the slot its name classifies to. *)
Definition PanelInSync (st : Vanilla.State) : Prop :=
  Vanilla.textureSlots (Vanilla.dom st)
  = List.map (Vanilla_slotView (Vanilla.textureFiles st)) Vanilla.slots
  /\ (forall type, truthy (getSlot type (Vanilla.material st))
                   = truthy (getSlot type (Vanilla.textureFiles st)))
  /\ (forall type file,
         getSlot type (Vanilla.textureFiles st) = Some file ->
         Vanilla.matchTextureType (name file) = Some type)
  /\ (forall load,
         In load (Vanilla.pending st) ->
         Vanilla.matchTextureType (name (Vanilla.pl_file load)) = Some (Vanilla.pl_type load)).

(** What [updateMaterial] does to the texture of the slot [id]. *)
Definition Vanilla_configure (tiling : number) (id : TextureMapType) (t : Texture) : Texture :=
  mkTexture (source t) RepeatWrapping RepeatWrapping (tiling, tiling)
            (match id with Tmap => SRGBColorSpace | _ => NoColorSpace end)
            (S (version t)).

(** The texture [t] repeats in both directions, [tiling] times, and is in
    the colour space of the slot [id]: sRGB for the albedo map, none
    otherwise. *)
Definition TextureConfigured (tiling : number) (id : TextureMapType) (t : Texture) : Prop :=
  wrapS t = RepeatWrapping
  /\ wrapT t = RepeatWrapping
  /\ repeat t = (tiling, tiling)
  /\ colorSpace t = (match id with Tmap => SRGBColorSpace | _ => NoColorSpace end).

(** The texture references of the vanilla state are in order: there is a
    mesh, no texture object sits in two slots or is both in a slot and
    still loading, no two outstanding loads share a texture object, and
    every reference points into the heap. *)
Definition RefsInOrder (st : Vanilla.State) : Prop :=
  Vanilla.mesh st <> None
  /\ (forall type r, getSlot type (Vanilla.material st) = Some r ->
                     (r < List.length (Vanilla.heap st))%nat)
  /\ (forall t1 t2 r, getSlot t1 (Vanilla.material st) = Some r ->
                      getSlot t2 (Vanilla.material st) = Some r -> t1 = t2)
  /\ (forall load, In load (Vanilla.pending st) ->
                   (Vanilla.pl_texture load < List.length (Vanilla.heap st))%nat)
  /\ List.NoDup (List.map Vanilla.pl_texture (Vanilla.pending st))
  /\ (forall load type, In load (Vanilla.pending st) ->
                        getSlot type (Vanilla.material st) <> Some (Vanilla.pl_texture load)).

(** Every texture held by a slot is configured for that slot with the
    tiling setting. *)
Definition SlotTexturesConfigured (st : Vanilla.State) : Prop :=
  forall type r,
    getSlot type (Vanilla.material st) = Some r ->
    exists tex, Vanilla.heap st !! r = Some tex
                /\ TextureConfigured (tiling (Vanilla.settings st)) type tex.

(** The string literal each member of [ShapeType] stands for. *)
Definition shapeName (s : ShapeType) : string :=
  match s with
  | cube => "cube"
  | sphere => "sphere"
  | plane => "plane"
  end.

(** No dropped file has a '<' in its name, so that the name is text of the
    row it is inserted in, not markup. *)
Definition PlainNames (es : list Vanilla.Event) : Prop :=
  forall files file,
    In (Vanilla.Drop files) es -> In file files -> includes (name file) "<" = false.

(** The textures [handleFiles] disposes of on a batch, in order: for each
    classified file whose slot holds a texture, that texture. *)
Definition Vanilla_disposedBy (material : Slots (option Vanilla.TexRef)) (files : list File)
  : list Vanilla.TexRef :=
  flat_map (fun file =>
              match Vanilla.matchTextureType (name file) with
              | Some type => match getSlot type material with
                             | Some tex => [tex]
                             | None => []
                             end
              | None => []
              end) files.

(** * Properties *)

(** ** Strings *)

Lemma startsWith_spec (s kw : string) :
  startsWith s kw = true <-> exists post, s = String.append kw post.
Proof.
  revert s. induction kw as [|a kw IH]; intros s; simpl.
  - split; [intros _; exists s; reflexivity | intros _; destruct s; reflexivity].
  - destruct s as [|b s]; simpl.
    + split; [discriminate | intros [post H]; discriminate].
    + rewrite andb_true_iff, Ascii.eqb_eq, IH. split.
      * intros [-> [post ->]]. exists post. reflexivity.
      * intros [post H]. injection H as -> ->. split; [reflexivity | exists post; reflexivity].
Qed.

Lemma includes_spec (s kw : string) :
  includes s kw = true <-> Substring kw s.
Proof.
  unfold Substring. induction s as [|c s IH].
  - cbn [includes]. rewrite orb_false_r, startsWith_spec. split.
    + intros [post H]. exists EmptyString, post. exact H.
    + intros [pre [post H]]. destruct pre; simpl in H.
      * exists post. exact H.
      * discriminate.
  - cbn [includes]. rewrite orb_true_iff, startsWith_spec, IH. split.
    + intros [[post H] | [pre [post H]]].
      * exists EmptyString, post. exact H.
      * exists (String c pre), post. simpl. rewrite H. reflexivity.
    + intros [pre [post H]]. destruct pre as [|c' pre]; simpl in H.
      * left. exists post. exact H.
      * right. injection H as _ H. exists pre, post. exact H.
Qed.

Lemma toLowerCaseChar_idempotent (c : ascii) :
  toLowerCaseChar (toLowerCaseChar c) = toLowerCaseChar c.
Proof.
  destruct c as [[] [] [] [] [] [] [] []]; reflexivity.
Qed.

Lemma toLowerCase_idempotent (s : string) :
  toLowerCase (toLowerCase s) = toLowerCase s.
Proof.
  induction s as [|c s IH]; simpl.
  - reflexivity.
  - rewrite toLowerCaseChar_idempotent, IH. reflexivity.
Qed.

(** ** The classifier *)

Lemma existsb_includes_spec (f : string) (kws : list string) :
  existsb (includes f) kws = true <-> groupOccurs kws f.
Proof.
  unfold groupOccurs. rewrite existsb_exists. split.
  - intros [kw [Hin H]]. exists kw. split; [exact Hin | apply includes_spec; exact H].
  - intros [kw [Hin H]]. exists kw. split; [exact Hin | apply includes_spec; exact H].
Qed.

Lemma find_first {A : Type} (P : A -> bool) (l : list A) (x : A) :
  find P l = Some x <->
  exists before after, l = before ++ x :: after /\ P x = true /\
                       forall y, In y before -> P y = false.
Proof.
  induction l as [|a l IH]; simpl.
  - split; [discriminate |]. intros [before [after [H _]]]. destruct before; discriminate.
  - destruct (P a) eqn:Pa.
    + split.
      * intros [= ->]. exists [], l. repeat split; [exact Pa | intros y []].
      * intros [before [after [H [Px Hb]]]]. destruct before as [|b before].
        -- simpl in H. injection H as -> _. reflexivity.
        -- simpl in H. injection H as -> _. rewrite (Hb b) in Pa; [discriminate | left; reflexivity].
    + rewrite IH. split.
      * intros [before [after [-> [Px Hb]]]]. exists (a :: before), after.
        repeat split; [exact Px |]. intros y [<- | Hy]; [exact Pa | apply Hb; exact Hy].
      * intros [before [after [H [Px Hb]]]]. destruct before as [|b before].
        -- simpl in H. injection H as -> _. rewrite Px in Pa. discriminate.
        -- simpl in H. injection H as -> ->. exists before, after.
           repeat split; [exact Px |]. intros y Hy. apply Hb. right. exact Hy.
Qed.

Lemma firstMatchingGroup_Some groups f role :
  firstMatchingGroup groups f = Some role <->
  exists before kws after,
    groups = before ++ (role, kws) :: after /\
    groupOccurs kws f /\
    forall g, In g before -> ~ groupOccurs (snd g) f.
Proof.
  unfold firstMatchingGroup. split.
  - destruct (find _ groups) as [g|] eqn:Hfind; [|discriminate].
    intros [= <-]. apply find_first in Hfind as [before [after [-> [Hg Hb]]]].
    exists before, (snd g), after. destruct g as [r kws]. simpl in *.
    repeat split.
    + apply existsb_includes_spec. exact Hg.
    + intros g Hin Hocc. apply existsb_includes_spec in Hocc.
      rewrite (Hb g Hin) in Hocc. discriminate.
  - intros [before [kws [after [-> [Hocc Hb]]]]].
    assert (Hfind : find (fun g => existsb (includes f) (snd g))
                         (before ++ (role, kws) :: after) = Some (role, kws)).
    { apply find_first. exists before, after. repeat split.
      - apply existsb_includes_spec. exact Hocc.
      - intros y Hy. destruct (existsb (includes f) (snd y)) eqn:E; [|reflexivity].
        exfalso. apply (Hb y Hy). apply existsb_includes_spec. exact E. }
    rewrite Hfind. reflexivity.
Qed.

Lemma firstMatchingGroup_None groups f :
  firstMatchingGroup groups f = None <->
  forall g, In g groups -> ~ groupOccurs (snd g) f.
Proof.
  unfold firstMatchingGroup. split.
  - destruct (find _ groups) as [g|] eqn:Hfind; [discriminate|].
    intros _ g Hin Hocc. apply existsb_includes_spec in Hocc.
    pose proof (find_none _ _ Hfind g Hin) as Hn. simpl in Hn.
    rewrite Hn in Hocc. discriminate.
  - intros Hall. destruct (find _ groups) as [g|] eqn:Hfind; [|reflexivity].
    apply find_some in Hfind as [Hin Hg]. exfalso.
    apply (Hall g Hin). apply existsb_includes_spec. exact Hg.
Qed.

Lemma App_matchTextureType_firstMatchingGroup (filename : string) :
  App.matchTextureType filename = firstMatchingGroup keywordGroups (toLowerCase filename).
Proof.
  unfold App.matchTextureType, firstMatchingGroup, keywordGroups.
  cbn [find existsb snd fst]. rewrite !orb_false_r, <- !orb_assoc.
  repeat match goal with
         | |- context [if ?b then _ else _] => destruct b; [reflexivity|]
         end.
  reflexivity.
Qed.

Lemma Vanilla_matchTextureType_firstMatchingGroup (filename : string) :
  Vanilla.matchTextureType filename = firstMatchingGroup keywordGroups (toLowerCase filename).
Proof.
  unfold Vanilla.matchTextureType, firstMatchingGroup, keywordGroups.
  cbn [find existsb snd fst]. rewrite !orb_false_r, <- !orb_assoc.
  repeat match goal with
         | |- context [if ?b then _ else _] => destruct b; [reflexivity|]
         end.
  reflexivity.
Qed.

Lemma slotName_in_slots (role : TextureMapType) :
  In (slotName role)
     ["map"; "normalMap"; "roughnessMap"; "metalnessMap"; "aoMap"; "displacementMap"].
Proof.
  destruct role; simpl; tauto.
Qed.

Lemma ClassifierSpec_of_firstMatchingGroup (classify : string -> option TextureMapType) :
  (forall filename, classify filename = firstMatchingGroup keywordGroups (toLowerCase filename)) ->
  ClassifierSpec classify.
Proof.
  intros Heq filename f. subst f. rewrite Heq. split; [|split].
  - intros role. apply firstMatchingGroup_Some.
  - apply firstMatchingGroup_None.
  - intros role _. apply slotName_in_slots.
Qed.

(** C1. For every file name, [matchTextureType] (in both versions) returns
    the role of the first keyword group, in the fixed order, one of whose
    keywords is a substring of the lower-cased name; it returns null exactly
    when no keyword of any group occurs there; and every role it returns
    is one of the six slot names. *)
Theorem C1_matchTextureType_first_keyword_group :
  ClassifierSpec App.matchTextureType /\ ClassifierSpec Vanilla.matchTextureType.
Proof.
  split; apply ClassifierSpec_of_firstMatchingGroup.
  - exact App_matchTextureType_firstMatchingGroup.
  - exact Vanilla_matchTextureType_firstMatchingGroup.
Qed.

(** C2. The classifier of the component-based version and the classifier of
    the vanilla DOM version return the same role, or both null, on every
    file name. *)
Theorem C2_matchTextureType_versions_agree (filename : string) :
  App.matchTextureType filename = Vanilla.matchTextureType filename.
Proof.
  rewrite App_matchTextureType_firstMatchingGroup,
          Vanilla_matchTextureType_firstMatchingGroup.
  reflexivity.
Qed.

(** C10. The classifier is case-insensitive: in both versions the role of a
    file name is the role of its lower-case form. *)
Theorem C10_matchTextureType_case_insensitive (filename : string) :
  App.matchTextureType filename = App.matchTextureType (toLowerCase filename) /\
  Vanilla.matchTextureType filename = Vanilla.matchTextureType (toLowerCase filename).
Proof.
  unfold App.matchTextureType, Vanilla.matchTextureType.
  rewrite toLowerCase_idempotent. split; reflexivity.
Qed.

(** The order of the groups decides: a name with keywords of two groups
    gets the role of the earlier group, and "nm" inside a word counts. *)
Example matchTextureType_samples :
  List.map App.matchTextureType
           ["Wood_BaseColor.png"; "Metal_Roughness.png"; "Environment_Height.png";
            "Rock_NRM.tga"; "bricks_disp.jpg"; "notes.txt"]
  = [Some Tmap; Some TroughnessMap; Some TnormalMap;
     Some TnormalMap; Some TdisplacementMap; None].
Proof. vm_compute. reflexivity. Qed.

(** ** Roughness and metalness *)

Lemma Vanilla_applySlot_keeps (st : Vanilla.State) (acc : Vanilla.Material * list Texture)
      (slot : TextureMapType * string) :
  Vanilla.mat_roughness (fst (Vanilla.applySlot st acc slot)) = Vanilla.mat_roughness (fst acc) /\
  Vanilla.mat_metalness (fst (Vanilla.applySlot st acc slot)) = Vanilla.mat_metalness (fst acc) /\
  Vanilla.mat_displacementScale (fst (Vanilla.applySlot st acc slot))
  = Vanilla.mat_displacementScale (fst acc).
Proof.
  unfold Vanilla.applySlot.
  destruct (getSlot (fst slot) (Vanilla.material st)); simpl; auto.
Qed.

Lemma Vanilla_applySlots_keep (st : Vanilla.State) (l : list (TextureMapType * string))
      (acc : Vanilla.Material * list Texture) :
  Vanilla.mat_roughness (fst (fold_left (Vanilla.applySlot st) l acc))
  = Vanilla.mat_roughness (fst acc) /\
  Vanilla.mat_metalness (fst (fold_left (Vanilla.applySlot st) l acc))
  = Vanilla.mat_metalness (fst acc).
Proof.
  revert acc. induction l as [|slot l IH]; intros acc; simpl.
  - auto.
  - destruct (IH (Vanilla.applySlot st acc slot)) as [Hr Hm].
    destruct (Vanilla_applySlot_keeps st acc slot) as [Hr' [Hm' _]].
    rewrite Hr, Hm, Hr', Hm'. auto.
Qed.

Lemma Vanilla_roughness_metalness_settings (st : Vanilla.State) :
  Vanilla.mesh st <> None ->
  Vanilla_roughness_metalness st
  = Some (roughness (Vanilla.settings st), metalness (Vanilla.settings st)).
Proof.
  intros Hmesh. unfold Vanilla_roughness_metalness, Vanilla.updateMaterial.
  destruct (Vanilla.mesh st) as [m|]; [|congruence].
  match goal with
  | |- context [fold_left ?f ?l ?a] =>
      pose proof (Vanilla_applySlots_keep st l a) as [Hr Hm];
      destruct (fold_left f l a) as [mat h]
  end.
  simpl in *. rewrite Hr, Hm. reflexivity.
Qed.




(** ** Numbers *)

Lemma num_leb_not_NaN (x y : number) :
  num_leb x y = true -> isNaN x = false /\ isNaN y = false.
Proof.
  destruct x, y; simpl; intros H; try discriminate; auto.
Qed.

Lemma num_leb_refl (x : number) : isNaN x = false -> num_leb x x = true.
Proof.
  destruct x; simpl; intros H; try discriminate; try reflexivity.
  apply Qle_bool_iff. apply Qle_refl.
Qed.

Lemma num_ltb_leb (x y : number) : num_ltb x y = true -> num_leb x y = true.
Proof.
  destruct x, y; simpl; intros H; try discriminate; try reflexivity.
  apply negb_true_iff in H. apply Qle_bool_iff.
  destruct (Qlt_le_dec q q0) as [Hlt | Hle].
  - apply Qlt_le_weak. exact Hlt.
  - apply Qle_bool_iff in Hle. rewrite Hle in H. discriminate.
Qed.

Lemma Math_min_upper (hi v : number) :
  isNaN hi = false -> isNaN v = false ->
  isNaN (Math_min hi v) = false /\ num_leb (Math_min hi v) hi = true.
Proof.
  intros Hhi Hv. unfold Math_min. rewrite Hhi, Hv. simpl.
  destruct (num_ltb v hi) eqn:E.
  - split; [exact Hv | apply num_ltb_leb; exact E].
  - split; [exact Hhi | apply num_leb_refl; exact Hhi].
Qed.

Lemma clamp_within (lo hi v : number) :
  num_leb lo hi = true -> isNaN v = false ->
  within (lo, hi) (Math_max lo (Math_min hi v)) = true.
Proof.
  intros Hb Hv. destruct (num_leb_not_NaN _ _ Hb) as [Hlo Hhi].
  destruct (Math_min_upper hi v Hhi Hv) as [Hm Hmhi].
  unfold within, Math_max. simpl. rewrite Hlo, Hm. simpl.
  destruct (num_ltb lo (Math_min hi v)) eqn:E.
  - rewrite (num_ltb_leb _ _ E), Hmhi. reflexivity.
  - rewrite (num_leb_refl lo Hlo), Hb. reflexivity.
Qed.

(** ** The vanilla version: what each step leaves alone *)

Lemma Vanilla_updateMaterial_frame (st : Vanilla.State) :
  Vanilla.material (Vanilla.updateMaterial st) = Vanilla.material st
  /\ Vanilla.settings (Vanilla.updateMaterial st) = Vanilla.settings st
  /\ Vanilla.textureFiles (Vanilla.updateMaterial st) = Vanilla.textureFiles st
  /\ Vanilla.toneMappingExposure (Vanilla.updateMaterial st) = Vanilla.toneMappingExposure st
  /\ Vanilla.disposeLog (Vanilla.updateMaterial st) = Vanilla.disposeLog st
  /\ Vanilla.urls (Vanilla.updateMaterial st) = Vanilla.urls st
  /\ Vanilla.pending (Vanilla.updateMaterial st) = Vanilla.pending st
  /\ Vanilla.dom (Vanilla.updateMaterial st) = Vanilla.dom st
  /\ option_map Vanilla.geometry (Vanilla.mesh (Vanilla.updateMaterial st))
     = option_map Vanilla.geometry (Vanilla.mesh st).
Proof.
  unfold Vanilla.updateMaterial. destruct (Vanilla.mesh st) as [m|] eqn:Hmesh.
  - match goal with
    | |- context [fold_left ?f ?l ?a] => destruct (fold_left f l a) as [mat h]
    end.
    simpl. repeat split; reflexivity.
  - rewrite Hmesh. repeat split; reflexivity.
Qed.

Lemma Vanilla_renderTextureSlots_frame (st : Vanilla.State) :
  Vanilla.material (Vanilla.renderTextureSlots st) = Vanilla.material st
  /\ Vanilla.settings (Vanilla.renderTextureSlots st) = Vanilla.settings st
  /\ Vanilla.textureFiles (Vanilla.renderTextureSlots st) = Vanilla.textureFiles st
  /\ Vanilla.mesh (Vanilla.renderTextureSlots st) = Vanilla.mesh st
  /\ Vanilla.disposeLog (Vanilla.renderTextureSlots st) = Vanilla.disposeLog st
  /\ Vanilla.urls (Vanilla.renderTextureSlots st) = Vanilla.urls st
  /\ Vanilla.pending (Vanilla.renderTextureSlots st) = Vanilla.pending st
  /\ Vanilla.controlsUI (Vanilla.dom (Vanilla.renderTextureSlots st))
     = Vanilla.controlsUI (Vanilla.dom st).
Proof.
  unfold Vanilla.renderTextureSlots. simpl. repeat split; reflexivity.
Qed.

Lemma Vanilla_updateGeometry_frame (st : Vanilla.State) :
  Vanilla.material (Vanilla.updateGeometry st) = Vanilla.material st
  /\ Vanilla.settings (Vanilla.updateGeometry st) = Vanilla.settings st
  /\ Vanilla.dom (Vanilla.updateGeometry st) = Vanilla.dom st
  /\ option_map Vanilla.geometry (Vanilla.mesh (Vanilla.updateGeometry st))
     = Some (Vanilla.shapeGeometry (shape (Vanilla.settings st))).
Proof.
  unfold Vanilla.updateGeometry.
  match goal with
  | |- context [Vanilla.updateMaterial ?s] =>
      destruct (Vanilla_updateMaterial_frame s) as (Hm & Hs & _ & _ & _ & _ & _ & Hd & Hg)
  end.
  rewrite Hm, Hs, Hd, Hg. simpl. repeat split; reflexivity.
Qed.

Local Arguments Vanilla.updateMaterial : simpl never.
Local Arguments Vanilla.renderTextureSlots : simpl never.
Local Arguments Vanilla.updateGeometry : simpl never.

Lemma KeepsView_refl (st : Vanilla.State) : KeepsView st st.
Proof. repeat split; reflexivity. Qed.

Lemma KeepsView_trans (a b c : Vanilla.State) :
  KeepsView a b -> KeepsView b c -> KeepsView a c.
Proof.
  intros (Hs1 & Hb1 & Hg1) (Hs2 & Hb2 & Hg2). repeat split.
  - rewrite Hs2. exact Hs1.
  - intros p. rewrite Hb2. apply Hb1.
  - rewrite Hg2. exact Hg1.
Qed.

Lemma KeepsView_updateMaterial (st : Vanilla.State) :
  KeepsView st (Vanilla.updateMaterial st).
Proof.
  destruct (Vanilla_updateMaterial_frame st) as (_ & Hs & _ & _ & _ & _ & _ & Hd & Hg).
  split; [exact Hs | split; [| exact Hg]].
  intros p. unfold boundsOf. rewrite Hd. reflexivity.
Qed.

Lemma KeepsView_renderTextureSlots (st : Vanilla.State) :
  KeepsView st (Vanilla.renderTextureSlots st).
Proof.
  destruct (Vanilla_renderTextureSlots_frame st) as (_ & Hs & _ & Hm & _ & _ & _ & Hc).
  split; [exact Hs | split; [| rewrite Hm; reflexivity]].
  intros p. unfold boundsOf. rewrite Hc. reflexivity.
Qed.

Lemma Vanilla_handleFile_ok (file : File) (st : Vanilla.State) :
  exists st', Vanilla.handleFile file st = Ok (tt, st')
              /\ Vanilla.material st' = Vanilla.material st
              /\ Vanilla.textureFiles st' = Vanilla.textureFiles st
              /\ KeepsView st st'.
Proof.
  unfold Vanilla.handleFile.
  destruct (Vanilla.matchTextureType (name file)) as [type|].
  - unfold_monad. unfold Vanilla.dispose, Vanilla.URL_createObjectURL,
      Vanilla.textureLoader_load. unfold_monad.
    destruct (getSlot type (Vanilla.material st)) as [tex|]; simpl;
      eexists; (split; [reflexivity |]); simpl; repeat split; reflexivity.
  - exists st. split; [reflexivity |]. repeat split; reflexivity.
Qed.

Lemma Vanilla_handleFiles_ok (files : list File) (st : Vanilla.State) :
  exists st', Vanilla.handleFiles files st = Ok (tt, st')
              /\ Vanilla.material st' = Vanilla.material st
              /\ Vanilla.textureFiles st' = Vanilla.textureFiles st
              /\ KeepsView st st'.
Proof.
  unfold Vanilla.handleFiles. revert st.
  induction files as [|file files IH]; intros st; simpl.
  - exists st. split; [reflexivity |]. repeat split; reflexivity.
  - destruct (Vanilla_handleFile_ok file st) as (st1 & H1 & Hm1 & Hf1 & Hk1).
    destruct (IH st1) as (st2 & H2 & Hm2 & Hf2 & Hk2).
    exists st2. unfold bind at 1. rewrite H1, H2.
    split; [reflexivity |]. split; [congruence |]. split; [congruence |].
    exact (KeepsView_trans _ _ _ Hk1 Hk2).
Qed.

Lemma Vanilla_onLoad_ok (type : TextureMapType) (file : File) (tex : Vanilla.TexRef)
      (st : Vanilla.State) :
  exists st', Vanilla.onLoad type file tex st = Ok (tt, st')
              /\ Vanilla.material st' = setSlot type (Some tex) (Vanilla.material st)
              /\ Vanilla.textureFiles st' = setSlot type (Some file) (Vanilla.textureFiles st)
              /\ Vanilla.disposeLog st' = Vanilla.disposeLog st
              /\ KeepsView st st'.
Proof.
  unfold Vanilla.onLoad. unfold_monad. eexists. split; [reflexivity |].
  match goal with
  | |- context [Vanilla.updateMaterial ?s] =>
      destruct (Vanilla_updateMaterial_frame s) as (Hm & _ & Hf & _ & Hl & _);
      pose proof (KeepsView_updateMaterial s) as Hk
  end.
  rewrite Hm, Hf, Hl.
  match goal with
  | H : KeepsView (Vanilla.renderTextureSlots ?s) _ |- _ =>
      destruct (Vanilla_renderTextureSlots_frame s) as (Hm' & _ & Hf' & _ & Hl' & _);
      pose proof (KeepsView_renderTextureSlots s) as Hk'
  end.
  rewrite Hm', Hf', Hl'. simpl.
  split; [reflexivity |]. split; [reflexivity |]. split; [reflexivity |].
  eapply KeepsView_trans; [| exact Hk].
  eapply KeepsView_trans; [| exact Hk'].
  repeat split; reflexivity.
Qed.

Lemma Vanilla_resetTexture_occupied (type : TextureMapType) (tex : Vanilla.TexRef)
      (st : Vanilla.State) :
  getSlot type (Vanilla.material st) = Some tex ->
  exists st', Vanilla.resetTexture type st = Ok (tt, st')
              /\ Vanilla.material st' = setSlot type None (Vanilla.material st)
              /\ Vanilla.textureFiles st' = setSlot type None (Vanilla.textureFiles st)
              /\ Vanilla.disposeLog st' = Vanilla.disposeLog st ++ [tex]
              /\ Vanilla.urls st' = Vanilla.urls st
              /\ Vanilla.pending st' = Vanilla.pending st
              /\ KeepsView st st'.
Proof.
  intros Hslot. unfold Vanilla.resetTexture, Vanilla.dispose. unfold_monad.
  rewrite Hslot. simpl. eexists. split; [reflexivity |].
  match goal with
  | |- context [Vanilla.updateMaterial ?s] =>
      destruct (Vanilla_updateMaterial_frame s) as (Hm & _ & Hf & _ & Hl & Hu & Hp & _);
      pose proof (KeepsView_updateMaterial s) as Hk
  end.
  rewrite Hm, Hf, Hl, Hu, Hp.
  match goal with
  | H : KeepsView (Vanilla.renderTextureSlots ?s) _ |- _ =>
      destruct (Vanilla_renderTextureSlots_frame s) as (Hm' & _ & Hf' & _ & Hl' & Hu' & Hp' & _);
      pose proof (KeepsView_renderTextureSlots s) as Hk'
  end.
  rewrite Hm', Hf', Hl', Hu', Hp'. simpl.
  repeat (split; [reflexivity |]).
  eapply KeepsView_trans; [| exact Hk].
  eapply KeepsView_trans; [| exact Hk'].
  repeat split; reflexivity.
Qed.

Lemma Vanilla_applySlot_maps (st : Vanilla.State) (acc : Vanilla.Material * list Texture)
      (slot : TextureMapType * string) :
  Vanilla.maps (fst (Vanilla.applySlot st acc slot))
  = setSlot (fst slot) (getSlot (fst slot) (Vanilla.material st)) (Vanilla.maps (fst acc)).
Proof.
  unfold Vanilla.applySlot.
  destruct (getSlot (fst slot) (Vanilla.material st)); reflexivity.
Qed.

(** After [updateMaterial] the mesh material carries exactly the textures
    of [state.material]. *)
Lemma Vanilla_updateMaterial_shows_slots (st : Vanilla.State) (m' : Vanilla.Mesh) :
  Vanilla.mesh (Vanilla.updateMaterial st) = Some m' ->
  Vanilla.maps (Vanilla.mesh_material m') = Vanilla.material (Vanilla.updateMaterial st).
Proof.
  destruct (Vanilla_updateMaterial_frame st) as (Hm & _). rewrite Hm.
  unfold Vanilla.updateMaterial. destruct (Vanilla.mesh st) as [m|] eqn:Hmesh.
  - match goal with
    | |- context [fold_left ?f ?l ?a] =>
        assert (Hmaps : Vanilla.maps (fst (fold_left f l a)) = Vanilla.material st);
        [| destruct (fold_left f l a) as [mat h]]
    end.
    + unfold Vanilla.slots. cbn [fold_left]. rewrite !Vanilla_applySlot_maps. cbn [fst].
      destruct (Vanilla.material st). reflexivity.
    + simpl in *. intros [= <-]. simpl. exact Hmaps.
  - rewrite Hmesh. discriminate.
Qed.

Lemma Vanilla_resetTexture_shows_slots (type : TextureMapType) (tex : Vanilla.TexRef)
      (st st' : Vanilla.State) (m' : Vanilla.Mesh) :
  getSlot type (Vanilla.material st) = Some tex ->
  Vanilla.resetTexture type st = Ok (tt, st') ->
  Vanilla.mesh st' = Some m' ->
  Vanilla.maps (Vanilla.mesh_material m') = Vanilla.material st'.
Proof.
  intros Hslot. unfold Vanilla.resetTexture, Vanilla.dispose. unfold_monad.
  rewrite Hslot. simpl. intros [= <-]. apply Vanilla_updateMaterial_shows_slots.
Qed.

Lemma Vanilla_resetTexture_empty (type : TextureMapType) (st : Vanilla.State) :
  getSlot type (Vanilla.material st) = None ->
  Vanilla.resetTexture type st = Ok (tt, st).
Proof.
  intros Hslot. unfold Vanilla.resetTexture. unfold_monad.
  rewrite Hslot. reflexivity.
Qed.

Lemma boundsOf_setInputValue (p q : Vanilla.Param) (v : number) (st : Vanilla.State) :
  boundsOf (Vanilla.setInputValue p v st) q = boundsOf st q.
Proof. destruct p, q; reflexivity. Qed.

Lemma boundsOf_setSliderValue (p q : Vanilla.Param) (v : number) (st : Vanilla.State) :
  boundsOf (Vanilla.setSliderValue p v st) q = boundsOf st q.
Proof. destruct p, q; reflexivity. Qed.

Lemma Vanilla_updateAll_effect (p : Vanilla.Param) (val : number) (st : Vanilla.State) :
  exists st', Vanilla.updateAll p val st = Ok (tt, st')
              /\ (forall q, boundsOf st' q = boundsOf st q)
              /\ Vanilla.settings st' = Vanilla.setParam p val (Vanilla.settings st)
              /\ option_map Vanilla.geometry (Vanilla.mesh st')
                 = option_map Vanilla.geometry (Vanilla.mesh st).
Proof.
  unfold Vanilla.updateAll. unfold_monad.
  destruct p; simpl; eexists; (split; [reflexivity |]);
    try (match goal with
         | |- context [Vanilla.updateMaterial ?s] =>
             destruct (KeepsView_updateMaterial s) as (Hs & Hb & Hg)
         end;
         rewrite Hs, Hg; split; [intros q; rewrite Hb; reflexivity |];
         split; reflexivity).
  split; [intros q; reflexivity |]. split; reflexivity.
Qed.

(** Every event is handled without a TypeError, keeps the slider bounds,
    and changes the settings and the mesh geometry only as listed. *)
Lemma Vanilla_handle_effect (e : Vanilla.Event) (st : Vanilla.State) :
  exists st',
    Vanilla.handle e st = Ok (tt, st')
    /\ (forall p, boundsOf st' p = boundsOf st p)
    /\ Vanilla.settings st' =
       match e with
       | Vanilla.ShapeClick s =>
           mkSettings s (tiling (Vanilla.settings st)) (displacementScale (Vanilla.settings st))
                      (exposure (Vanilla.settings st)) (roughness (Vanilla.settings st))
                      (metalness (Vanilla.settings st))
       | Vanilla.SliderInput p v => Vanilla.setParam p v (Vanilla.settings st)
       | Vanilla.TextInput p v =>
           if isNaN v then Vanilla.settings st
           else Vanilla.setParam p (Math_max (fst (boundsOf st p))
                                             (Math_min (snd (boundsOf st p)) v))
                                 (Vanilla.settings st)
       | _ => Vanilla.settings st
       end
    /\ option_map Vanilla.geometry (Vanilla.mesh st') =
       match e with
       | Vanilla.ShapeClick s => Some (Vanilla.shapeGeometry s)
       | _ => option_map Vanilla.geometry (Vanilla.mesh st)
       end.
Proof.
  destruct e as [s | p v | p v | | | files | type | k | k]; simpl.
  - (* ShapeClick *)
    unfold Vanilla.onShapeClick. unfold_monad. eexists. split; [reflexivity |].
    match goal with
    | |- context [Vanilla.updateGeometry ?s] =>
        destruct (Vanilla_updateGeometry_frame s) as (_ & Hs & Hd & Hg)
    end.
    rewrite Hs, Hg. unfold boundsOf. rewrite Hd. simpl.
    split; [intros p; reflexivity |]. split; reflexivity.
  - (* SliderInput *)
    unfold Vanilla.onSliderInput. unfold_monad.
    destruct (Vanilla_updateAll_effect p v (Vanilla.setInputValue p v st))
      as (st' & H & Hb & Hs & Hg).
    exists st'. rewrite H. split; [reflexivity |].
    split; [intros q; rewrite Hb; apply boundsOf_setInputValue |].
    split; [exact Hs | exact Hg].
  - (* TextInput *)
    unfold Vanilla.onTextInput. destruct (isNaN v).
    + exists st. split; [reflexivity |]. split; [intros q; reflexivity |].
      split; reflexivity.
    + unfold_monad.
      match goal with
      | |- context [Vanilla.updateAll p ?val ?s] =>
          destruct (Vanilla_updateAll_effect p val s) as (st' & H & Hb & Hs & Hg)
      end.
      exists st'. rewrite H. split; [reflexivity |].
      split; [intros q; rewrite Hb; apply boundsOf_setSliderValue |].
      split; [exact Hs | exact Hg].
  - (* DragOver *)
    unfold_monad. eexists. split; [reflexivity |].
    split; [intros p; reflexivity |]. split; reflexivity.
  - (* DragLeave *)
    unfold_monad. eexists. split; [reflexivity |].
    split; [intros p; reflexivity |]. split; reflexivity.
  - (* Drop *)
    unfold Vanilla.onDrop. unfold_monad.
    destruct (0 <? List.length files)%nat.
    + destruct (Vanilla_handleFiles_ok files (Vanilla.setOverlayActive false st))
        as (st' & H & _ & _ & Hs & Hb & Hg).
      exists st'. rewrite H. split; [reflexivity |].
      split; [intros p; rewrite Hb; reflexivity |]. split; [exact Hs | exact Hg].
    + eexists. split; [reflexivity |].
      split; [intros p; reflexivity |]. split; reflexivity.
  - (* RemoveClick *)
    destruct (getSlot type (Vanilla.material st)) as [tex|] eqn:Hslot.
    + destruct (Vanilla_resetTexture_occupied type tex st Hslot)
        as (st' & H & _ & _ & _ & _ & _ & Hs & Hb & Hg).
      exists st'. split; [exact H |]. split; [exact Hb |]. split; [exact Hs | exact Hg].
    + exists st. split; [apply Vanilla_resetTexture_empty; exact Hslot |].
      split; [intros p; reflexivity |]. split; reflexivity.
  - (* ImageLoaded *)
    unfold Vanilla.onImageLoaded. unfold_monad.
    destruct (Vanilla.take_nth k (Vanilla.pending st)) as [[load others]|].
    + match goal with
      | |- context [Vanilla.onLoad ?t ?f ?x ?s] =>
          destruct (Vanilla_onLoad_ok t f x s) as (st' & H & _ & _ & _ & Hs & Hb & Hg)
      end.
      exists st'. rewrite H. split; [reflexivity |].
      split; [intros p; rewrite Hb; reflexivity |]. split; [exact Hs | exact Hg].
    + exists st. split; [reflexivity |]. split; [intros p; reflexivity |].
      split; reflexivity.
  - (* ImageError *)
    unfold Vanilla.onImageError. unfold_monad.
    destruct (Vanilla.take_nth k (Vanilla.pending st)) as [[load others]|].
    + eexists. split; [reflexivity |]. split; [intros p; reflexivity |].
      split; reflexivity.
    + exists st. split; [reflexivity |]. split; [intros p; reflexivity |].
      split; reflexivity.
Qed.

(** ** Runs of events in the vanilla version *)

Lemma getParam_setParam_same (p : Vanilla.Param) (v : number) (s : ViewerSettings string) :
  Vanilla.getParam p (Vanilla.setParam p v s) = v.
Proof. destruct p; reflexivity. Qed.

Lemma getParam_setParam_other (p q : Vanilla.Param) (v : number) (s : ViewerSettings string) :
  p <> q -> Vanilla.getParam q (Vanilla.setParam p v s) = Vanilla.getParam q s.
Proof. destruct p, q; intros H; try reflexivity; congruence. Qed.

Lemma shape_setParam (p : Vanilla.Param) (v : number) (s : ViewerSettings string) :
  shape (Vanilla.setParam p v s) = shape s.
Proof. destruct p; reflexivity. Qed.

Lemma Param_eq_dec (p q : Vanilla.Param) : {p = q} + {p <> q}.
Proof. decide equality. Qed.

Lemma Vanilla_start_view (bounds : Vanilla.Param -> number * number) :
  Vanilla.settings (Vanilla.start bounds) = Vanilla.initialSettings
  /\ (forall p, boundsOf (Vanilla.start bounds) p = bounds p)
  /\ option_map Vanilla.geometry (Vanilla.mesh (Vanilla.start bounds))
     = Some (Vanilla.shapeGeometry "cube").
Proof.
  unfold Vanilla.start.
  match goal with
  | |- context [Vanilla.renderTextureSlots ?s] =>
      destruct (KeepsView_renderTextureSlots s) as (Hs & Hb & Hg)
  end.
  rewrite Hs, Hg.
  match goal with
  | |- context [Vanilla.updateGeometry ?s] =>
      destruct (Vanilla_updateGeometry_frame s) as (_ & Hs' & Hd' & Hg')
  end.
  rewrite Hs', Hg'. split; [reflexivity |]. split; [| reflexivity].
  intros p. rewrite Hb. unfold boundsOf. rewrite Hd'.
  destruct p; simpl; symmetry; apply surjective_pairing.
Qed.

Lemma exec_forEach_cons {S A : Type} (body : A -> M S unit) (x : A) (xs : list A)
      (s s1 : S) :
  body x s = Ok (tt, s1) ->
  exec (forEach (x :: xs) body) s = exec (forEach xs body) s1.
Proof.
  intros H. unfold exec. simpl. unfold bind. rewrite H. reflexivity.
Qed.

Lemma Vanilla_params_stay_within (bounds : Vanilla.Param -> number * number)
      (es : list Vanilla.Event) :
  (forall p, num_leb (fst (bounds p)) (snd (bounds p)) = true) ->
  SliderEventsWithin bounds es ->
  forall st,
    (forall p, boundsOf st p = bounds p) ->
    (forall p, within (bounds p) (Vanilla.getParam p (Vanilla.settings st)) = true) ->
    exists st',
      exec (forEach es Vanilla.handle) st = Ok st'
      /\ forall p, within (bounds p) (Vanilla.getParam p (Vanilla.settings st')) = true.
Proof.
  intros Hwf. induction es as [|e es IH]; intros Hsl st Hb Hin.
  - exists st. split; [reflexivity | exact Hin].
  - destruct (Vanilla_handle_effect e st) as (st1 & H1 & Hb1 & Hs1 & _).
    rewrite (exec_forEach_cons _ _ _ _ _ H1).
    apply IH.
    + intros p v Hpv. apply Hsl. right. exact Hpv.
    + intros p. rewrite Hb1. apply Hb.
    + intros q. rewrite Hs1. destruct e as [s | p v | p v | | | files | type | k | k];
        try (destruct q; apply Hin).
      * destruct (Param_eq_dec p q) as [<- | Hne].
        -- rewrite getParam_setParam_same. apply Hsl. left. reflexivity.
        -- rewrite (getParam_setParam_other _ _ _ _ Hne). apply Hin.
      * destruct (isNaN v) eqn:Hv; [apply Hin |].
        destruct (Param_eq_dec p q) as [<- | Hne].
        -- rewrite getParam_setParam_same, Hb.
           pose proof (clamp_within _ _ v (Hwf p) Hv) as Hc.
           destruct (bounds p) as [lo hi]. exact Hc.
        -- rewrite (getParam_setParam_other _ _ _ _ Hne). apply Hin.
Qed.



(** ** Geometry *)

Lemma Vanilla_shape_stays_valid (es : list Vanilla.Event) :
  ShapeButtonsValid es ->
  forall st,
    ValidShape (shape (Vanilla.settings st)) ->
    option_map Vanilla.geometry (Vanilla.mesh st)
    = Some (Vanilla.shapeGeometry (shape (Vanilla.settings st))) ->
    exists st',
      exec (forEach es Vanilla.handle) st = Ok st'
      /\ ValidShape (shape (Vanilla.settings st'))
      /\ option_map Vanilla.geometry (Vanilla.mesh st')
         = Some (Vanilla.shapeGeometry (shape (Vanilla.settings st'))).
Proof.
  induction es as [|e es IH]; intros Hbtn st Hv Hg.
  - exists st. split; [reflexivity |]. split; [exact Hv | exact Hg].
  - destruct (Vanilla_handle_effect e st) as (st1 & H1 & _ & Hs1 & Hg1).
    rewrite (exec_forEach_cons _ _ _ _ _ H1).
    assert (Hbtn' : ShapeButtonsValid es).
    { intros s Hs. apply Hbtn. right. exact Hs. }
    destruct e as [s | p v | p v | | | files | type | k | k];
      try (apply (IH Hbtn'); rewrite Hs1; [exact Hv | rewrite Hg1; exact Hg]).
    + apply (IH Hbtn'); rewrite Hs1; simpl.
      * apply Hbtn. left. reflexivity.
      * exact Hg1.
    + apply (IH Hbtn'); rewrite Hs1, shape_setParam; [exact Hv | rewrite Hg1; exact Hg].
    + apply (IH Hbtn'); rewrite Hs1; destruct (isNaN v);
        rewrite ?shape_setParam; try exact Hv; rewrite Hg1; exact Hg.
Qed.

(** C6. The geometry kind is one of a closed set.  In the component-based
    version the shape setting is one of cube, sphere and plane by its type,
    and the mesh (textured or fallback) is a sphere, a plane or a box
    accordingly.  In the vanilla version 'sphere' gives a sphere geometry,
    'plane' a plane geometry, and 'cube' as well as every other value a box
    geometry; and from the start of the page, through any events whose
    geometry buttons carry one of the three shapes, the shape setting is
    one of the three and the mesh has the geometry of that shape. *)
Theorem C6_geometry_kind_closed_set :
  (forall s : ShapeType, s = cube \/ s = sphere \/ s = plane)
  /\ kind (MaterialViewer.PBRGeometry sphere) = KSphere
  /\ kind (MaterialViewer.PBRGeometry plane) = KPlane
  /\ kind (MaterialViewer.PBRGeometry cube) = KBox
  /\ (forall material settings,
         kind (MaterialViewer.geometry
                 (MaterialViewer.mesh (MaterialViewer.MaterialViewer material settings)))
         = match shape settings with
           | sphere => KSphere
           | plane => KPlane
           | cube => KBox
           end)
  /\ kind (Vanilla.shapeGeometry "sphere") = KSphere
  /\ kind (Vanilla.shapeGeometry "plane") = KPlane
  /\ kind (Vanilla.shapeGeometry "cube") = KBox
  /\ (forall s : string,
         s <> "sphere" -> s <> "plane" -> kind (Vanilla.shapeGeometry s) = KBox)
  /\ (forall bounds es,
         ShapeButtonsValid es ->
         exists st,
           exec (forEach es Vanilla.handle) (Vanilla.start bounds) = Ok st
           /\ ValidShape (shape (Vanilla.settings st))
           /\ option_map Vanilla.geometry (Vanilla.mesh st)
              = Some (Vanilla.shapeGeometry (shape (Vanilla.settings st)))).
Proof.
  split; [intros []; auto |].
  do 3 (split; [reflexivity |]).
  split.
  { intros material settings. unfold MaterialViewer.MaterialViewer.
    cbn [MaterialViewer.mesh].
    destruct (existsb truthy (slotValues material)); simpl;
      destruct (shape settings); reflexivity. }
  do 3 (split; [reflexivity |]).
  split.
  { intros s Hs Hp. unfold Vanilla.shapeGeometry.
    destruct (String.eqb_spec s "sphere") as [-> | _]; [congruence |].
    destruct (String.eqb_spec s "plane") as [-> | _]; [congruence |].
    reflexivity. }
  intros bounds es Hbtn.
  destruct (Vanilla_start_view bounds) as (Hs & _ & Hg).
  apply (Vanilla_shape_stays_valid es Hbtn).
  - rewrite Hs. left. reflexivity.
  - rewrite Hs. exact Hg.
Qed.

Lemma C6_geometry_kind_closed_set_witness :
  kind (Vanilla.shapeGeometry "torus") = KBox
  /\ exists st,
      exec (forEach [Vanilla.ShapeClick "sphere"; Vanilla.ShapeClick "plane"] Vanilla.handle)
           (Vanilla.start exampleBounds) = Ok st
      /\ ValidShape (shape (Vanilla.settings st))
      /\ option_map Vanilla.geometry (Vanilla.mesh st)
         = Some (Vanilla.shapeGeometry (shape (Vanilla.settings st))).
Proof.
  destruct C6_geometry_kind_closed_set as (_ & _ & _ & _ & _ & _ & _ & _ & Hother & Hrun).
  split.
  - apply Hother; discriminate.
  - apply Hrun. intros s [H | [H | []]]; injection H as <-.
    + right. left. reflexivity.
    + right. right. reflexivity.
Defined.

(** ** Dropped files: unmatched names *)

Lemma App_state_eta (st : App.State) :
  App.mkState (App.material st) (App.settings st) (App.isDragging st) (App.urls st) = st.
Proof. destruct st; reflexivity. Qed.

Lemma App_handleFile_ok (newMaterial : MaterialState) (file : File) (st : App.State) :
  exists newMaterial' st',
    App.handleFile newMaterial file st = Ok (newMaterial', st')
    /\ App.material st' = App.material st
    /\ App.settings st' = App.settings st
    /\ App.isDragging st' = App.isDragging st.
Proof.
  unfold App.handleFile.
  destruct (App.matchTextureType (name file)) as [type|].
  - unfold App.URL_revokeObjectURL, App.URL_createObjectURL. unfold_monad.
    destruct (getSlot type newMaterial) as [old|]; simpl;
      do 2 eexists; (split; [reflexivity |]); simpl; repeat split; reflexivity.
  - exists newMaterial, st. split; [reflexivity |]. repeat split; reflexivity.
Qed.

Lemma App_handleFile_unmatched (newMaterial : MaterialState) (file : File) (st : App.State) :
  App_matched file = false ->
  App.handleFile newMaterial file st = Ok (newMaterial, st).
Proof.
  unfold App_matched, App.handleFile.
  destruct (App.matchTextureType (name file)); [discriminate | reflexivity].
Qed.

Lemma App_handleFilesLoop_ok (files : list File) (newMaterial : MaterialState)
      (st : App.State) :
  exists newMaterial' st',
    App.handleFilesLoop newMaterial files st = Ok (newMaterial', st')
    /\ App.material st' = App.material st
    /\ App.settings st' = App.settings st
    /\ App.isDragging st' = App.isDragging st.
Proof.
  revert newMaterial st. induction files as [|file files IH]; intros newMaterial st; simpl.
  - exists newMaterial, st. split; [reflexivity |]. repeat split; reflexivity.
  - destruct (App_handleFile_ok newMaterial file st) as (m1 & st1 & H1 & Hm1 & Hs1 & Hd1).
    destruct (IH m1 st1) as (m2 & st2 & H2 & Hm2 & Hs2 & Hd2).
    exists m2, st2. unfold bind at 1. rewrite H1, H2.
    split; [reflexivity |]. repeat split; congruence.
Qed.

Lemma App_handleFilesLoop_filter (files : list File) (newMaterial : MaterialState)
      (st : App.State) :
  App.handleFilesLoop newMaterial files st
  = App.handleFilesLoop newMaterial (List.filter App_matched files) st.
Proof.
  revert newMaterial st. induction files as [|file files IH]; intros newMaterial st.
  - reflexivity.
  - cbn [List.filter]. destruct (App_matched file) eqn:Hm.
    + cbn [App.handleFilesLoop]. unfold bind.
      destruct (App.handleFile newMaterial file st) as [[m1 st1]|]; [apply IH | reflexivity].
    + cbn [App.handleFilesLoop]. unfold bind at 1.
      rewrite (App_handleFile_unmatched _ _ _ Hm). apply IH.
Qed.

Lemma App_handleFilesLoop_unmatched (files : list File) (newMaterial : MaterialState)
      (st : App.State) :
  App.handleFilesLoop newMaterial (List.filter (fun f => negb (App_matched f)) files) st
  = Ok (newMaterial, st).
Proof.
  induction files as [|file files IH].
  - reflexivity.
  - cbn [List.filter]. destruct (App_matched file) eqn:Hm; simpl.
    + exact IH.
    + unfold bind at 1. rewrite (App_handleFile_unmatched _ _ _ Hm). exact IH.
Qed.

Lemma Vanilla_handleFile_unmatched (file : File) (st : Vanilla.State) :
  Vanilla_matched file = false ->
  Vanilla.handleFile file st = Ok (tt, st).
Proof.
  unfold Vanilla_matched, Vanilla.handleFile.
  destruct (Vanilla.matchTextureType (name file)); [discriminate | reflexivity].
Qed.

Lemma Vanilla_handleFiles_filter (files : list File) (st : Vanilla.State) :
  Vanilla.handleFiles files st
  = Vanilla.handleFiles (List.filter Vanilla_matched files) st.
Proof.
  unfold Vanilla.handleFiles. revert st.
  induction files as [|file files IH]; intros st.
  - reflexivity.
  - cbn [List.filter]. destruct (Vanilla_matched file) eqn:Hm.
    + cbn [forEach]. unfold bind.
      destruct (Vanilla.handleFile file st) as [[[] st1]|]; [apply IH | reflexivity].
    + cbn [forEach]. unfold bind at 1.
      rewrite (Vanilla_handleFile_unmatched _ _ Hm). apply IH.
Qed.

Lemma Vanilla_handleFiles_unmatched (files : list File) (st : Vanilla.State) :
  Vanilla.handleFiles (List.filter (fun f => negb (Vanilla_matched f)) files) st
  = Ok (tt, st).
Proof.
  unfold Vanilla.handleFiles. induction files as [|file files IH].
  - reflexivity.
  - cbn [List.filter]. destruct (Vanilla_matched file) eqn:Hm; simpl.
    + exact IH.
    + unfold bind at 1. rewrite (Vanilla_handleFile_unmatched _ _ Hm). exact IH.
Qed.

(** C4. In both versions [handleFiles] ends without an error on every
    list of files; the files whose names match no keyword group make no
    difference to its outcome; and a list of such files alone leaves the
    whole state -- every texture slot included -- as it was. *)
Theorem C4_unmatched_files_are_ignored :
  (forall files st, exists st', App.handleFiles files st = Ok (tt, st'))
  /\ (forall files st,
         App.handleFiles files st = App.handleFiles (List.filter App_matched files) st)
  /\ (forall files st,
         App.handleFiles (List.filter (fun f => negb (App_matched f)) files) st = Ok (tt, st))
  /\ (forall files st, exists st', Vanilla.handleFiles files st = Ok (tt, st'))
  /\ (forall files st,
         Vanilla.handleFiles files st
         = Vanilla.handleFiles (List.filter Vanilla_matched files) st)
  /\ (forall files st,
         Vanilla.handleFiles (List.filter (fun f => negb (Vanilla_matched f)) files) st
         = Ok (tt, st)).
Proof.
  split; [| split; [| split; [| split; [| split]]]].
  - intros files st. unfold App.handleFiles, App.setMaterial. unfold_monad.
    destruct (App_handleFilesLoop_ok files (App.material st) st) as (m & st' & H & _).
    rewrite H. eexists. reflexivity.
  - intros files st. unfold App.handleFiles. unfold_monad.
    rewrite App_handleFilesLoop_filter. reflexivity.
  - intros files st. unfold App.handleFiles, App.setMaterial. unfold_monad.
    rewrite App_handleFilesLoop_unmatched. rewrite App_state_eta. reflexivity.
  - intros files st.
    destruct (Vanilla_handleFiles_ok files st) as (st' & H & _). exists st'. exact H.
  - exact Vanilla_handleFiles_filter.
  - exact Vanilla_handleFiles_unmatched.
Qed.

(** ** [resetTexture] *)

Lemma getSlot_setSlot_same {A : Type} (type : TextureMapType) (v : A) (m : Slots A) :
  getSlot type (setSlot type v m) = v.
Proof. destruct type; reflexivity. Qed.

Lemma getSlot_setSlot_other {A : Type} (type type' : TextureMapType) (v : A) (m : Slots A) :
  type' <> type -> getSlot type' (setSlot type v m) = getSlot type' m.
Proof. destruct type, type'; intros H; try reflexivity; congruence. Qed.

Lemma App_resetTexture_occupied (type : TextureMapType) (old : TextureData) (st : App.State) :
  getSlot type (App.material st) = Some old ->
  App.resetTexture type st
  = Ok (tt, App.mkState (setSlot type None (App.material st)) (App.settings st)
                        (App.isDragging st) (revokeObjectURL (url old) (App.urls st))).
Proof.
  intros Hslot. unfold App.resetTexture, App.URL_revokeObjectURL, App.setMaterial.
  unfold_monad. rewrite Hslot. reflexivity.
Qed.

Lemma App_resetTexture_empty (type : TextureMapType) (st : App.State) :
  getSlot type (App.material st) = None ->
  App.resetTexture type st = Ok (tt, st).
Proof.
  intros Hslot. unfold App.resetTexture. unfold_monad. rewrite Hslot. reflexivity.
Qed.

(** C7. [resetTexture] on an occupied slot, in the component-based
    version, revokes the object URL of that slot and no other, and, in the
    vanilla version, disposes the texture of that slot and no other; in
    both it sets the slot to null and leaves every other texture slot and
    every settings field as they were (and the vanilla mesh material then
    carries exactly the textures of the slots). *)
Theorem C7_resetTexture_occupied_slot :
  (forall (st : App.State) type old,
      getSlot type (App.material st) = Some old ->
      exists st',
        App.resetTexture type st = Ok (tt, st')
        /\ revokeLog (App.urls st') = revokeLog (App.urls st) ++ [url old]
        /\ live (App.urls st')
           = List.filter (fun e => negb (Nat.eqb (fst e) (url old))) (live (App.urls st))
        /\ getSlot type (App.material st') = None
        /\ (forall type', type' <> type ->
                          getSlot type' (App.material st') = getSlot type' (App.material st))
        /\ App.settings st' = App.settings st)
  /\ (forall (st : Vanilla.State) type tex,
         getSlot type (Vanilla.material st) = Some tex ->
         exists st',
           Vanilla.resetTexture type st = Ok (tt, st')
           /\ Vanilla.disposeLog st' = Vanilla.disposeLog st ++ [tex]
           /\ Vanilla.urls st' = Vanilla.urls st
           /\ getSlot type (Vanilla.material st') = None
           /\ getSlot type (Vanilla.textureFiles st') = None
           /\ (forall type', type' <> type ->
                             getSlot type' (Vanilla.material st')
                             = getSlot type' (Vanilla.material st)
                             /\ getSlot type' (Vanilla.textureFiles st')
                                = getSlot type' (Vanilla.textureFiles st))
           /\ (forall m', Vanilla.mesh st' = Some m' ->
                          Vanilla.maps (Vanilla.mesh_material m') = Vanilla.material st')
           /\ Vanilla.settings st' = Vanilla.settings st).
Proof.
  split.
  - intros st type old Hslot. eexists.
    split; [apply App_resetTexture_occupied; exact Hslot |]. simpl.
    split; [reflexivity |]. split; [reflexivity |].
    split; [apply getSlot_setSlot_same |].
    split; [| reflexivity].
    intros type' Hne. apply getSlot_setSlot_other. exact Hne.
  - intros st type tex Hslot.
    destruct (Vanilla_resetTexture_occupied type tex st Hslot)
      as (st' & H & Hm & Hf & Hl & Hu & _ & Hs & _).
    exists st'. split; [exact H |]. split; [exact Hl |]. split; [exact Hu |].
    split.
    { rewrite Hm. apply getSlot_setSlot_same. }
    split.
    { rewrite Hf. apply getSlot_setSlot_same. }
    split.
    { intros type' Hne. rewrite Hm, Hf. split; apply getSlot_setSlot_other; exact Hne. }
    split; [| exact Hs].
    intros m'. exact (Vanilla_resetTexture_shows_slots type tex st st' m' Hslot H).
Qed.

(** C9. [resetTexture] on an empty slot does nothing at all, in both
    versions: the whole state -- the texture slots, the settings, the page,
    the log of revoked URLs and the log of disposed textures -- is as before. *)
Theorem C9_resetTexture_empty_slot_is_noop :
  (forall (st : App.State) type,
      getSlot type (App.material st) = None ->
      App.resetTexture type st = Ok (tt, st))
  /\ (forall (st : Vanilla.State) type,
         getSlot type (Vanilla.material st) = None ->
         Vanilla.resetTexture type st = Ok (tt, st)).
Proof.
  split.
  - intros st type. apply App_resetTexture_empty.
  - intros st type. apply Vanilla_resetTexture_empty.
Qed.

Lemma C7_resetTexture_occupied_slot_witness :
  (exists st',
      App.resetTexture TmetalnessMap App_with_metalness_map = Ok (tt, st')
      /\ revokeLog (App.urls st') = [0%nat]
      /\ getSlot TmetalnessMap (App.material st') = None)
  /\ (exists st',
         Vanilla.resetTexture TmetalnessMap Vanilla_with_metalness_map = Ok (tt, st')
         /\ Vanilla.disposeLog st' = [0%nat]
         /\ getSlot TmetalnessMap (Vanilla.material st') = None).
Proof.
  destruct C7_resetTexture_occupied_slot as [HA HV]. split.
  - destruct (HA App_with_metalness_map TmetalnessMap (mkTextureData 0 "steel_metal.png"))
      as (st' & H & Hlog & _ & Hslot & _).
    + vm_compute. reflexivity.
    + exists st'. split; [exact H |]. split; [exact Hlog | exact Hslot].
  - destruct (HV Vanilla_with_metalness_map TmetalnessMap 0%nat)
      as (st' & H & Hlog & _ & Hslot & _).
    + vm_compute. reflexivity.
    + exists st'. split; [exact H |]. split; [exact Hlog | exact Hslot].
Defined.

Lemma C9_resetTexture_empty_slot_is_noop_witness :
  App.resetTexture Tmap App.initialState = Ok (tt, App.initialState)
  /\ Vanilla.resetTexture Tmap (Vanilla.start exampleBounds)
     = Ok (tt, Vanilla.start exampleBounds).
Proof.
  destruct C9_resetTexture_empty_slot_is_noop as [HA HV]. split.
  - apply HA. vm_compute. reflexivity.
  - apply HV. vm_compute. reflexivity.
Defined.

Lemma C1_matchTextureType_first_keyword_group_witness :
  App.matchTextureType "Metal_Roughness.PNG" = Some TroughnessMap
  /\ Vanilla.matchTextureType "notes.txt" = None.
Proof.
  destruct C1_matchTextureType_first_keyword_group as [HA HV]. split.
  - destruct (HA "Metal_Roughness.PNG") as [Hsome _]. apply Hsome.
    exists [(Tmap, ["albedo"; "diffuse"; "basecolor"; "color"]);
            (TnormalMap, ["normal"; "nrm"; "nm"])],
           ["roughness"; "rough"; "rgh"],
           [(TmetalnessMap, ["metal"; "mtl"]);
            (TaoMap, ["ao"; "ambientocclusion"; "occlusion"]);
            (TdisplacementMap, ["height"; "displacement"; "disp"])].
    split; [reflexivity |]. split.
    + exists "roughness". split; [left; reflexivity |].
      exists "metal_", ".png". reflexivity.
    + intros g Hg kwH. apply existsb_includes_spec in kwH.
      destruct Hg as [<- | [<- | []]]; vm_compute in kwH; discriminate.
  - destruct (HV "notes.txt") as [_ [Hnone _]]. apply Hnone.
    intros g Hg Hocc. apply existsb_includes_spec in Hocc.
    repeat (destruct Hg as [<- | Hg]; [vm_compute in Hocc; discriminate |]).
    destruct Hg.
Defined.

(** ** Object URLs of the component-based version *)

Lemma TextureMapType_eqb_spec (a b : TextureMapType) :
  TextureMapType_eqb a b = true <-> a = b.
Proof. destruct a, b; simpl; split; intros H; congruence. Qed.

Lemma TextureMapType_eq_dec (a b : TextureMapType) : {a = b} + {a <> b}.
Proof. decide equality. Qed.

Lemma in_map_fst_revoked (u u' : Url) (l : list (Url * File)) :
  In u' (List.map fst (List.filter (fun e => negb (Nat.eqb (fst e) u)) l))
  <-> In u' (List.map fst l) /\ u' <> u.
Proof.
  rewrite !in_map_iff. split.
  - intros [e [He Hin]]. apply filter_In in Hin as [Hin Hneq]. simpl in Hneq.
    apply negb_true_iff in Hneq. apply Nat.eqb_neq in Hneq.
    split; [exists e; auto | subst u'; exact Hneq].
  - intros [[e [He Hin]] Hneq]. exists e. split; [exact He |].
    apply filter_In. split; [exact Hin |]. simpl.
    apply negb_true_iff. apply Nat.eqb_neq. subst u'. exact Hneq.
Qed.

Lemma NoDup_map_fst_revoked (u : Url) (l : list (Url * File)) :
  List.NoDup (List.map fst l) ->
  List.NoDup (List.map fst (List.filter (fun e => negb (Nat.eqb (fst e) u)) l)).
Proof.
  induction l as [|e l IH]; simpl; intros Hnd.
  - constructor.
  - inversion Hnd as [|x xs Hnotin Hnd']; subst.
    match goal with |- context [if ?c then _ else _] => destruct c end; simpl.
    + constructor; [| apply IH; exact Hnd'].
      intros Hin. apply in_map_fst_revoked in Hin as [Hin _]. contradiction.
    + apply IH. exact Hnd'.
Qed.

Lemma SlotsOwnUrls_empty_slot type (m : MaterialState) (b : Browser) :
  SlotsOwnUrls m b -> getSlot type m = None -> OthersOwnUrls type m b.
Proof.
  intros (Hlive & Hinj & Hlt & Hnd) Hslot. split; [| split; [exact Hinj | split; assumption]].
  intros u. rewrite Hlive. split.
  - intros (t & td & Ht & Hu). exists t, td. split; [| split; assumption].
    intros ->. congruence.
  - intros (t & td & _ & Ht & Hu). exists t, td. split; assumption.
Qed.

Lemma SlotsOwnUrls_revoke type (old : TextureData) (m : MaterialState) (b : Browser) :
  SlotsOwnUrls m b -> getSlot type m = Some old ->
  OthersOwnUrls type m (revokeObjectURL (url old) b).
Proof.
  intros (Hlive & Hinj & Hlt & Hnd) Hslot. split; [| split; [exact Hinj | split]].
  - intros u. simpl. rewrite in_map_fst_revoked, Hlive. split.
    + intros [(t & td & Ht & Hu) Hne]. exists t, td. split; [| split; assumption].
      intros ->. rewrite Hslot in Ht. injection Ht as <-. congruence.
    + intros (t & td & Hne & Ht & Hu). split; [exists t, td; split; assumption |].
      intros Heq. apply Hne. apply (Hinj t type td old Ht Hslot). congruence.
  - intros u Hin. simpl in *. apply in_map_fst_revoked in Hin as [Hin _]. apply Hlt. exact Hin.
  - simpl. apply NoDup_map_fst_revoked. exact Hnd.
Qed.

Lemma OthersOwnUrls_create type (n : string) (file : File) (m : MaterialState) (b : Browser) :
  OthersOwnUrls type m b ->
  SlotsOwnUrls (setSlot type (Some (mkTextureData (issued b) n)) m)
               (snd (createObjectURL file b)).
Proof.
  intros (Hlive & Hinj & Hlt & Hnd). unfold createObjectURL, SlotsOwnUrls. simpl.
  assert (Hfresh : ~ In (issued b) (List.map fst (live b))).
  { intros Hin. apply Hlt in Hin. lia. }
  split; [| split; [| split]].
  - intros u. rewrite map_app, in_app_iff, Hlive. simpl. split.
    + intros [(t & td & Hne & Ht & Hu) | [<- | []]].
      * exists t, td. rewrite getSlot_setSlot_other by exact Hne. split; assumption.
      * exists type. eexists. rewrite getSlot_setSlot_same. split; reflexivity.
    + intros (t & td & Ht & Hu). destruct (TextureMapType_eq_dec t type) as [-> | Hne].
      * rewrite getSlot_setSlot_same in Ht. injection Ht as <-. right. left. exact Hu.
      * rewrite getSlot_setSlot_other in Ht by exact Hne. left. exists t, td.
        split; [exact Hne | split; assumption].
  - intros t1 t2 td1 td2 H1 H2 Hu.
    destruct (TextureMapType_eq_dec t1 type) as [-> | Hne1];
      destruct (TextureMapType_eq_dec t2 type) as [-> | Hne2]; try reflexivity.
    + rewrite getSlot_setSlot_same in H1. injection H1 as <-.
      rewrite getSlot_setSlot_other in H2 by exact Hne2. exfalso. apply Hfresh.
      apply Hlive. exists t2, td2. split; [exact Hne2 | split; [exact H2 | symmetry; exact Hu]].
    + rewrite getSlot_setSlot_same in H2. injection H2 as <-.
      rewrite getSlot_setSlot_other in H1 by exact Hne1. exfalso. apply Hfresh.
      apply Hlive. exists t1, td1. split; [exact Hne1 | split; [exact H1 | exact Hu]].
    + rewrite getSlot_setSlot_other in H1 by exact Hne1.
      rewrite getSlot_setSlot_other in H2 by exact Hne2.
      exact (Hinj _ _ _ _ H1 H2 Hu).
  - intros u. rewrite map_app, in_app_iff. simpl. intros [Hin | [<- | []]].
    + apply Hlt in Hin. lia.
    + lia.
  - rewrite map_app. simpl. apply List.NoDup_app.
    + exact Hnd.
    + constructor; [intros [] | constructor].
    + intros x Hx [<- | []]. exact (Hfresh Hx).
Qed.

Lemma OthersOwnUrls_clear type (m : MaterialState) (b : Browser) :
  OthersOwnUrls type m b -> SlotsOwnUrls (setSlot type None m) b.
Proof.
  intros (Hlive & Hinj & Hlt & Hnd). split; [| split; [| split; assumption]].
  - intros u. rewrite Hlive. split.
    + intros (t & td & Hne & Ht & Hu). exists t, td.
      rewrite getSlot_setSlot_other by exact Hne. split; assumption.
    + intros (t & td & Ht & Hu). destruct (TextureMapType_eq_dec t type) as [-> | Hne].
      * rewrite getSlot_setSlot_same in Ht. discriminate.
      * rewrite getSlot_setSlot_other in Ht by exact Hne. exists t, td.
        split; [exact Hne | split; assumption].
  - intros t1 t2 td1 td2 H1 H2 Hu.
    destruct (TextureMapType_eq_dec t1 type) as [-> | Hne1].
    { rewrite getSlot_setSlot_same in H1. discriminate. }
    destruct (TextureMapType_eq_dec t2 type) as [-> | Hne2].
    { rewrite getSlot_setSlot_same in H2. discriminate. }
    rewrite getSlot_setSlot_other in H1 by exact Hne1.
    rewrite getSlot_setSlot_other in H2 by exact Hne2.
    exact (Hinj _ _ _ _ H1 H2 Hu).
Qed.

Lemma App_handleFile_matched (newMaterial : MaterialState) (file : File) (st : App.State)
      (type : TextureMapType) :
  App.matchTextureType (name file) = Some type ->
  let b := match getSlot type newMaterial with
           | Some old => revokeObjectURL (url old) (App.urls st)
           | None => App.urls st
           end in
  App.handleFile newMaterial file st
  = Ok (setSlot type (Some (mkTextureData (issued b) (name file))) newMaterial,
        App.mkState (App.material st) (App.settings st) (App.isDragging st)
                    (snd (createObjectURL file b))).
Proof.
  intros Hmatch. unfold App.handleFile. rewrite Hmatch.
  unfold App.URL_revokeObjectURL, App.URL_createObjectURL. unfold_monad.
  destruct (getSlot type newMaterial) as [old|]; reflexivity.
Qed.

Lemma App_handleFile_keeps_ownership (newMaterial newMaterial' : MaterialState)
      (file : File) (st st' : App.State) :
  SlotsOwnUrls newMaterial (App.urls st) ->
  App.handleFile newMaterial file st = Ok (newMaterial', st') ->
  SlotsOwnUrls newMaterial' (App.urls st').
Proof.
  intros Hown H. destruct (App.matchTextureType (name file)) as [type|] eqn:Hmatch.
  - rewrite (App_handleFile_matched _ _ _ _ Hmatch) in H. injection H as <- <-. simpl.
    apply OthersOwnUrls_create.
    destruct (getSlot type newMaterial) as [old|] eqn:Hslot.
    + apply SlotsOwnUrls_revoke; assumption.
    + apply SlotsOwnUrls_empty_slot; assumption.
  - unfold App.handleFile in H. rewrite Hmatch in H. injection H as <- <-. exact Hown.
Qed.

Lemma App_handleFilesLoop_keeps_ownership (files : list File)
      (newMaterial newMaterial' : MaterialState) (st st' : App.State) :
  SlotsOwnUrls newMaterial (App.urls st) ->
  App.handleFilesLoop newMaterial files st = Ok (newMaterial', st') ->
  SlotsOwnUrls newMaterial' (App.urls st').
Proof.
  revert newMaterial st. induction files as [|file files IH]; intros newMaterial st Hown H.
  - injection H as <- <-. exact Hown.
  - cbn [App.handleFilesLoop] in H. unfold bind in H.
    destruct (App.handleFile newMaterial file st) as [[m1 st1]|] eqn:H1; [| discriminate].
    apply (IH m1 st1); [| exact H].
    exact (App_handleFile_keeps_ownership _ _ _ _ _ Hown H1).
Qed.

Lemma App_handle_keeps_ownership (e : App.Event) (st : App.State) :
  SlotsOwnUrls (App.material st) (App.urls st) ->
  exists st',
    App.handle e st = Ok (tt, st')
    /\ SlotsOwnUrls (App.material st') (App.urls st').
Proof.
  intros Hown. destruct e as [| | files | s | type | v | v | v]; simpl;
    try (eexists; split; [reflexivity | exact Hown]).
  - (* Drop *)
    unfold App.onDrop, App.setIsDragging. unfold_monad.
    destruct (0 <? List.length files)%nat.
    + unfold App.handleFiles, App.setMaterial. unfold_monad. cbn [App.material].
      match goal with
      | |- context [App.handleFilesLoop ?m files ?s] =>
          destruct (App_handleFilesLoop_ok files m s) as (m' & st' & H & _);
          pose proof (App_handleFilesLoop_keeps_ownership files m m' s st' Hown H) as Hown'
      end.
      rewrite H. eexists. split; [reflexivity | exact Hown'].
    + eexists. split; [reflexivity | exact Hown].
  - (* ClickTrash *)
    destruct (getSlot type (App.material st)) as [old|] eqn:Hslot.
    + rewrite (App_resetTexture_occupied _ _ _ Hslot). eexists. split; [reflexivity |].
      simpl. apply OthersOwnUrls_clear. apply SlotsOwnUrls_revoke; assumption.
    + rewrite (App_resetTexture_empty _ _ Hslot). exists st. split; [reflexivity | exact Hown].
Qed.

Lemma SlotsOwnUrls_initial : SlotsOwnUrls (App.material App.initialState) (App.urls App.initialState).
Proof.
  split; [| split; [| split]]; simpl.
  - intros u. split; [intros [] |]. intros (type & td & H & _). destruct type; discriminate.
  - intros t1 t2 td1 td2 H. destruct t1; discriminate.
  - intros u [].
  - constructor.
Qed.

(** The component-based version, through any events: no handler throws,
    and the live object URLs are exactly those held by the slots, one for
    each occupied slot (a URL that leaves a slot is revoked). *)
Theorem App_one_live_url_per_occupied_slot (es : list App.Event) :
  exists st,
    exec (forEach es App.handle) App.initialState = Ok st
    /\ SlotsOwnUrls (App.material st) (App.urls st).
Proof.
  generalize App.initialState SlotsOwnUrls_initial.
  induction es as [|e es IH]; intros st Hown.
  - exists st. split; [reflexivity | exact Hown].
  - destruct (App_handle_keeps_ownership e st Hown) as (st1 & H1 & Hown1).
    rewrite (exec_forEach_cons _ _ _ _ _ H1). apply IH. exact Hown1.
Qed.

(** The component-based version: after a batch, a slot shows the name of
    the last file of the batch classified for it, and is as before when
    the batch has no such file. *)
Lemma App_handleFilesLoop_last_wins (files : list File) (newMaterial newMaterial' : MaterialState)
      (st st' : App.State) (type : TextureMapType) :
  App.handleFilesLoop newMaterial files st = Ok (newMaterial', st') ->
  option_map td_name (getSlot type newMaterial')
  = match lastMatching type files with
    | Some file => Some (name file)
    | None => option_map td_name (getSlot type newMaterial)
    end.
Proof.
  revert newMaterial st. induction files as [|file files IH]; intros newMaterial st H.
  - injection H as <- <-. reflexivity.
  - cbn [App.handleFilesLoop] in H. unfold bind in H.
    destruct (App.handleFile newMaterial file st) as [[m1 st1]|] eqn:H1; [| discriminate].
    rewrite (IH m1 st1 H). cbn [lastMatching].
    destruct (lastMatching type files) as [g|]; [reflexivity |].
    destruct (App.matchTextureType (name file)) as [t|] eqn:Hmatch.
    + rewrite (App_handleFile_matched _ _ _ _ Hmatch) in H1. injection H1 as <- <-.
      destruct (TextureMapType_eqb t type) eqn:Heq.
      * apply TextureMapType_eqb_spec in Heq as ->.
        rewrite getSlot_setSlot_same. reflexivity.
      * rewrite getSlot_setSlot_other; [reflexivity |].
        intros ->. destruct t; discriminate.
    + unfold App.handleFile in H1. rewrite Hmatch in H1. injection H1 as <- <-. reflexivity.
Qed.

(** ** A batch with two files for one slot *)

(** C5, at the batch [a_albedo.png; b_albedo.png] dropped on the freshly
    started page.  Vanilla version: when the two images arrive in the order
    of the drop, the albedo slot first holds the texture of the first file
    and then the texture of the second, and no texture was ever disposed, so
    the replaced texture is not released; when they arrive in the other
    order, the slot ends holding the first file, not the last one that
    matches.  Component-based version, same batch: the URL of the first file
    is revoked and the slot ends holding the last matching file. *)
Theorem C5_vanilla_batch_for_one_slot (bounds : Vanilla.Param -> number * number) :
  (exists st1 st2,
      exec (forEach [Vanilla.Drop [albedoA; albedoB]; Vanilla.ImageLoaded 0] Vanilla.handle)
           (Vanilla.start bounds) = Ok st1
      /\ getSlot Tmap (Vanilla.material st1) = Some 0%nat
      /\ exec (Vanilla.handle (Vanilla.ImageLoaded 0)) st1 = Ok st2
      /\ getSlot Tmap (Vanilla.material st2) = Some 1%nat
      /\ getSlot Tmap (Vanilla.textureFiles st2) = Some albedoB
      /\ Vanilla.disposeLog st2 = []
      /\ Vanilla.pending st2 = [])
  /\ (exists st,
         exec (forEach [Vanilla.Drop [albedoA; albedoB];
                        Vanilla.ImageLoaded 1; Vanilla.ImageLoaded 0] Vanilla.handle)
              (Vanilla.start bounds) = Ok st
         /\ getSlot Tmap (Vanilla.material st) = Some 0%nat
         /\ getSlot Tmap (Vanilla.textureFiles st) = Some albedoA
         /\ lastMatching Tmap [albedoA; albedoB] = Some albedoB
         /\ Vanilla.pending st = [])
  /\ (exists st,
         exec (App.handle (App.Drop [albedoA; albedoB])) App.initialState = Ok st
         /\ getSlot Tmap (App.material st) = Some (mkTextureData 1 "b_albedo.png")
         /\ revokeLog (App.urls st) = [0%nat]
         /\ List.map fst (live (App.urls st)) = [1%nat]).
Proof.
  split; [| split].
  - eexists. eexists.
    split; [vm_compute; reflexivity |].
    split; [vm_compute; reflexivity |].
    split; [vm_compute; reflexivity |].
    repeat split; vm_compute; reflexivity.
  - eexists. split; [vm_compute; reflexivity |].
    repeat split; vm_compute; reflexivity.
  - eexists. split; [vm_compute; reflexivity |].
    repeat split; vm_compute; reflexivity.
Qed.

(** ** The classifier under longer names *)

Lemma toLowerCase_append (a b : string) :
  toLowerCase (String.append a b) = String.append (toLowerCase a) (toLowerCase b).
Proof.
  induction a as [|c a IH]; simpl; [reflexivity | rewrite IH; reflexivity].
Qed.

Lemma string_append_assoc (a b c : string) :
  String.append (String.append a b) c = String.append a (String.append b c).
Proof.
  induction a as [|x a IH]; simpl; [reflexivity | rewrite IH; reflexivity].
Qed.

Lemma Substring_trans (a b c : string) :
  Substring a b -> Substring b c -> Substring a c.
Proof.
  intros (p1 & q1 & ->) (p2 & q2 & ->).
  exists (String.append p2 p1), (String.append q1 q2).
  rewrite !string_append_assoc. reflexivity.
Qed.

Lemma Substring_toLowerCase (a b : string) :
  Substring a b -> Substring (toLowerCase a) (toLowerCase b).
Proof.
  intros (p & q & ->). exists (toLowerCase p), (toLowerCase q).
  rewrite !toLowerCase_append. reflexivity.
Qed.

Lemma includes_longer (f g kw : string) :
  Substring f g ->
  includes (toLowerCase f) kw = true -> includes (toLowerCase g) kw = true.
Proof.
  intros Hfg H. apply includes_spec. apply includes_spec in H.
  exact (Substring_trans _ _ _ H (Substring_toLowerCase _ _ Hfg)).
Qed.

Lemma role_chain_longer (a1 a2 a3 a4 a5 a6 b1 b2 b3 b4 b5 b6 : bool) (r : TextureMapType) :
  (a1 = true -> b1 = true) -> (a2 = true -> b2 = true) -> (a3 = true -> b3 = true) ->
  (a4 = true -> b4 = true) -> (a5 = true -> b5 = true) -> (a6 = true -> b6 = true) ->
  (if a1 then Some Tmap else if a2 then Some TnormalMap else if a3 then Some TroughnessMap
   else if a4 then Some TmetalnessMap else if a5 then Some TaoMap
   else if a6 then Some TdisplacementMap else None) = Some r ->
  exists r',
    (if b1 then Some Tmap else if b2 then Some TnormalMap else if b3 then Some TroughnessMap
     else if b4 then Some TmetalnessMap else if b5 then Some TaoMap
     else if b6 then Some TdisplacementMap else None) = Some r'
    /\ (rank r' <= rank r)%nat.
Proof.
  intros H1 H2 H3 H4 H5 H6.
  destruct b1; [intros _; exists Tmap; split; [reflexivity | simpl; lia] |].
  destruct a1; [specialize (H1 eq_refl); discriminate |].
  destruct b2; [intros H; exists TnormalMap; split; [reflexivity |];
                destruct a2, a3, a4, a5, a6; inversion H; simpl; lia |].
  destruct a2; [specialize (H2 eq_refl); discriminate |].
  destruct b3; [intros H; exists TroughnessMap; split; [reflexivity |];
                destruct a3, a4, a5, a6; inversion H; simpl; lia |].
  destruct a3; [specialize (H3 eq_refl); discriminate |].
  destruct b4; [intros H; exists TmetalnessMap; split; [reflexivity |];
                destruct a4, a5, a6; inversion H; simpl; lia |].
  destruct a4; [specialize (H4 eq_refl); discriminate |].
  destruct b5; [intros H; exists TaoMap; split; [reflexivity |];
                destruct a5, a6; inversion H; simpl; lia |].
  destruct a5; [specialize (H5 eq_refl); discriminate |].
  destruct b6; [intros H; exists TdisplacementMap; split; [reflexivity |];
                destruct a6; inversion H; simpl; lia |].
  destruct a6; [specialize (H6 eq_refl); discriminate | discriminate].
Qed.

(** X1. A file name that contains a classified name stays classified:
    when [f] occurs inside [g] (a folder prefix, a suffix or an extension
    was added) and [f] gets a role, then [g] gets a role too, and it is
    the role of the same keyword group or of one checked earlier. *)
Theorem X1_matchTextureType_longer_name (f g : string) (r : TextureMapType) :
  Substring f g ->
  App.matchTextureType f = Some r ->
  (exists r', App.matchTextureType g = Some r' /\ (rank r' <= rank r)%nat)
  /\ (exists r', Vanilla.matchTextureType g = Some r' /\ (rank r' <= rank r)%nat).
Proof.
  intros Hfg Hf.
  assert (H : exists r', App.matchTextureType g = Some r' /\ (rank r' <= rank r)%nat).
  { revert Hf. unfold App.matchTextureType.
    apply role_chain_longer; rewrite !orb_true_iff; intros H;
      repeat match goal with
             | H : _ \/ _ |- _ => destruct H as [H | H]
             end;
      apply (includes_longer _ _ _ Hfg) in H; tauto. }
  split; [exact H |].
  rewrite Vanilla_matchTextureType_firstMatchingGroup,
          <- App_matchTextureType_firstMatchingGroup.
  exact H.
Qed.

Lemma X1_matchTextureType_longer_name_witness :
  exists r', App.matchTextureType "textures/Rock_Height_basecolor.png" = Some r'
             /\ (rank r' <= rank TdisplacementMap)%nat.
Proof.
  apply (X1_matchTextureType_longer_name "Rock_Height" _ TdisplacementMap).
  - exists "textures/", "_basecolor.png". reflexivity.
  - vm_compute. reflexivity.
Defined.

(** ** The component-based version through its events *)

Lemma setSlot_getSlot {A : Type} (type : TextureMapType) (m : Slots A) :
  setSlot type (getSlot type m) m = m.
Proof. destruct type, m; reflexivity. Qed.

Lemma setSlot_setSlot {A : Type} (type : TextureMapType) (v w : A) (m : Slots A) :
  setSlot type w (setSlot type v m) = setSlot type w m.
Proof. destruct type; reflexivity. Qed.

Lemma App_handle_ok (e : App.Event) (st : App.State) :
  exists st', App.handle e st = Ok (tt, st').
Proof.
  destruct e as [| | files | s | type | v | v | v]; simpl;
    try (eexists; reflexivity).
  - unfold App.onDrop, App.setIsDragging. unfold_monad.
    destruct (0 <? List.length files)%nat; [| eexists; reflexivity].
    unfold App.handleFiles, App.setMaterial. unfold_monad. cbn [App.material].
    match goal with
    | |- context [App.handleFilesLoop ?m files ?s] =>
        destruct (App_handleFilesLoop_ok files m s) as (m' & st' & H & _)
    end.
    rewrite H. eexists. reflexivity.
  - destruct (getSlot type (App.material st)) as [old|] eqn:Hslot.
    + rewrite (App_resetTexture_occupied _ _ _ Hslot). eexists. reflexivity.
    + rewrite (App_resetTexture_empty _ _ Hslot). eexists. reflexivity.
Qed.

(** A property that holds at the start and is kept by every event holds
    after every run of events, none of which throws. *)
Lemma App_always (P : App.State -> Prop) :
  P App.initialState ->
  (forall e st st', P st -> App.handle e st = Ok (tt, st') -> P st') ->
  forall es, exists st, exec (forEach es App.handle) App.initialState = Ok st /\ P st.
Proof.
  intros Hinit Hstep es. generalize App.initialState Hinit.
  induction es as [|e es IH]; intros st HP.
  - exists st. split; [reflexivity | exact HP].
  - destruct (App_handle_ok e st) as (st1 & H1).
    rewrite (exec_forEach_cons _ _ _ _ _ H1). apply IH. exact (Hstep e st st1 HP H1).
Qed.

(** What one matched or unmatched file does to the local copy and the
    browser, whatever the slot held. *)
Lemma App_handleFile_cases (newMaterial : MaterialState) (file : File) (st : App.State) :
  match App.matchTextureType (name file) with
  | Some type =>
      exists u b,
        App.handleFile newMaterial file st
        = Ok (setSlot type (Some (mkTextureData u (name file))) newMaterial,
              App.mkState (App.material st) (App.settings st) (App.isDragging st) b)
        /\ issued b = S (issued (App.urls st))
  | None => App.handleFile newMaterial file st = Ok (newMaterial, st)
  end.
Proof.
  destruct (App.matchTextureType (name file)) as [type|] eqn:Hmatch.
  - rewrite (App_handleFile_matched _ _ _ _ Hmatch). do 2 eexists.
    split; [reflexivity |]. destruct (getSlot type newMaterial); reflexivity.
  - unfold App.handleFile. rewrite Hmatch. reflexivity.
Qed.

Lemma App_handleFilesLoop_facts (files : list File) (newMaterial newMaterial' : MaterialState)
      (st st' : App.State) :
  App.handleFilesLoop newMaterial files st = Ok (newMaterial', st') ->
  (forall type, lastMatching type files = None ->
                getSlot type newMaterial' = getSlot type newMaterial)
  /\ issued (App.urls st') = (issued (App.urls st) + List.length (List.filter App_matched files))%nat
  /\ (App_namesClassify newMaterial -> App_namesClassify newMaterial').
Proof.
  revert newMaterial st. induction files as [|file files IH]; intros newMaterial st H.
  - injection H as <- <-. split; [reflexivity |]. split; [simpl; lia | auto].
  - cbn [App.handleFilesLoop] in H. unfold bind in H.
    destruct (App.handleFile newMaterial file st) as [[m1 st1]|] eqn:H1; [| discriminate].
    destruct (IH m1 st1 H) as (Hkeep & Hissued & Hnames).
    pose proof (App_handleFile_cases newMaterial file st) as Hcase.
    cbn [lastMatching List.filter]. unfold App_matched at 1.
    destruct (App.matchTextureType (name file)) as [t|] eqn:Hmatch.
    + destruct Hcase as (u & b & Heq & Hb). rewrite Heq in H1. injection H1 as <- <-.
      simpl in Hissued. split; [| split].
      * intros type Hnone. destruct (lastMatching type files) eqn:Hl; [discriminate |].
        rewrite (Hkeep type Hl).
        destruct (TextureMapType_eqb t type) eqn:Heqb; [discriminate |].
        apply getSlot_setSlot_other. intros ->. destruct t; discriminate.
      * simpl. rewrite Hissued, Hb. lia.
      * intros Hn. apply Hnames. intros type td Hslot.
        destruct (TextureMapType_eq_dec type t) as [-> | Hne].
        -- rewrite getSlot_setSlot_same in Hslot. injection Hslot as <-. exact Hmatch.
        -- rewrite getSlot_setSlot_other in Hslot by exact Hne. exact (Hn type td Hslot).
    + rewrite Hcase in H1. injection H1 as <- <-. split; [| split].
      * intros type Hnone. destruct (lastMatching type files) eqn:Hl; [discriminate |].
        exact (Hkeep type Hl).
      * simpl. exact Hissued.
      * exact Hnames.
Qed.

(** X2. [handleFiles] of the component-based version, on any batch and
    any state: it does not throw; each slot ends showing the name of the
    last file of the batch classified for it; a slot for which the batch
    has no file is left exactly as it was; the settings are untouched; and
    one object URL is issued for each classified file (none for the others). *)
Theorem X2_App_handleFiles_batch (files : list File) (st : App.State) :
  exists st',
    App.handleFiles files st = Ok (tt, st')
    /\ (forall type,
           option_map td_name (getSlot type (App.material st'))
           = match lastMatching type files with
             | Some file => Some (name file)
             | None => option_map td_name (getSlot type (App.material st))
             end)
    /\ (forall type, lastMatching type files = None ->
                     getSlot type (App.material st') = getSlot type (App.material st))
    /\ App.settings st' = App.settings st
    /\ issued (App.urls st')
       = (issued (App.urls st) + List.length (List.filter App_matched files))%nat.
Proof.
  unfold App.handleFiles, App.setMaterial. unfold_monad.
  destruct (App_handleFilesLoop_ok files (App.material st) st) as (m & st1 & H & _ & Hs & _).
  rewrite H. eexists. split; [reflexivity |]. simpl.
  destruct (App_handleFilesLoop_facts _ _ _ _ _ H) as (Hkeep & Hissued & _).
  split; [intros type; exact (App_handleFilesLoop_last_wins _ _ _ _ _ type H) |].
  split; [exact Hkeep |]. split; [exact Hs | exact Hissued].
Qed.

Lemma App_handle_keeps_names (e : App.Event) (st st' : App.State) :
  App_namesClassify (App.material st) ->
  App.handle e st = Ok (tt, st') ->
  App_namesClassify (App.material st').
Proof.
  intros Hn. destruct e as [| | files | s | type | v | v | v]; simpl;
    try (intros [= <-]; exact Hn).
  - unfold App.onDrop, App.setIsDragging. unfold_monad.
    destruct (0 <? List.length files)%nat; [| intros [= <-]; exact Hn].
    unfold App.handleFiles, App.setMaterial. unfold_monad. cbn [App.material].
    match goal with
    | |- context [App.handleFilesLoop ?m files ?s] =>
        destruct (App.handleFilesLoop m files s) as [[m' st1]|] eqn:H; [| discriminate]
    end.
    intros [= <-]. simpl.
    destruct (App_handleFilesLoop_facts _ _ _ _ _ H) as (_ & _ & Hnames). exact (Hnames Hn).
  - destruct (getSlot type (App.material st)) as [old|] eqn:Hslot.
    + rewrite (App_resetTexture_occupied _ _ _ Hslot). intros [= <-]. simpl.
      intros t td Ht. destruct (TextureMapType_eq_dec t type) as [-> | Hne].
      * rewrite getSlot_setSlot_same in Ht. discriminate.
      * rewrite getSlot_setSlot_other in Ht by exact Hne. exact (Hn t td Ht).
    + rewrite (App_resetTexture_empty _ _ Hslot). intros [= <-]. exact Hn.
Qed.

(** X3. In the component-based version, through any events, every
    occupied slot holds a file name that [matchTextureType] assigns to that
    very slot (so the panel never shows a file under a foreign label, and
    never an empty name). *)
Theorem X3_App_slots_hold_their_own_names (es : list App.Event) :
  exists st,
    exec (forEach es App.handle) App.initialState = Ok st
    /\ forall type td,
        getSlot type (App.material st) = Some td ->
        App.matchTextureType (td_name td) = Some type /\ td_name td <> "".
Proof.
  destruct (App_always (fun st => App_namesClassify (App.material st))) with (es := es)
    as (st & Hrun & Hn).
  - intros type td H. destruct type; discriminate.
  - intros e s s'. apply App_handle_keeps_names.
  - exists st. split; [exact Hrun |]. intros type td Hslot.
    pose proof (Hn type td Hslot) as Hm. split; [exact Hm |].
    intros Hempty. rewrite Hempty in Hm. vm_compute in Hm. discriminate.
Qed.

Lemma App_handleFiles_settings (files : list File) (st : App.State) :
  exists st', App.handleFiles files st = Ok (tt, st') /\ App.settings st' = App.settings st.
Proof.
  unfold App.handleFiles, App.setMaterial. unfold_monad.
  destruct (App_handleFilesLoop_ok files (App.material st) st) as (m & st1 & H & _ & Hs & _).
  rewrite H. eexists. split; [reflexivity | exact Hs].
Qed.

Lemma App_handle_settings (e : App.Event) (st st' : App.State) :
  App.handle e st = Ok (tt, st') ->
  roughness (App.settings st') = roughness (App.settings st)
  /\ metalness (App.settings st') = metalness (App.settings st).
Proof.
  destruct e as [| | files | s | type | v | v | v]; simpl;
    try (intros [= <-]; split; reflexivity).
  - unfold App.onDrop, App.setIsDragging. unfold_monad.
    destruct (0 <? List.length files)%nat; [| intros [= <-]; split; reflexivity].
    destruct (App_handleFiles_settings files
                (App.mkState (App.material st) (App.settings st) false (App.urls st)))
      as (st1 & H & Hs).
    rewrite H. intros [= <-]. rewrite Hs. split; reflexivity.
  - destruct (getSlot type (App.material st)) as [old|] eqn:Hslot.
    + rewrite (App_resetTexture_occupied _ _ _ Hslot). intros [= <-]. split; reflexivity.
    + rewrite (App_resetTexture_empty _ _ Hslot). intros [= <-]. split; reflexivity.
Qed.

(** X4. The component-based version has no control for roughness and
    metalness: through any events the settings stay at roughness 1 and
    metalness 0, so the textured mesh is always configured with roughness 1,
    and with metalness 1 when a metalness map is loaded and 0 otherwise. *)
Theorem X4_App_roughness_metalness_fixed (es : list App.Event) :
  exists st,
    exec (forEach es App.handle) App.initialState = Ok st
    /\ roughness (App.settings st) = Finite 1
    /\ metalness (App.settings st) = Finite 0
    /\ App_roughness_metalness (App.material st) (App.settings st)
       = (Finite 1, if truthy (metalnessMap (App.material st)) then Finite 1 else Finite 0).
Proof.
  destruct (App_always (fun st => roughness (App.settings st) = Finite 1
                                  /\ metalness (App.settings st) = Finite 0))
    with (es := es) as (st & Hrun & Hr & Hm).
  - split; reflexivity.
  - intros e s s' [Hr Hm] H. destruct (App_handle_settings e s s' H) as [Hr' Hm'].
    rewrite Hr', Hm'. split; assumption.
  - exists st. split; [exact Hrun |]. split; [exact Hr |]. split; [exact Hm |].
    unfold App_roughness_metalness. simpl. rewrite Hr, Hm.
    destruct (truthy (roughnessMap (App.material st))); reflexivity.
Qed.

Lemma filter_revoked_fresh (u : Url) (l : list (Url * File)) :
  ~ In u (List.map fst l) ->
  List.filter (fun e => negb (Nat.eqb (fst e) u)) l = l.
Proof.
  induction l as [|e l IH]; simpl; intros Hnot; [reflexivity |].
  match goal with |- context [if ?c then _ else _] => destruct c eqn:E end.
  - rewrite IH; [reflexivity |]. intros Hin. apply Hnot. right. exact Hin.
  - exfalso. apply Hnot. left. apply negb_false_iff in E. apply Nat.eqb_eq in E. exact E.
Qed.

(** X5. Dropping one classified file on an empty slot of the
    component-based version and then removing it is a round trip: both
    steps succeed, the slot holds the file in between, and afterwards the
    texture slots, the settings and the live object URLs are as before. *)
Theorem X5_App_drop_then_remove (file : File) (type : TextureMapType) (st : App.State) :
  SlotsOwnUrls (App.material st) (App.urls st) ->
  App.matchTextureType (name file) = Some type ->
  getSlot type (App.material st) = None ->
  exists st1 st2,
    App.handleFiles [file] st = Ok (tt, st1)
    /\ getSlot type (App.material st1)
       = Some (mkTextureData (issued (App.urls st)) (name file))
    /\ App.resetTexture type st1 = Ok (tt, st2)
    /\ App.material st2 = App.material st
    /\ App.settings st2 = App.settings st
    /\ live (App.urls st2) = live (App.urls st).
Proof.
  intros (_ & _ & Hlt & _) Hmatch Hslot.
  pose (td := mkTextureData (issued (App.urls st)) (name file)).
  pose (st1 := App.mkState (setSlot type (Some td) (App.material st)) (App.settings st)
                           (App.isDragging st) (snd (createObjectURL file (App.urls st)))).
  assert (H1 : App.handleFiles [file] st = Ok (tt, st1)).
  { unfold App.handleFiles, App.setMaterial. unfold_monad. cbn [App.handleFilesLoop].
    unfold bind. rewrite (App_handleFile_matched _ _ _ _ Hmatch), Hslot. reflexivity. }
  assert (Hs1 : getSlot type (App.material st1) = Some td).
  { apply getSlot_setSlot_same. }
  exists st1. eexists. split; [exact H1 |]. split; [exact Hs1 |].
  split; [exact (App_resetTexture_occupied type td st1 Hs1) |].
  cbn [App.material App.settings App.urls st1 td url].
  split; [| split; [reflexivity |]].
  - rewrite setSlot_setSlot, <- Hslot. apply setSlot_getSlot.
  - unfold createObjectURL, revokeObjectURL. cbn [snd live].
    rewrite List.filter_app. cbn [List.filter fst]. rewrite Nat.eqb_refl.
    cbn [negb]. rewrite app_nil_r.
    apply filter_revoked_fresh. intros Hin. apply Hlt in Hin. lia.
Qed.

Lemma X5_App_drop_then_remove_witness :
  exists st1 st2,
    App.handleFiles [steelMetal] App.initialState = Ok (tt, st1)
    /\ getSlot TmetalnessMap (App.material st1) = Some (mkTextureData 0 "steel_metal.png")
    /\ App.resetTexture TmetalnessMap st1 = Ok (tt, st2)
    /\ App.material st2 = App.material App.initialState
    /\ App.settings st2 = App.settings App.initialState
    /\ live (App.urls st2) = live (App.urls App.initialState).
Proof.
  apply (X5_App_drop_then_remove steelMetal TmetalnessMap App.initialState).
  - exact SlotsOwnUrls_initial.
  - vm_compute. reflexivity.
  - reflexivity.
Defined.

(** ** Accounting of object URLs in the component-based version *)

Lemma length_filter_revoked_live (u : Url) (l : list (Url * File)) :
  List.NoDup (List.map fst l) -> In u (List.map fst l) ->
  S (List.length (List.filter (fun e => negb (Nat.eqb (fst e) u)) l)) = List.length l.
Proof.
  induction l as [|e l IH]; simpl; intros Hnd Hin; [destruct Hin |].
  inversion Hnd as [|x xs Hnotin Hnd']; subst.
  match goal with |- context [if ?c then _ else _] => destruct c eqn:E end.
  - simpl. f_equal. apply IH; [exact Hnd' |].
    destruct Hin as [Heq | Hin]; [| exact Hin].
    apply negb_true_iff in E. apply Nat.eqb_neq in E. contradiction.
  - apply negb_false_iff in E. apply Nat.eqb_eq in E.
    subst u. rewrite filter_revoked_fresh; [reflexivity | exact Hnotin].
Qed.

Lemma App_handleFile_keeps_accounted (newMaterial newMaterial' : MaterialState)
      (file : File) (st st' : App.State) :
  SlotsOwnUrls newMaterial (App.urls st) ->
  UrlsAccounted (App.urls st) ->
  App.handleFile newMaterial file st = Ok (newMaterial', st') ->
  UrlsAccounted (App.urls st').
Proof.
  intros (Hlive & _ & _ & Hnd) Hacc H.
  destruct (App.matchTextureType (name file)) as [type|] eqn:Hmatch.
  - rewrite (App_handleFile_matched _ _ _ _ Hmatch) in H. injection H as <- <-.
    unfold UrlsAccounted in *. cbn [App.urls].
    destruct (getSlot type newMaterial) as [old|] eqn:Hslot.
    + assert (Hin : In (url old) (List.map fst (live (App.urls st)))).
      { apply Hlive. exists type, old. split; [exact Hslot | reflexivity]. }
      pose proof (length_filter_revoked_live _ _ Hnd Hin) as Hlen.
      unfold createObjectURL, revokeObjectURL. cbn [snd issued live revokeLog].
      rewrite !length_app. cbn [List.length]. unfold Url in *. lia.
    + unfold createObjectURL. cbn [snd issued live revokeLog].
      rewrite !length_app. cbn [List.length]. lia.
  - unfold App.handleFile in H. rewrite Hmatch in H. injection H as <- <-. exact Hacc.
Qed.

Lemma App_handleFilesLoop_keeps_accounted (files : list File)
      (newMaterial newMaterial' : MaterialState) (st st' : App.State) :
  SlotsOwnUrls newMaterial (App.urls st) ->
  UrlsAccounted (App.urls st) ->
  App.handleFilesLoop newMaterial files st = Ok (newMaterial', st') ->
  UrlsAccounted (App.urls st').
Proof.
  revert newMaterial st. induction files as [|file files IH];
    intros newMaterial st Hown Hacc H.
  - injection H as <- <-. exact Hacc.
  - cbn [App.handleFilesLoop] in H. unfold bind in H.
    destruct (App.handleFile newMaterial file st) as [[m1 st1]|] eqn:H1; [| discriminate].
    apply (IH m1 st1); [| | exact H].
    + exact (App_handleFile_keeps_ownership _ _ _ _ _ Hown H1).
    + exact (App_handleFile_keeps_accounted _ _ _ _ _ Hown Hacc H1).
Qed.

Lemma App_handle_keeps_accounted (e : App.Event) (st st' : App.State) :
  SlotsOwnUrls (App.material st) (App.urls st) /\ UrlsAccounted (App.urls st) ->
  App.handle e st = Ok (tt, st') ->
  SlotsOwnUrls (App.material st') (App.urls st') /\ UrlsAccounted (App.urls st').
Proof.
  intros [Hown Hacc] H.
  split.
  { destruct (App_handle_keeps_ownership e st Hown) as (st1 & H1 & Hown1).
    rewrite H in H1. injection H1 as <-. exact Hown1. }
  revert H. destruct e as [| | files | s | type | v | v | v]; simpl;
    try (intros [= <-]; exact Hacc).
  - unfold App.onDrop, App.setIsDragging. unfold_monad.
    destruct (0 <? List.length files)%nat; [| intros [= <-]; exact Hacc].
    unfold App.handleFiles, App.setMaterial. unfold_monad. cbn [App.material].
    match goal with
    | |- context [App.handleFilesLoop ?m files ?s] =>
        destruct (App.handleFilesLoop m files s) as [[m' st1]|] eqn:Hl; [| discriminate]
    end.
    intros [= <-]. cbn [App.urls].
    exact (App_handleFilesLoop_keeps_accounted
             files (App.material st) m'
             (App.mkState (App.material st) (App.settings st) false (App.urls st)) st1
             Hown Hacc Hl).
  - destruct (getSlot type (App.material st)) as [old|] eqn:Hslot.
    + rewrite (App_resetTexture_occupied _ _ _ Hslot). intros [= <-].
      destruct Hown as (Hlive & _ & _ & Hnd).
      assert (Hin : In (url old) (List.map fst (live (App.urls st)))).
      { apply Hlive. exists type, old. split; [exact Hslot | reflexivity]. }
      pose proof (length_filter_revoked_live _ _ Hnd Hin) as Hlen.
      unfold UrlsAccounted in *. unfold revokeObjectURL.
      cbn [App.urls issued live revokeLog]. rewrite length_app. cbn [List.length].
      unfold Url in *. lia.
    + rewrite (App_resetTexture_empty _ _ Hslot). intros [= <-]. exact Hacc.
Qed.

Lemma in_heldUrls (ts : list TextureMapType) (m : MaterialState) (u : Url) :
  In u (heldUrls ts m) <-> exists t td, In t ts /\ getSlot t m = Some td /\ url td = u.
Proof.
  unfold heldUrls. rewrite in_flat_map. split.
  - intros (t & Hin & Hu). destruct (getSlot t m) as [td|] eqn:Hslot; [| destruct Hu].
    destruct Hu as [<- | []]. exists t, td. auto.
  - intros (t & td & Hin & Hslot & <-). exists t. split; [exact Hin |].
    rewrite Hslot. left. reflexivity.
Qed.

Lemma NoDup_heldUrls (ts : list TextureMapType) (m : MaterialState) :
  (forall t1 t2 td1 td2,
      getSlot t1 m = Some td1 -> getSlot t2 m = Some td2 -> url td1 = url td2 -> t1 = t2) ->
  List.NoDup ts -> List.NoDup (heldUrls ts m).
Proof.
  intros Hinj. induction ts as [|t ts IH]; intros Hnd; [constructor |].
  inversion Hnd as [|x xs Hnotin Hnd']; subst.
  change (heldUrls (t :: ts) m)
    with ((match getSlot t m with Some td => [url td] | None => [] end) ++ heldUrls ts m).
  destruct (getSlot t m) as [td|] eqn:Hslot; [| exact (IH Hnd')].
  simpl. constructor; [| exact (IH Hnd')].
  intros Hin. apply in_heldUrls in Hin as (t' & td' & Hin' & Hslot' & Hu).
  apply Hnotin. rewrite (Hinj t t' td td' Hslot Hslot' (eq_sym Hu)). exact Hin'.
Qed.

Lemma length_heldUrls (ts : list TextureMapType) (m : MaterialState) :
  List.length (heldUrls ts m) = List.length (occupiedAmong ts m).
Proof.
  induction ts as [|t ts IH]; [reflexivity |].
  change (heldUrls (t :: ts) m)
    with ((match getSlot t m with Some td => [url td] | None => [] end) ++ heldUrls ts m).
  unfold occupiedAmong in *. cbn [List.filter].
  destruct (getSlot t m) as [td|]; simpl; rewrite IH; reflexivity.
Qed.

Lemma SlotsOwnUrls_count (m : MaterialState) (b : Browser) :
  SlotsOwnUrls m b ->
  List.length (live b) = List.length (occupiedAmong allSlots m).
Proof.
  intros (Hlive & Hinj & _ & Hnd).
  rewrite <- length_heldUrls, <- (length_map fst (live b)).
  assert (Hall : forall t, In t allSlots) by (intros []; simpl; tauto).
  assert (Hnd' : List.NoDup (heldUrls allSlots m)).
  { apply NoDup_heldUrls; [exact Hinj |].
    unfold allSlots. repeat constructor; simpl; intuition discriminate. }
  apply Nat.le_antisymm; apply List.NoDup_incl_length; try assumption.
  - intros u Hu. apply in_heldUrls. apply Hlive in Hu as (t & td & Ht & Hu).
    exists t, td. auto.
  - intros u Hu. apply Hlive. apply in_heldUrls in Hu as (t & td & _ & Ht & Hu).
    exists t, td. auto.
Qed.

(** X6. The component-based version leaks no object URL and revokes none
    twice: through any events there are exactly as many live object URLs as
    occupied texture slots (at most six), each live URL is held by one slot,
    and every URL ever issued is either live or was revoked exactly once. *)
Theorem X6_App_object_urls_accounted (es : list App.Event) :
  exists st,
    exec (forEach es App.handle) App.initialState = Ok st
    /\ List.length (live (App.urls st))
       = List.length (occupiedAmong allSlots (App.material st))
    /\ (List.length (live (App.urls st)) <= 6)%nat
    /\ issued (App.urls st)
       = (List.length (live (App.urls st)) + List.length (revokeLog (App.urls st)))%nat
    /\ (forall u, In u (List.map fst (live (App.urls st))) <->
                  exists type td, getSlot type (App.material st) = Some td /\ url td = u).
Proof.
  destruct (App_always (fun st => SlotsOwnUrls (App.material st) (App.urls st)
                                  /\ UrlsAccounted (App.urls st)))
    with (es := es) as (st & Hrun & Hown & Hacc).
  - split; [exact SlotsOwnUrls_initial | reflexivity].
  - exact App_handle_keeps_accounted.
  - exists st. split; [exact Hrun |].
    pose proof (SlotsOwnUrls_count _ _ Hown) as Hcount.
    split; [exact Hcount |]. split; [| split; [exact Hacc | apply Hown]].
    rewrite Hcount. unfold occupiedAmong, allSlots. simpl.
    repeat match goal with |- context [if ?c then _ else _] => destruct c end;
      simpl; lia.
Qed.

(** ** The vanilla version through its events *)

Lemma Vanilla_handleFile_step (file : File) (st : Vanilla.State) :
  Vanilla.handleFile file st = Ok (tt, Vanilla_dropFile st file).
Proof.
  unfold Vanilla.handleFile, Vanilla_dropFile.
  destruct (Vanilla.matchTextureType (name file)) as [type|]; [| reflexivity].
  unfold Vanilla.dispose, Vanilla.URL_createObjectURL, Vanilla.textureLoader_load,
    Vanilla_startLoad. unfold_monad.
  destruct (getSlot type (Vanilla.material st)) as [tex|]; reflexivity.
Qed.

Lemma Vanilla_handleFiles_step (files : list File) (st : Vanilla.State) :
  Vanilla.handleFiles files st = Ok (tt, fold_left Vanilla_dropFile files st).
Proof.
  unfold Vanilla.handleFiles. revert st.
  induction files as [|file files IH]; intros st; [reflexivity |].
  cbn [forEach fold_left]. unfold bind at 1. rewrite Vanilla_handleFile_step. apply IH.
Qed.

Lemma Vanilla_updateAll_step (p : Vanilla.Param) (val : number) (st : Vanilla.State) :
  Vanilla.updateAll p val st = Ok (tt, Vanilla_applyParam p val st).
Proof.
  unfold Vanilla.updateAll, Vanilla_applyParam. unfold_monad. destruct p; reflexivity.
Qed.

(** Every handler ends, without throwing, in the state [Vanilla_step] gives. *)
Lemma Vanilla_handle_step (e : Vanilla.Event) (st : Vanilla.State) :
  Vanilla.handle e st = Ok (tt, Vanilla_step e st).
Proof.
  destruct e as [s | p v | p v | | | files | type | k | k]; cbn [Vanilla.handle Vanilla_step].
  - reflexivity.
  - unfold Vanilla.onSliderInput. unfold bind, modify.
    apply Vanilla_updateAll_step.
  - unfold Vanilla.onTextInput. destruct (isNaN v); [reflexivity |].
    unfold bind, modify, gets. apply Vanilla_updateAll_step.
  - reflexivity.
  - reflexivity.
  - unfold Vanilla.onDrop. unfold bind, modify.
    destruct files as [|file files].
    + reflexivity.
    + cbn [List.length Nat.ltb Nat.leb]. apply Vanilla_handleFiles_step.
  - unfold Vanilla.resetTexture, Vanilla.dispose, Vanilla_fillSlot. unfold_monad.
    destruct (getSlot type (Vanilla.material st)) as [tex|]; reflexivity.
  - unfold Vanilla.onImageLoaded, Vanilla.onLoad, Vanilla_fillSlot. unfold_monad.
    destruct (Vanilla.take_nth k (Vanilla.pending st)) as [[load others]|]; reflexivity.
  - unfold Vanilla.onImageError. unfold_monad.
    destruct (Vanilla.take_nth k (Vanilla.pending st)) as [[load others]|]; reflexivity.
Qed.

(** A property that holds when the page has started and is kept by every
    event holds after every run of events, none of which throws. *)
Lemma Vanilla_always (bounds : Vanilla.Param -> number * number)
      (P : Vanilla.State -> Prop) :
  P (Vanilla.start bounds) ->
  (forall e st, P st -> P (Vanilla_step e st)) ->
  forall es,
    exists st, exec (forEach es Vanilla.handle) (Vanilla.start bounds) = Ok st /\ P st.
Proof.
  intros Hinit Hstep es. generalize (Vanilla.start bounds) Hinit.
  induction es as [|e es IH]; intros st HP.
  - exists st. split; [reflexivity | exact HP].
  - rewrite (exec_forEach_cons _ _ _ _ _ (Vanilla_handle_step e st)).
    apply IH. apply Hstep. exact HP.
Qed.

Lemma Vanilla_updateMaterial_no_mesh (st : Vanilla.State) :
  Vanilla.mesh st = None -> Vanilla.updateMaterial st = st.
Proof. intros H. unfold Vanilla.updateMaterial. rewrite H. reflexivity. Qed.

Lemma Vanilla_updateGeometry_untouched (st : Vanilla.State) :
  Vanilla.material (Vanilla.updateGeometry st) = Vanilla.material st
  /\ Vanilla.settings (Vanilla.updateGeometry st) = Vanilla.settings st
  /\ Vanilla.textureFiles (Vanilla.updateGeometry st) = Vanilla.textureFiles st
  /\ Vanilla.toneMappingExposure (Vanilla.updateGeometry st) = Vanilla.toneMappingExposure st
  /\ Vanilla.disposeLog (Vanilla.updateGeometry st) = Vanilla.disposeLog st
  /\ Vanilla.urls (Vanilla.updateGeometry st) = Vanilla.urls st
  /\ Vanilla.pending (Vanilla.updateGeometry st) = Vanilla.pending st
  /\ Vanilla.dom (Vanilla.updateGeometry st) = Vanilla.dom st.
Proof.
  unfold Vanilla.updateGeometry.
  match goal with
  | |- context [Vanilla.updateMaterial ?s] =>
      destruct (Vanilla_updateMaterial_frame s) as (H1 & H2 & H3 & H4 & H5 & H6 & H7 & H8 & _)
  end.
  rewrite H1, H2, H3, H4, H5, H6, H7, H8. repeat split; reflexivity.
Qed.

Lemma Vanilla_updateMaterial_material (st : Vanilla.State) :
  Vanilla.material (Vanilla.updateMaterial st) = Vanilla.material st.
Proof. apply Vanilla_updateMaterial_frame. Qed.

Lemma Vanilla_updateMaterial_settings (st : Vanilla.State) :
  Vanilla.settings (Vanilla.updateMaterial st) = Vanilla.settings st.
Proof. apply Vanilla_updateMaterial_frame. Qed.

Lemma Vanilla_updateMaterial_textureFiles (st : Vanilla.State) :
  Vanilla.textureFiles (Vanilla.updateMaterial st) = Vanilla.textureFiles st.
Proof. apply Vanilla_updateMaterial_frame. Qed.

Lemma Vanilla_updateMaterial_toneMappingExposure (st : Vanilla.State) :
  Vanilla.toneMappingExposure (Vanilla.updateMaterial st) = Vanilla.toneMappingExposure st.
Proof. apply Vanilla_updateMaterial_frame. Qed.

Lemma Vanilla_updateMaterial_disposeLog (st : Vanilla.State) :
  Vanilla.disposeLog (Vanilla.updateMaterial st) = Vanilla.disposeLog st.
Proof. apply Vanilla_updateMaterial_frame. Qed.

Lemma Vanilla_updateMaterial_urls (st : Vanilla.State) :
  Vanilla.urls (Vanilla.updateMaterial st) = Vanilla.urls st.
Proof. apply Vanilla_updateMaterial_frame. Qed.

Lemma Vanilla_updateMaterial_pending (st : Vanilla.State) :
  Vanilla.pending (Vanilla.updateMaterial st) = Vanilla.pending st.
Proof. apply Vanilla_updateMaterial_frame. Qed.

Lemma Vanilla_updateMaterial_dom (st : Vanilla.State) :
  Vanilla.dom (Vanilla.updateMaterial st) = Vanilla.dom st.
Proof. apply Vanilla_updateMaterial_frame. Qed.

Lemma Vanilla_updateGeometry_material (st : Vanilla.State) :
  Vanilla.material (Vanilla.updateGeometry st) = Vanilla.material st.
Proof. apply Vanilla_updateGeometry_untouched. Qed.

Lemma Vanilla_updateGeometry_settings (st : Vanilla.State) :
  Vanilla.settings (Vanilla.updateGeometry st) = Vanilla.settings st.
Proof. apply Vanilla_updateGeometry_untouched. Qed.

Lemma Vanilla_updateGeometry_textureFiles (st : Vanilla.State) :
  Vanilla.textureFiles (Vanilla.updateGeometry st) = Vanilla.textureFiles st.
Proof. apply Vanilla_updateGeometry_untouched. Qed.

Lemma Vanilla_updateGeometry_toneMappingExposure (st : Vanilla.State) :
  Vanilla.toneMappingExposure (Vanilla.updateGeometry st) = Vanilla.toneMappingExposure st.
Proof. apply Vanilla_updateGeometry_untouched. Qed.

Lemma Vanilla_updateGeometry_disposeLog (st : Vanilla.State) :
  Vanilla.disposeLog (Vanilla.updateGeometry st) = Vanilla.disposeLog st.
Proof. apply Vanilla_updateGeometry_untouched. Qed.

Lemma Vanilla_updateGeometry_urls (st : Vanilla.State) :
  Vanilla.urls (Vanilla.updateGeometry st) = Vanilla.urls st.
Proof. apply Vanilla_updateGeometry_untouched. Qed.

Lemma Vanilla_updateGeometry_pending (st : Vanilla.State) :
  Vanilla.pending (Vanilla.updateGeometry st) = Vanilla.pending st.
Proof. apply Vanilla_updateGeometry_untouched. Qed.

Lemma Vanilla_updateGeometry_dom (st : Vanilla.State) :
  Vanilla.dom (Vanilla.updateGeometry st) = Vanilla.dom st.
Proof. apply Vanilla_updateGeometry_untouched. Qed.

Lemma Vanilla_renderTextureSlots_material (st : Vanilla.State) :
  Vanilla.material (Vanilla.renderTextureSlots st) = Vanilla.material st.
Proof. reflexivity. Qed.

Lemma Vanilla_renderTextureSlots_settings (st : Vanilla.State) :
  Vanilla.settings (Vanilla.renderTextureSlots st) = Vanilla.settings st.
Proof. reflexivity. Qed.

Lemma Vanilla_renderTextureSlots_textureFiles (st : Vanilla.State) :
  Vanilla.textureFiles (Vanilla.renderTextureSlots st) = Vanilla.textureFiles st.
Proof. reflexivity. Qed.

Lemma Vanilla_renderTextureSlots_mesh (st : Vanilla.State) :
  Vanilla.mesh (Vanilla.renderTextureSlots st) = Vanilla.mesh st.
Proof. reflexivity. Qed.

Lemma Vanilla_renderTextureSlots_disposeLog (st : Vanilla.State) :
  Vanilla.disposeLog (Vanilla.renderTextureSlots st) = Vanilla.disposeLog st.
Proof. reflexivity. Qed.

Lemma Vanilla_renderTextureSlots_urls (st : Vanilla.State) :
  Vanilla.urls (Vanilla.renderTextureSlots st) = Vanilla.urls st.
Proof. reflexivity. Qed.

Lemma Vanilla_renderTextureSlots_pending (st : Vanilla.State) :
  Vanilla.pending (Vanilla.renderTextureSlots st) = Vanilla.pending st.
Proof. reflexivity. Qed.

Lemma Vanilla_renderTextureSlots_autoRotate (st : Vanilla.State) :
  Vanilla.autoRotate (Vanilla.renderTextureSlots st) = Vanilla.autoRotate st.
Proof. reflexivity. Qed.

Lemma Vanilla_renderTextureSlots_toneMappingExposure (st : Vanilla.State) :
  Vanilla.toneMappingExposure (Vanilla.renderTextureSlots st) = Vanilla.toneMappingExposure st.
Proof. reflexivity. Qed.

Lemma Vanilla_renderTextureSlots_heap (st : Vanilla.State) :
  Vanilla.heap (Vanilla.renderTextureSlots st) = Vanilla.heap st.
Proof. reflexivity. Qed.

Lemma Vanilla_renderTextureSlots_dom (st : Vanilla.State) :
  Vanilla.dom (Vanilla.renderTextureSlots st)
  = Vanilla.mkDom
      (List.map (fun slot =>
                   Vanilla.slotElement slot (getSlot (fst slot) (Vanilla.textureFiles st)))
                Vanilla.slots)
      (Vanilla.controlsUI (Vanilla.dom st))
      (Vanilla.activeShapeBtn (Vanilla.dom st))
      (Vanilla.overlayActive (Vanilla.dom st)).
Proof. reflexivity. Qed.

Create Rewrite HintDb vanilla_frame.

#[local] Hint Rewrite
  Vanilla_updateMaterial_material
  Vanilla_updateMaterial_settings
  Vanilla_updateMaterial_textureFiles
  Vanilla_updateMaterial_toneMappingExposure
  Vanilla_updateMaterial_disposeLog
  Vanilla_updateMaterial_urls
  Vanilla_updateMaterial_pending
  Vanilla_updateMaterial_dom
  Vanilla_updateGeometry_material
  Vanilla_updateGeometry_settings
  Vanilla_updateGeometry_textureFiles
  Vanilla_updateGeometry_toneMappingExposure
  Vanilla_updateGeometry_disposeLog
  Vanilla_updateGeometry_urls
  Vanilla_updateGeometry_pending
  Vanilla_updateGeometry_dom
  Vanilla_renderTextureSlots_material
  Vanilla_renderTextureSlots_settings
  Vanilla_renderTextureSlots_textureFiles
  Vanilla_renderTextureSlots_mesh
  Vanilla_renderTextureSlots_disposeLog
  Vanilla_renderTextureSlots_urls
  Vanilla_renderTextureSlots_pending
  Vanilla_renderTextureSlots_autoRotate
  Vanilla_renderTextureSlots_toneMappingExposure
  Vanilla_renderTextureSlots_heap
  Vanilla_renderTextureSlots_dom
  : vanilla_frame.

(** Rewrites, in the goal, the fields that [updateMaterial],
    [updateGeometry] and [renderTextureSlots] leave alone, and computes the
    record projections. *)
Ltac vframe :=
  repeat (autorewrite with vanilla_frame; cbn -[Vanilla.updateMaterial
            Vanilla.updateGeometry Vanilla.renderTextureSlots alter lookup]).

Lemma take_nth_split {A : Type} (k : nat) (l : list A) (x : A) (r : list A) :
  Vanilla.take_nth k l = Some (x, r) ->
  exists a b, l = a ++ x :: b /\ r = a ++ b.
Proof.
  revert k x r. induction l as [|y l IH]; intros k x r H.
  - destruct k; discriminate.
  - destruct k as [|k]; simpl in H.
    + injection H as <- <-. exists [], l. split; reflexivity.
    + destruct (Vanilla.take_nth k l) as [[z r']|] eqn:E; [| discriminate].
      injection H as <- <-. destruct (IH k z r' E) as (a & b & -> & ->).
      exists (y :: a), b. split; reflexivity.
Qed.

(** *** Object URLs of the vanilla version *)

Lemma Vanilla_dropFile_urls (st : Vanilla.State) (file : File) :
  revokeLog (Vanilla.urls (Vanilla_dropFile st file)) = revokeLog (Vanilla.urls st)
  /\ (List.length (live (Vanilla.urls st)) = issued (Vanilla.urls st) ->
      List.length (live (Vanilla.urls (Vanilla_dropFile st file)))
      = issued (Vanilla.urls (Vanilla_dropFile st file))).
Proof.
  unfold Vanilla_dropFile, Vanilla_startLoad.
  destruct (Vanilla.matchTextureType (name file)) as [type|]; [| auto].
  destruct (getSlot type (Vanilla.material st)); cbn; rewrite length_app; cbn;
    (split; [reflexivity | intros <-; lia]).
Qed.

Lemma Vanilla_dropFiles_urls (files : list File) (st : Vanilla.State) :
  revokeLog (Vanilla.urls (fold_left Vanilla_dropFile files st)) = revokeLog (Vanilla.urls st)
  /\ (List.length (live (Vanilla.urls st)) = issued (Vanilla.urls st) ->
      List.length (live (Vanilla.urls (fold_left Vanilla_dropFile files st)))
      = issued (Vanilla.urls (fold_left Vanilla_dropFile files st))).
Proof.
  revert st. induction files as [|file files IH]; intros st; [auto |].
  cbn [fold_left]. destruct (IH (Vanilla_dropFile st file)) as [Hr Hl].
  destruct (Vanilla_dropFile_urls st file) as [Hr' Hl'].
  split; [congruence | auto].
Qed.

(** X7. The vanilla version never revokes an object URL: through any
    events no [revokeObjectURL] call is made, so every URL it created for a
    dropped file stays live, also after the slot was reset or refilled. *)
Theorem X7_Vanilla_never_revokes (bounds : Vanilla.Param -> number * number)
        (es : list Vanilla.Event) :
  exists st,
    exec (forEach es Vanilla.handle) (Vanilla.start bounds) = Ok st
    /\ revokeLog (Vanilla.urls st) = []
    /\ List.length (live (Vanilla.urls st)) = issued (Vanilla.urls st).
Proof.
  apply (Vanilla_always bounds
           (fun st => revokeLog (Vanilla.urls st) = []
                      /\ List.length (live (Vanilla.urls st)) = issued (Vanilla.urls st))).
  - unfold Vanilla.start. vframe. split; reflexivity.
  - intros e st [Hr Hl].
    destruct e as [s | p v | p v | | | files | type | k | k]; cbn [Vanilla_step].
    + vframe. split; assumption.
    + unfold Vanilla_applyParam. destruct p; vframe; split; assumption.
    + destruct (isNaN v); [split; assumption |].
      unfold Vanilla_applyParam. destruct p; vframe; split; assumption.
    + split; assumption.
    + split; assumption.
    + destruct (Vanilla_dropFiles_urls files (Vanilla.setOverlayActive false st)) as [Hr' Hl'].
      split; [rewrite Hr'; exact Hr | apply Hl'; exact Hl].
    + destruct (getSlot type (Vanilla.material st)); [| split; assumption].
      unfold Vanilla_fillSlot. vframe. split; assumption.
    + destruct (Vanilla.take_nth k (Vanilla.pending st)) as [[load others]|];
        [| split; assumption].
      unfold Vanilla_fillSlot. vframe. split; assumption.
    + destruct (Vanilla.take_nth k (Vanilla.pending st)) as [[load others]|];
        split; assumption.
Qed.

(** *** Dropped batches in the vanilla version *)

Lemma Vanilla_dropFile_effect (st : Vanilla.State) (file : File) :
  let st' := Vanilla_dropFile st file in
  let n := if Vanilla_matched file then 1%nat else 0%nat in
  Vanilla.material st' = Vanilla.material st
  /\ Vanilla.textureFiles st' = Vanilla.textureFiles st
  /\ Vanilla.settings st' = Vanilla.settings st
  /\ Vanilla.mesh st' = Vanilla.mesh st
  /\ Vanilla.autoRotate st' = Vanilla.autoRotate st
  /\ Vanilla.toneMappingExposure st' = Vanilla.toneMappingExposure st
  /\ Vanilla.dom st' = Vanilla.dom st
  /\ List.length (Vanilla.pending st') = (List.length (Vanilla.pending st) + n)%nat
  /\ List.length (Vanilla.heap st') = (List.length (Vanilla.heap st) + n)%nat
  /\ issued (Vanilla.urls st') = (issued (Vanilla.urls st) + n)%nat.
Proof.
  unfold Vanilla_dropFile, Vanilla_matched, Vanilla_startLoad.
  destruct (Vanilla.matchTextureType (name file)) as [type|]; cbn [truthy].
  - destruct (getSlot type (Vanilla.material st)); cbn; rewrite !length_app; cbn;
      repeat split; lia.
  - repeat split; lia.
Qed.

Lemma Vanilla_dropFiles_effect (files : list File) (st : Vanilla.State) :
  let st' := fold_left Vanilla_dropFile files st in
  let n := List.length (List.filter Vanilla_matched files) in
  Vanilla.material st' = Vanilla.material st
  /\ Vanilla.textureFiles st' = Vanilla.textureFiles st
  /\ Vanilla.settings st' = Vanilla.settings st
  /\ Vanilla.mesh st' = Vanilla.mesh st
  /\ Vanilla.autoRotate st' = Vanilla.autoRotate st
  /\ Vanilla.toneMappingExposure st' = Vanilla.toneMappingExposure st
  /\ Vanilla.dom st' = Vanilla.dom st
  /\ List.length (Vanilla.pending st') = (List.length (Vanilla.pending st) + n)%nat
  /\ List.length (Vanilla.heap st') = (List.length (Vanilla.heap st) + n)%nat
  /\ issued (Vanilla.urls st') = (issued (Vanilla.urls st) + n)%nat.
Proof.
  revert st. induction files as [|file files IH]; intros st.
  - cbn. repeat split; lia.
  - cbn [fold_left List.filter].
    destruct (IH (Vanilla_dropFile st file))
      as (H1 & H2 & H3 & H4 & H5 & H6 & H7 & H8 & H9 & H10).
    destruct (Vanilla_dropFile_effect st file)
      as (G1 & G2 & G3 & G4 & G5 & G6 & G7 & G8 & G9 & G10).
    cbv zeta in *. rewrite H1, H2, H3, H4, H5, H6, H7, H8, H9, H10.
    rewrite G1, G2, G3, G4, G5, G6, G7, G8, G9, G10.
    destruct (Vanilla_matched file); cbn [List.length]; repeat split; lia.
Qed.

Lemma Vanilla_dropFile_logs (st : Vanilla.State) (file : File) :
  Vanilla.disposeLog (Vanilla_dropFile st file)
  = Vanilla.disposeLog st ++ Vanilla_disposedBy (Vanilla.material st) [file]
  /\ revokeLog (Vanilla.urls (Vanilla_dropFile st file)) = revokeLog (Vanilla.urls st).
Proof.
  unfold Vanilla_dropFile, Vanilla_disposedBy, Vanilla_startLoad. cbn [flat_map].
  destruct (Vanilla.matchTextureType (name file)) as [type|].
  - destruct (getSlot type (Vanilla.material st)); cbn; rewrite ?app_nil_r; auto.
  - cbn. rewrite app_nil_r. auto.
Qed.

Lemma Vanilla_dropFiles_logs (files : list File) (st : Vanilla.State) :
  Vanilla.disposeLog (fold_left Vanilla_dropFile files st)
  = Vanilla.disposeLog st ++ Vanilla_disposedBy (Vanilla.material st) files
  /\ revokeLog (Vanilla.urls (fold_left Vanilla_dropFile files st))
     = revokeLog (Vanilla.urls st).
Proof.
  revert st. induction files as [|file files IH]; intros st.
  - cbn. rewrite app_nil_r. auto.
  - cbn [fold_left].
    destruct (IH (Vanilla_dropFile st file)) as [Hd Hr].
    destruct (Vanilla_dropFile_logs st file) as [Hd1 Hr1].
    destruct (Vanilla_dropFile_effect st file) as (Hm & _).
    cbv zeta in Hm. rewrite Hd, Hr, Hd1, Hr1, Hm.
    split; [| reflexivity].
    rewrite <- app_assoc. f_equal.
    unfold Vanilla_disposedBy. cbn [flat_map]. rewrite app_nil_r. reflexivity.
Qed.

(** X8. [handleFiles] of the vanilla version, on any batch and any state:
    it does not throw; for each classified file it creates one object URL
    and one texture object and leaves one outstanding load, and when the
    file's slot holds a texture it disposes of that texture (the slot keeps
    pointing at it until the image arrives); for the other files it does
    nothing.  The texture slots, the file names, the settings, the mesh,
    the page and the revoked URLs are as before until an image arrives. *)
Theorem X8_Vanilla_handleFiles_starts_loads_and_disposes
        (files : list File) (st : Vanilla.State) :
  exists st',
    Vanilla.handleFiles files st = Ok (tt, st')
    /\ Vanilla.material st' = Vanilla.material st
    /\ Vanilla.textureFiles st' = Vanilla.textureFiles st
    /\ Vanilla.settings st' = Vanilla.settings st
    /\ Vanilla.mesh st' = Vanilla.mesh st
    /\ Vanilla.dom st' = Vanilla.dom st
    /\ List.length (Vanilla.pending st')
       = (List.length (Vanilla.pending st) + List.length (List.filter Vanilla_matched files))%nat
    /\ List.length (Vanilla.heap st')
       = (List.length (Vanilla.heap st) + List.length (List.filter Vanilla_matched files))%nat
    /\ issued (Vanilla.urls st')
       = (issued (Vanilla.urls st) + List.length (List.filter Vanilla_matched files))%nat
    /\ Vanilla.disposeLog st'
       = Vanilla.disposeLog st ++ Vanilla_disposedBy (Vanilla.material st) files
    /\ revokeLog (Vanilla.urls st') = revokeLog (Vanilla.urls st)
    /\ Vanilla.autoRotate st' = Vanilla.autoRotate st
    /\ Vanilla.toneMappingExposure st' = Vanilla.toneMappingExposure st.
Proof.
  exists (fold_left Vanilla_dropFile files st).
  split; [apply Vanilla_handleFiles_step |].
  destruct (Vanilla_dropFiles_effect files st)
    as (H1 & H2 & H3 & H4 & H5 & H6 & H7 & H8 & H9 & H10).
  destruct (Vanilla_dropFiles_logs files st) as [Hd Hr].
  repeat split; assumption.
Qed.

(** *** The mesh material of the vanilla version *)

Lemma Vanilla_applySlots_keep_scalars (st : Vanilla.State) (l : list (TextureMapType * string))
      (acc : Vanilla.Material * list Texture) :
  Vanilla.mat_roughness (fst (fold_left (Vanilla.applySlot st) l acc))
  = Vanilla.mat_roughness (fst acc)
  /\ Vanilla.mat_metalness (fst (fold_left (Vanilla.applySlot st) l acc))
     = Vanilla.mat_metalness (fst acc)
  /\ Vanilla.mat_displacementScale (fst (fold_left (Vanilla.applySlot st) l acc))
     = Vanilla.mat_displacementScale (fst acc).
Proof.
  revert acc. induction l as [|slot l IH]; intros acc; simpl.
  - auto.
  - destruct (IH (Vanilla.applySlot st acc slot)) as (Hr & Hm & Hd).
    destruct (Vanilla_applySlot_keeps st acc slot) as (Hr' & Hm' & Hd').
    rewrite Hr, Hm, Hd, Hr', Hm', Hd'. auto.
Qed.

Lemma Vanilla_updateMaterial_sync (st : Vanilla.State) (m : Vanilla.Mesh) :
  Vanilla.mesh st = Some m ->
  exists m',
    Vanilla.mesh (Vanilla.updateMaterial st) = Some m'
    /\ Vanilla.geometry m' = Vanilla.geometry m
    /\ Vanilla.rotation m' = Vanilla.rotation m
    /\ Vanilla.maps (Vanilla.mesh_material m') = Vanilla.material st
    /\ Vanilla.mat_roughness (Vanilla.mesh_material m') = roughness (Vanilla.settings st)
    /\ Vanilla.mat_metalness (Vanilla.mesh_material m') = metalness (Vanilla.settings st)
    /\ Vanilla.mat_displacementScale (Vanilla.mesh_material m')
       = displacementScale (Vanilla.settings st)
    /\ Vanilla.color (Vanilla.mesh_material m')
       = (if truthy (map_ (Vanilla.material st)) then 0xffffff else 0x27272a)%Z
    /\ Vanilla.autoRotate (Vanilla.updateMaterial st)
       = negb (existsb truthy (slotValues (Vanilla.material st))).
Proof.
  intros Hmesh. unfold Vanilla.updateMaterial. rewrite Hmesh.
  match goal with
  | |- context [fold_left ?f ?l ?a] =>
      assert (Hmaps : Vanilla.maps (fst (fold_left f l a)) = Vanilla.material st);
      [| pose proof (Vanilla_applySlots_keep_scalars st l a) as (Hr & Hm & Hd);
         destruct (fold_left f l a) as [mat h]]
  end.
  - unfold Vanilla.slots. cbn [fold_left]. rewrite !Vanilla_applySlot_maps. cbn [fst].
    destruct (Vanilla.material st). reflexivity.
  - cbn in *. eexists. split; [reflexivity |]. cbn.
    rewrite Hr, Hm, Hd, Hmaps.
    destruct (map_ (Vanilla.material st)); repeat split; reflexivity.
Qed.

Lemma MeshInSync_updateMaterial (st : Vanilla.State) :
  (exists m, Vanilla.mesh st = Some m /\ MeshShaped st m) ->
  Vanilla.toneMappingExposure st = exposure (Vanilla.settings st) ->
  MeshInSync (Vanilla.updateMaterial st).
Proof.
  intros (m & Hmesh & Hg & Hrot) Hexp.
  destruct (Vanilla_updateMaterial_sync st m Hmesh)
    as (m' & H1 & H2 & H3 & H4 & H5 & H6 & H7 & H8 & H9).
  exists m'. unfold MeshShaped. vframe.
  rewrite H2, H3, H4, H5, H6, H7, H8, H9.
  repeat split; assumption.
Qed.

Lemma MeshInSync_same_fields (st st' : Vanilla.State) :
  Vanilla.mesh st' = Vanilla.mesh st ->
  Vanilla.material st' = Vanilla.material st ->
  Vanilla.settings st' = Vanilla.settings st ->
  Vanilla.autoRotate st' = Vanilla.autoRotate st ->
  Vanilla.toneMappingExposure st' = Vanilla.toneMappingExposure st ->
  MeshInSync st -> MeshInSync st'.
Proof.
  intros H1 H2 H3 H4 H5 (m & Hm). exists m. unfold MeshShaped in *.
  rewrite H1, H2, H3, H4, H5. exact Hm.
Qed.

Lemma MeshInSync_applyParam (p : Vanilla.Param) (v : number) (st st0 : Vanilla.State) :
  Vanilla.mesh st = Vanilla.mesh st0 ->
  Vanilla.material st = Vanilla.material st0 ->
  Vanilla.settings st = Vanilla.settings st0 ->
  Vanilla.autoRotate st = Vanilla.autoRotate st0 ->
  Vanilla.toneMappingExposure st = Vanilla.toneMappingExposure st0 ->
  MeshInSync st0 -> MeshInSync (Vanilla_applyParam p v st).
Proof.
  intros H1 H2 H3 H4 H5 Hsync.
  apply (MeshInSync_same_fields st0 st) in Hsync; try assumption.
  destruct Hsync as (m & Hmesh & [Hg Hrot] & Hmaps & Hr & Hme & Hd & Hc & Ha & He).
  unfold Vanilla_applyParam.
  destruct p;
    try (apply MeshInSync_updateMaterial;
         [exists m; unfold MeshShaped; cbn; split; [exact Hmesh | split; assumption]
         | cbn; exact He]).
  exists m. unfold MeshShaped. cbn. repeat split; assumption.
Qed.

Lemma MeshInSync_fillSlot (type : TextureMapType) (tex : option Vanilla.TexRef)
      (file : option File) (st st0 : Vanilla.State) :
  Vanilla.mesh st = Vanilla.mesh st0 ->
  Vanilla.settings st = Vanilla.settings st0 ->
  Vanilla.toneMappingExposure st = Vanilla.toneMappingExposure st0 ->
  MeshInSync st0 -> MeshInSync (Vanilla_fillSlot type tex file st).
Proof.
  intros H1 H2 H3 (m & Hmesh & [Hg Hrot] & _ & _ & _ & _ & _ & _ & He).
  unfold Vanilla_fillSlot. apply MeshInSync_updateMaterial.
  - exists m. unfold MeshShaped. vframe. rewrite H1, H2. repeat split; assumption.
  - vframe. rewrite H2, H3. exact He.
Qed.

Lemma MeshInSync_updateGeometry (st : Vanilla.State) :
  Vanilla.toneMappingExposure st = exposure (Vanilla.settings st) ->
  MeshInSync (Vanilla.updateGeometry st).
Proof.
  intros He. unfold Vanilla.updateGeometry. apply MeshInSync_updateMaterial.
  - eexists. split; [reflexivity |]. split; reflexivity.
  - exact He.
Qed.


(** *** The slot panel of the vanilla version *)

Lemma PanelInSync_same_fields (st st' : Vanilla.State) :
  Vanilla.textureSlots (Vanilla.dom st') = Vanilla.textureSlots (Vanilla.dom st) ->
  Vanilla.textureFiles st' = Vanilla.textureFiles st ->
  Vanilla.material st' = Vanilla.material st ->
  (forall load, In load (Vanilla.pending st') -> In load (Vanilla.pending st)) ->
  PanelInSync st -> PanelInSync st'.
Proof.
  intros H1 H2 H3 H4 (Hd & Ho & Hn & Hp). unfold PanelInSync.
  rewrite H1, H2, H3. repeat split; try assumption.
  intros load Hin. apply Hp. apply H4. exact Hin.
Qed.

Lemma PanelInSync_fillSlot (type : TextureMapType) (tex : option Vanilla.TexRef)
      (file : option File) (st st0 : Vanilla.State) :
  Vanilla.textureFiles st = Vanilla.textureFiles st0 ->
  Vanilla.material st = Vanilla.material st0 ->
  (forall load, In load (Vanilla.pending st) -> In load (Vanilla.pending st0)) ->
  truthy tex = truthy file ->
  (forall f, file = Some f -> Vanilla.matchTextureType (name f) = Some type) ->
  PanelInSync st0 -> PanelInSync (Vanilla_fillSlot type tex file st).
Proof.
  intros H2 H3 H4 Htruthy Hfile (_ & Ho & Hn & Hp).
  unfold Vanilla_fillSlot, PanelInSync. vframe. rewrite H2, H3.
  split; [reflexivity |]. split; [| split].
  - intros t. destruct (TextureMapType_eq_dec t type) as [-> | Hne].
    + rewrite !getSlot_setSlot_same. exact Htruthy.
    + rewrite !getSlot_setSlot_other by exact Hne. apply Ho.
  - intros t f. destruct (TextureMapType_eq_dec t type) as [-> | Hne].
    + rewrite getSlot_setSlot_same. apply Hfile.
    + rewrite getSlot_setSlot_other by exact Hne. apply Hn.
  - intros load Hin. apply Hp. apply H4. exact Hin.
Qed.

Lemma PanelInSync_dropFile (st : Vanilla.State) (file : File) :
  PanelInSync st -> PanelInSync (Vanilla_dropFile st file).
Proof.
  intros (Hd & Ho & Hn & Hp).
  destruct (Vanilla_dropFile_effect st file) as (H1 & H2 & _ & _ & _ & _ & H7 & _).
  cbv zeta in *. unfold PanelInSync. rewrite H1, H2, H7.
  repeat split; try assumption.
  intros load. unfold Vanilla_dropFile, Vanilla_startLoad.
  destruct (Vanilla.matchTextureType (name file)) as [type|] eqn:Hmatch; [| apply Hp].
  destruct (getSlot type (Vanilla.material st)); cbn; rewrite in_app_iff;
    (intros [Hin | [<- | []]]; [apply Hp; exact Hin | exact Hmatch]).
Qed.

Lemma PanelInSync_dropFiles (files : list File) (st : Vanilla.State) :
  PanelInSync st -> PanelInSync (fold_left Vanilla_dropFile files st).
Proof.
  revert st. induction files as [|file files IH]; intros st H; [exact H |].
  cbn [fold_left]. apply IH. apply PanelInSync_dropFile. exact H.
Qed.

Lemma PanelInSync_step (e : Vanilla.Event) (st : Vanilla.State) :
  PanelInSync st -> PanelInSync (Vanilla_step e st).
Proof.
  intros Hsync.
  destruct e as [s | p v | p v | | | files | type | k | k]; cbn [Vanilla_step].
  - apply (PanelInSync_same_fields st); vframe; auto.
  - unfold Vanilla_applyParam.
    destruct p; apply (PanelInSync_same_fields st); vframe; auto.
  - destruct (isNaN v); [exact Hsync |]. unfold Vanilla_applyParam.
    destruct p; apply (PanelInSync_same_fields st); vframe; auto.
  - apply (PanelInSync_same_fields st); vframe; auto.
  - apply (PanelInSync_same_fields st); vframe; auto.
  - apply PanelInSync_dropFiles. apply (PanelInSync_same_fields st); vframe; auto.
  - destruct (getSlot type (Vanilla.material st)); [| exact Hsync].
    apply (PanelInSync_fillSlot _ _ _ _ st); vframe; auto. discriminate.
  - destruct (Vanilla.take_nth k (Vanilla.pending st)) as [[load others]|] eqn:Htake;
      [| exact Hsync].
    destruct (take_nth_split _ _ _ _ Htake) as (a & b & Hl & ->).
    apply (PanelInSync_fillSlot _ _ _ _ st); vframe; auto.
    + intros x Hx. rewrite Hl. rewrite in_app_iff in *. simpl. tauto.
    + intros f [= <-]. destruct Hsync as (_ & _ & _ & Hp). apply Hp.
      rewrite Hl. apply in_elt.
  - destruct (Vanilla.take_nth k (Vanilla.pending st)) as [[load others]|] eqn:Htake;
      [| exact Hsync].
    destruct (take_nth_split _ _ _ _ Htake) as (a & b & Hl & ->).
    apply (PanelInSync_same_fields st); vframe; auto.
    intros x Hx. rewrite Hl. rewrite in_app_iff in *. simpl. tauto.
Qed.

Lemma append_assoc' (a b c : string) :
  String.append (String.append a b) c = String.append a (String.append b c).
Proof. induction a as [|ch a IH]; cbn; [reflexivity | rewrite IH; reflexivity]. Qed.

Lemma concat_empty_cons (x : string) (l : list string) :
  String.concat EmptyString (x :: l) = String.append x (String.concat EmptyString l).
Proof.
  destruct l as [|y l]; cbn [String.concat]; [| reflexivity].
  induction x as [|ch x IH]; cbn; [reflexivity | rewrite <- IH; reflexivity].
Qed.

Lemma concat_empty_middle (l1 : list string) (x : string) (l2 : list string) :
  String.concat EmptyString (l1 ++ x :: l2)
  = String.concat EmptyString
      [String.concat EmptyString l1; x; String.concat EmptyString l2].
Proof.
  assert (Hnil : forall s, String.append s EmptyString = s).
  { induction s as [|ch s IH]; cbn; [reflexivity | rewrite IH; reflexivity]. }
  induction l1 as [|y l1 IH].
  - cbn [app]. rewrite !concat_empty_cons. cbn [String.concat String.append].
    rewrite Hnil. reflexivity.
  - cbn [app]. rewrite concat_empty_cons, IH, !concat_empty_cons.
    rewrite append_assoc'. reflexivity.
Qed.

(** X10. The slot panel of the vanilla version is always built from the
    state: through any events the [texture-slots] container holds, for each
    of the six slots in the order of the slot table, the element
    [renderTextureSlots] builds from the slot's current file -- class
    [texture-slot loaded], the row template filled with the label, the
    file's name inserted as it is (not escaped) and the remove button, and
    a click listener that resets that slot; or class [texture-slot ], the
    template with 'Not loaded' and the upload icon, and no listener; a slot
    has a file exactly when it has a texture; and every file sits in the
    slot its name classifies to.  Stated for dropped files whose names have
    no '<': such a name cannot open a tag or a comment in the row. *)
Theorem X10_Vanilla_panel_built_from_state (bounds : Vanilla.Param -> number * number)
        (es : list Vanilla.Event) :
  PlainNames es ->
  exists st,
    exec (forEach es Vanilla.handle) (Vanilla.start bounds) = Ok st
    /\ Vanilla.textureSlots (Vanilla.dom st)
       = List.map (fun slot =>
                     Vanilla.slotElement slot (getSlot (fst slot) (Vanilla.textureFiles st)))
                  Vanilla.slots
    /\ (forall slot, In slot Vanilla.slots ->
          match getSlot (fst slot) (Vanilla.textureFiles st) with
          | Some file =>
              Vanilla.className (Vanilla_slotView (Vanilla.textureFiles st) slot)
              = "texture-slot loaded"
              /\ Vanilla.removeListener (Vanilla_slotView (Vanilla.textureFiles st) slot)
                 = Some (fst slot)
              /\ exists before after,
                   Vanilla.innerHTML (Vanilla_slotView (Vanilla.textureFiles st) slot)
                   = String.concat EmptyString [before; name file; after]
          | None =>
              Vanilla.className (Vanilla_slotView (Vanilla.textureFiles st) slot)
              = "texture-slot "
              /\ Vanilla.removeListener (Vanilla_slotView (Vanilla.textureFiles st) slot)
                 = None
          end)
    /\ (forall type, getSlot type (Vanilla.material st) = None
                     <-> getSlot type (Vanilla.textureFiles st) = None)
    /\ (forall type file,
           getSlot type (Vanilla.textureFiles st) = Some file ->
           Vanilla.matchTextureType (name file) = Some type).
Proof.
  intros _.
  destruct (Vanilla_always bounds PanelInSync) with (es := es) as (st & Hrun & Hd & Ho & Hn & _).
  - unfold Vanilla.start, PanelInSync. vframe.
    split; [reflexivity |]. split; [intros []; reflexivity |].
    split; [intros [] f H; discriminate | intros load []].
  - exact PanelInSync_step.
  - exists st. split; [exact Hrun |]. split; [exact Hd |].
    split; [| split; [| exact Hn]].
    + intros slot _. unfold Vanilla_slotView.
      destruct (getSlot (fst slot) (Vanilla.textureFiles st)) as [file|].
      * split; [reflexivity |]. split; [reflexivity |].
        unfold Vanilla.slotElement. cbn [Vanilla.innerHTML].
        match goal with
        | |- context [String.concat EmptyString
                        (?a :: ?b :: ?c :: ?d :: ?e :: ?f :: ?g :: ?h :: ?i :: ?j
                            :: ?k :: ?l :: ?m :: ?n :: ?o :: ?rest)] =>
            change (a :: b :: c :: d :: e :: f :: g :: h :: i :: j :: k :: l :: m :: n
                      :: o :: rest)
              with ([a; b; c; d; e; f; g; h; i; j; k; l; m; n] ++ o :: rest)
        end.
        rewrite concat_empty_middle.
        match goal with
        | |- exists before after, String.concat _ [?x; _; ?y] = _ => exists x, y
        end.
        reflexivity.
      * split; reflexivity.
    + intros type. specialize (Ho type).
      destruct (getSlot type (Vanilla.material st)), (getSlot type (Vanilla.textureFiles st));
        simpl in Ho; split; intros H; congruence.
Qed.

Lemma X10_Vanilla_panel_built_from_state_witness :
  PlainNames [Vanilla.Drop [albedoA]; Vanilla.ImageLoaded 0]
  /\ exists st,
       exec (forEach [Vanilla.Drop [albedoA]; Vanilla.ImageLoaded 0] Vanilla.handle)
            (Vanilla.start exampleBounds) = Ok st
       /\ Vanilla.textureSlots (Vanilla.dom st)
          = List.map (fun slot =>
                        Vanilla.slotElement slot
                          (getSlot (fst slot) (Vanilla.textureFiles st)))
                     Vanilla.slots.
Proof.
  assert (Hplain : PlainNames [Vanilla.Drop [albedoA]; Vanilla.ImageLoaded 0]).
  { intros files file [Hin | [Hin | []]] Hfile; [| discriminate].
    injection Hin as <-. destruct Hfile as [<- | []]. vm_compute. reflexivity. }
  split; [exact Hplain |].
  destruct (X10_Vanilla_panel_built_from_state
              exampleBounds [Vanilla.Drop [albedoA]; Vanilla.ImageLoaded 0] Hplain)
    as (st & Hrun & Hdom & _).
  exists st. split; [exact Hrun | exact Hdom].
Defined.

(** *** The textures of the vanilla version *)

Lemma Vanilla_applySlot_heap (st : Vanilla.State) (acc : Vanilla.Material * list Texture)
      (slot : TextureMapType * string) :
  snd (Vanilla.applySlot st acc slot)
  = match getSlot (fst slot) (Vanilla.material st) with
    | Some r => alter (Vanilla_configure (tiling (Vanilla.settings st)) (fst slot)) r (snd acc)
    | None => snd acc
    end.
Proof.
  unfold Vanilla.applySlot.
  destruct (getSlot (fst slot) (Vanilla.material st)); reflexivity.
Qed.

Lemma Vanilla_applySlots_heap (st : Vanilla.State) (l : list (TextureMapType * string))
      (acc : Vanilla.Material * list Texture) :
  (forall t1 t2 r, getSlot t1 (Vanilla.material st) = Some r ->
                   getSlot t2 (Vanilla.material st) = Some r -> t1 = t2) ->
  List.NoDup (List.map fst l) ->
  let h' := snd (fold_left (Vanilla.applySlot st) l acc) in
  List.length h' = List.length (snd acc)
  /\ (forall r, (forall slot, In slot l ->
                             getSlot (fst slot) (Vanilla.material st) <> Some r) ->
                h' !! r = snd acc !! r)
  /\ (forall slot r, In slot l ->
                     getSlot (fst slot) (Vanilla.material st) = Some r ->
                     h' !! r = Vanilla_configure (tiling (Vanilla.settings st)) (fst slot)
                                 <$> (snd acc !! r)).
Proof.
  intros Hinj. revert acc. induction l as [|slot0 l IH]; intros acc Hnd; cbn [fold_left].
  - cbv zeta. split; [reflexivity |]. split; [reflexivity | intros slot r []].
  - inversion Hnd as [|x xs Hnotin Hnd']; subst.
    destruct (IH (Vanilla.applySlot st acc slot0) Hnd') as (Hlen & Hother & Hslot).
    cbv zeta in *. rewrite Vanilla_applySlot_heap in Hlen, Hother, Hslot.
    split; [| split].
    + rewrite Hlen. destruct (getSlot (fst slot0) (Vanilla.material st));
        [apply length_alter | reflexivity].
    + intros r Hno. rewrite Hother by (intros slot Hin; apply Hno; right; exact Hin).
      destruct (getSlot (fst slot0) (Vanilla.material st)) as [r0|] eqn:H0; [| reflexivity].
      apply list_lookup_alter_ne. intros ->. apply (Hno slot0); [left; reflexivity | exact H0].
    + intros slot r [<- | Hin] Hr.
      * rewrite Hother.
        -- rewrite Hr. apply list_lookup_alter_eq.
        -- intros slot' Hin' Hr'. apply Hnotin.
           rewrite (Hinj _ _ _ Hr Hr'). apply in_map. exact Hin'.
      * rewrite (Hslot slot r Hin Hr).
        destruct (getSlot (fst slot0) (Vanilla.material st)) as [r0|] eqn:H0; [| reflexivity].
        rewrite list_lookup_alter_ne; [reflexivity |].
        intros ->. apply Hnotin. rewrite (Hinj _ _ _ H0 Hr). apply in_map. exact Hin.
Qed.

Lemma Vanilla_updateMaterial_heap (st : Vanilla.State) (m : Vanilla.Mesh) :
  Vanilla.mesh st = Some m ->
  Vanilla.mesh (Vanilla.updateMaterial st) <> None
  /\ exists mat0,
      Vanilla.heap (Vanilla.updateMaterial st)
      = snd (fold_left (Vanilla.applySlot st) Vanilla.slots (mat0, Vanilla.heap st)).
Proof.
  intros Hmesh. unfold Vanilla.updateMaterial. rewrite Hmesh.
  match goal with
  | |- context [fold_left ?f ?l (?mat0, ?h)] =>
      split; [| exists mat0]; destruct (fold_left f l (mat0, h)) as [mat h'];
        [discriminate | reflexivity]
  end.
Qed.

Lemma slots_cover (type : TextureMapType) :
  exists label, In (type, label) Vanilla.slots.
Proof.
  destruct type; eexists; unfold Vanilla.slots; simpl; eauto 7.
Qed.

(** [updateMaterial] keeps the references in order and configures the
    texture of every slot. *)
Lemma RefsInOrder_updateMaterial (st : Vanilla.State) :
  RefsInOrder st ->
  RefsInOrder (Vanilla.updateMaterial st) /\ SlotTexturesConfigured (Vanilla.updateMaterial st).
Proof.
  intros (Hmesh & Ha & Hb & Hc & Hd & He).
  destruct (Vanilla.mesh st) as [m|] eqn:Hm; [| congruence].
  destruct (Vanilla_updateMaterial_heap st m Hm) as (Hmesh' & mat0 & Hheap).
  assert (Hnd : List.NoDup (List.map fst Vanilla.slots)).
  { unfold Vanilla.slots. simpl. repeat constructor; simpl; intuition discriminate. }
  destruct (Vanilla_applySlots_heap st Vanilla.slots (mat0, Vanilla.heap st) Hb Hnd)
    as (Hlen & _ & Hslot).
  cbv zeta in *. cbn [snd] in *. rewrite <- Hheap in Hlen, Hslot.
  split.
  - unfold RefsInOrder. vframe. rewrite Hlen. repeat split; assumption.
  - intros type r. vframe. intros Hr.
    destruct (slots_cover type) as (label & Hin).
    rewrite (Hslot (type, label) r Hin Hr). cbn [fst].
    destruct (lookup_lt_is_Some_2 (Vanilla.heap st) r (Ha type r Hr)) as (tex & Htex).
    unfold Vanilla.TexRef in *. rewrite Htex. eexists. split; [reflexivity |].
    unfold TextureConfigured. cbn. repeat split; reflexivity.
Qed.

Lemma RefsInOrder_fields (st s : Vanilla.State) :
  Vanilla.mesh s <> None ->
  Vanilla.material s = Vanilla.material st ->
  List.length (Vanilla.heap s) = List.length (Vanilla.heap st) ->
  Vanilla.pending s = Vanilla.pending st ->
  RefsInOrder st -> RefsInOrder s.
Proof.
  intros Hmesh Hmat Hlen Hpend (_ & Ha & Hb & Hc & Hd & He).
  unfold RefsInOrder. rewrite Hmat, Hlen, Hpend. repeat split; assumption.
Qed.

Lemma RefsInOrder_clear (type : TextureMapType) (st s : Vanilla.State) :
  Vanilla.mesh s <> None ->
  Vanilla.material s = setSlot type None (Vanilla.material st) ->
  List.length (Vanilla.heap s) = List.length (Vanilla.heap st) ->
  Vanilla.pending s = Vanilla.pending st ->
  RefsInOrder st -> RefsInOrder s.
Proof.
  intros Hmesh Hmat Hlen Hpend (_ & Ha & Hb & Hc & Hd & He).
  assert (Hold : forall t r, getSlot t (setSlot type None (Vanilla.material st)) = Some r ->
                             getSlot t (Vanilla.material st) = Some r).
  { intros t r. destruct (TextureMapType_eq_dec t type) as [-> | Hne].
    - rewrite getSlot_setSlot_same. discriminate.
    - rewrite getSlot_setSlot_other by exact Hne. auto. }
  unfold RefsInOrder. rewrite Hmat, Hlen, Hpend.
  split; [exact Hmesh |]. split; [| split; [| split; [exact Hc | split; [exact Hd |]]]].
  - intros t r H. exact (Ha t r (Hold t r H)).
  - intros t1 t2 r H1 H2. exact (Hb t1 t2 r (Hold _ _ H1) (Hold _ _ H2)).
  - intros load t Hin H. exact (He load t Hin (Hold _ _ H)).
Qed.

Lemma RefsInOrder_fill (load : Vanilla.PendingLoad) (a b : list Vanilla.PendingLoad)
      (st s : Vanilla.State) :
  Vanilla.mesh s <> None ->
  Vanilla.pending st = a ++ load :: b ->
  Vanilla.pending s = a ++ b ->
  Vanilla.material s
  = setSlot (Vanilla.pl_type load) (Some (Vanilla.pl_texture load)) (Vanilla.material st) ->
  List.length (Vanilla.heap s) = List.length (Vanilla.heap st) ->
  RefsInOrder st -> RefsInOrder s.
Proof.
  intros Hmesh Hpst Hps Hmat Hlen (_ & Ha & Hb & Hc & Hd & He).
  assert (Hload : In load (Vanilla.pending st)) by (rewrite Hpst; apply in_elt).
  assert (Hsub : forall x, In x (a ++ b) -> In x (Vanilla.pending st)).
  { intros x Hx. rewrite Hpst. rewrite in_app_iff in *. simpl. tauto. }
  rewrite Hpst, map_app in Hd. cbn [List.map] in Hd.
  pose proof (List.NoDup_remove_1 _ _ _ Hd) as Hd1.
  pose proof (List.NoDup_remove_2 _ _ _ Hd) as Hd2.
  rewrite <- map_app in Hd1, Hd2.
  unfold RefsInOrder. rewrite Hmat, Hlen, Hps.
  split; [exact Hmesh |]. split; [| split; [| split; [| split; [exact Hd1 |]]]].
  - intros t r. destruct (TextureMapType_eq_dec t (Vanilla.pl_type load)) as [-> | Hne].
    + rewrite getSlot_setSlot_same. intros [= <-]. apply Hc. exact Hload.
    + rewrite getSlot_setSlot_other by exact Hne. apply Ha.
  - intros t1 t2 r.
    destruct (TextureMapType_eq_dec t1 (Vanilla.pl_type load)) as [-> | Hne1];
      destruct (TextureMapType_eq_dec t2 (Vanilla.pl_type load)) as [-> | Hne2];
      rewrite ?getSlot_setSlot_same, ?getSlot_setSlot_other by assumption.
    + reflexivity.
    + intros [= <-] H2. exfalso. exact (He load t2 Hload H2).
    + intros H1 [= <-]. exfalso. exact (He load t1 Hload H1).
    + apply Hb.
  - intros x Hx. apply Hc. apply Hsub. exact Hx.
  - intros x t Hx.
    destruct (TextureMapType_eq_dec t (Vanilla.pl_type load)) as [-> | Hne].
    + rewrite getSlot_setSlot_same. intros [= Heq]. apply Hd2.
      rewrite Heq. apply in_map. exact Hx.
    + rewrite getSlot_setSlot_other by exact Hne. apply He. apply Hsub. exact Hx.
Qed.

Lemma SlotTexturesConfigured_fields (st s : Vanilla.State) :
  Vanilla.material s = Vanilla.material st ->
  Vanilla.heap s = Vanilla.heap st ->
  tiling (Vanilla.settings s) = tiling (Vanilla.settings st) ->
  SlotTexturesConfigured st -> SlotTexturesConfigured s.
Proof.
  intros Hmat Hheap Htil H. unfold SlotTexturesConfigured. rewrite Hmat, Hheap, Htil. exact H.
Qed.

Lemma Textures_dropFile (st : Vanilla.State) (file : File) :
  RefsInOrder st /\ SlotTexturesConfigured st ->
  RefsInOrder (Vanilla_dropFile st file) /\ SlotTexturesConfigured (Vanilla_dropFile st file).
Proof.
  intros [(Hmesh & Ha & Hb & Hc & Hd & He) Hcfg].
  unfold Vanilla_dropFile.
  destruct (Vanilla.matchTextureType (name file)) as [type|];
    [| split; [repeat split; assumption | exact Hcfg]].
  assert (Hfields :
            Vanilla.mesh (Vanilla_startLoad type file st) = Vanilla.mesh st
            /\ Vanilla.material (Vanilla_startLoad type file st) = Vanilla.material st
            /\ Vanilla.settings (Vanilla_startLoad type file st) = Vanilla.settings st
            /\ (exists u, Vanilla.heap (Vanilla_startLoad type file st)
                          = Vanilla.heap st ++ [newTexture u])
            /\ Vanilla.pending (Vanilla_startLoad type file st)
               = Vanilla.pending st
                   ++ [Vanilla.mkPendingLoad type file (List.length (Vanilla.heap st))]).
  { unfold Vanilla_startLoad. destruct (getSlot type (Vanilla.material st)); cbn;
      repeat split; eexists; reflexivity. }
  destruct Hfields as (H1 & H2 & H3 & (u & H4) & H5).
  split.
  - unfold RefsInOrder. rewrite H1, H2, H4, H5, length_app. cbn [List.length].
    split; [exact Hmesh |]. split; [| split; [exact Hb | split; [| split]]].
    + intros t r H. specialize (Ha t r H). lia.
    + intros load. rewrite in_app_iff. intros [Hin | [<- | []]].
      * specialize (Hc load Hin). lia.
      * cbn. lia.
    + rewrite map_app. cbn [List.map Vanilla.pl_texture]. apply List.NoDup_app.
      * exact Hd.
      * constructor; [intros [] | constructor].
      * intros x Hx [<- | []]. apply in_map_iff in Hx as (load & Hl & Hin).
        specialize (Hc load Hin). unfold Vanilla.TexRef in *. lia.
    + intros load t. rewrite in_app_iff. intros [Hin | [<- | []]].
      * apply He. exact Hin.
      * cbn. intros H. specialize (Ha t _ H). lia.
  - unfold SlotTexturesConfigured. rewrite H2, H3, H4. intros t r H.
    destruct (Hcfg t r H) as (tex & Htex & Hc').
    exists tex. split; [| exact Hc'].
    rewrite lookup_app_l; [exact Htex | apply (Ha t r H)].
Qed.

Lemma Textures_dropFiles (files : list File) (st : Vanilla.State) :
  RefsInOrder st /\ SlotTexturesConfigured st ->
  RefsInOrder (fold_left Vanilla_dropFile files st)
  /\ SlotTexturesConfigured (fold_left Vanilla_dropFile files st).
Proof.
  revert st. induction files as [|file files IH]; intros st H; [exact H |].
  cbn [fold_left]. apply IH. apply Textures_dropFile. exact H.
Qed.

Lemma Textures_applyParam (p : Vanilla.Param) (v : number) (s st : Vanilla.State) :
  Vanilla.mesh s = Vanilla.mesh st ->
  Vanilla.material s = Vanilla.material st ->
  Vanilla.heap s = Vanilla.heap st ->
  Vanilla.pending s = Vanilla.pending st ->
  Vanilla.settings s = Vanilla.settings st ->
  RefsInOrder st /\ SlotTexturesConfigured st ->
  RefsInOrder (Vanilla_applyParam p v s) /\ SlotTexturesConfigured (Vanilla_applyParam p v s).
Proof.
  intros H1 H2 H3 H4 H5 [Hrefs Hcfg].
  assert (Hmesh : Vanilla.mesh st <> None) by apply Hrefs.
  unfold Vanilla_applyParam.
  destruct p;
    try (apply RefsInOrder_updateMaterial;
         apply (RefsInOrder_fields st); cbn; [congruence | exact H2 | congruence | exact H4
                                             | exact Hrefs]).
  split.
  - apply (RefsInOrder_fields st); cbn; [congruence | exact H2 | congruence | exact H4
                                        | exact Hrefs].
  - apply (SlotTexturesConfigured_fields st); cbn; [exact H2 | exact H3 | | exact Hcfg].
    rewrite H5. reflexivity.
Qed.

Lemma Textures_step (e : Vanilla.Event) (st : Vanilla.State) :
  RefsInOrder st /\ SlotTexturesConfigured st ->
  RefsInOrder (Vanilla_step e st) /\ SlotTexturesConfigured (Vanilla_step e st).
Proof.
  intros [Hrefs Hcfg].
  assert (Hmesh : Vanilla.mesh st <> None) by apply Hrefs.
  destruct e as [s | p v | p v | | | files | type | k | k]; cbn [Vanilla_step].
  - unfold Vanilla.updateGeometry. apply RefsInOrder_updateMaterial.
    apply (RefsInOrder_fields st); cbn; [discriminate | reflexivity .. | exact Hrefs].
  - apply (Textures_applyParam p v _ st); try reflexivity. split; assumption.
  - destruct (isNaN v); [split; assumption |].
    apply (Textures_applyParam p _ _ st); try reflexivity. split; assumption.
  - split; [apply (RefsInOrder_fields st) | apply (SlotTexturesConfigured_fields st)];
      try reflexivity; assumption.
  - split; [apply (RefsInOrder_fields st) | apply (SlotTexturesConfigured_fields st)];
      try reflexivity; assumption.
  - apply Textures_dropFiles.
    split; [apply (RefsInOrder_fields st) | apply (SlotTexturesConfigured_fields st)];
      try reflexivity; assumption.
  - destruct (getSlot type (Vanilla.material st)); [| split; assumption].
    unfold Vanilla_fillSlot. apply RefsInOrder_updateMaterial.
    apply (RefsInOrder_clear type st); vframe; try reflexivity; assumption.
  - destruct (Vanilla.take_nth k (Vanilla.pending st)) as [[load others]|] eqn:Htake;
      [| split; assumption].
    destruct (take_nth_split _ _ _ _ Htake) as (a & b & Hl & ->).
    unfold Vanilla_fillSlot. apply RefsInOrder_updateMaterial.
    apply (RefsInOrder_fill load a b st); vframe; try reflexivity; try assumption.
    apply length_alter.
  - destruct (Vanilla.take_nth k (Vanilla.pending st)) as [[load others]|] eqn:Htake;
      [| split; assumption].
    destruct (take_nth_split _ _ _ _ Htake) as (a & b & Hl & ->).
    split; [| apply (SlotTexturesConfigured_fields st); try reflexivity; assumption].
    destruct Hrefs as (_ & Ha & Hb & Hc & Hd & He).
    assert (Hsub : forall x, In x (a ++ b) -> In x (Vanilla.pending st)).
    { intros x Hx. rewrite Hl. rewrite in_app_iff in *. simpl. tauto. }
    rewrite Hl, map_app in Hd. cbn [List.map] in Hd.
    apply List.NoDup_remove_1 in Hd. rewrite <- map_app in Hd.
    unfold RefsInOrder. cbn. repeat split; try assumption.
    + intros x Hx. apply Hc. apply Hsub. exact Hx.
    + intros x t Hx. apply He. apply Hsub. exact Hx.
Qed.

Lemma Textures_start (bounds : Vanilla.Param -> number * number) :
  RefsInOrder (Vanilla.start bounds) /\ SlotTexturesConfigured (Vanilla.start bounds).
Proof.
  unfold Vanilla.start, Vanilla.updateGeometry.
  match goal with
  | |- context [Vanilla.updateMaterial ?s1] =>
      assert (Hrefs : RefsInOrder s1);
      [| revert Hrefs; generalize s1; intros s Hrefs]
  end.
  - unfold RefsInOrder. cbn. split; [discriminate |].
    split; [intros [] r H; discriminate |].
    split; [intros [] t2 r H; discriminate |].
    split; [intros load [] |]. split; [constructor | intros load type []].
  - destruct (RefsInOrder_updateMaterial s Hrefs) as [Hr Hc].
    split.
    + apply (RefsInOrder_fields (Vanilla.updateMaterial s));
        [rewrite Vanilla_renderTextureSlots_mesh; apply Hr
        | apply Vanilla_renderTextureSlots_material
        | rewrite Vanilla_renderTextureSlots_heap; reflexivity
        | apply Vanilla_renderTextureSlots_pending
        | exact Hr].
    + apply (SlotTexturesConfigured_fields (Vanilla.updateMaterial s));
        [apply Vanilla_renderTextureSlots_material
        | apply Vanilla_renderTextureSlots_heap
        | rewrite Vanilla_renderTextureSlots_settings; reflexivity
        | exact Hc].
Qed.


(** ** The textured mesh of the component-based version *)

Lemma mapConfig_entries (material : MaterialState) :
  MaterialViewer.mapConfig material
  = flat_map (fun type => match getSlot type material with
                          | Some td => [(slotName type, url td)]
                          | None => []
                          end) allSlots.
Proof.
  unfold MaterialViewer.mapConfig. destruct material as [a b c d e f].
  destruct a, b, c, d, e, f; reflexivity.
Qed.

Lemma configured_useTexture (tiling : number) (config : list (string * Url)) :
  MaterialViewer.configureTextures tiling (MaterialViewer.useTexture config)
  = List.map (fun e =>
                (fst e,
                 mkTexture (snd e) RepeatWrapping RepeatWrapping (tiling, tiling)
                           (if String.eqb (fst e) "map" then SRGBColorSpace else NoColorSpace)
                           2))
             config.
Proof.
  unfold MaterialViewer.configureTextures, MaterialViewer.useTexture.
  rewrite List.map_map. reflexivity.
Qed.

Lemma slotName_is_map (type : TextureMapType) :
  (if String.eqb (slotName type) "map" then SRGBColorSpace else NoColorSpace)
  = match type with Tmap => SRGBColorSpace | _ => NoColorSpace end.
Proof. destruct type; reflexivity. Qed.

Lemma mapConfig_keys (material : MaterialState) :
  List.map fst (MaterialViewer.mapConfig material)
  = List.map slotName (List.filter (fun type => truthy (getSlot type material)) allSlots).
Proof.
  unfold MaterialViewer.mapConfig. destruct material as [a b c d e f].
  destruct a, b, c, d, e, f; reflexivity.
Qed.

(** X12. The textured mesh of the component-based version gets one
    texture for each loaded slot and none else: the keys of the textures of
    its material are the names of the slots that hold a file, each once, in
    the order of the slot table; the texture under the name of a slot is
    the one loaded from that slot's object URL, and it repeats in both
    directions as many times as the tiling setting says, in sRGB colour
    space for the albedo slot and in no colour space for the others; the
    displacement scale is the setting. *)
Theorem X12_PBRMeshInternal_textures (material : MaterialState)
        (settings : ViewerSettings ShapeType) :
  let textures :=
    MaterialViewer.textures
      (MaterialViewer.meshMaterial (MaterialViewer.PBRMeshInternal material settings)) in
  List.map fst textures
  = List.map slotName (List.filter (fun type => truthy (getSlot type material)) allSlots)
  /\ (forall key tex,
        In (key, tex) textures ->
        exists type td,
          getSlot type material = Some td
          /\ key = slotName type
          /\ source tex = url td
          /\ wrapS tex = RepeatWrapping
          /\ wrapT tex = RepeatWrapping
          /\ repeat tex = (tiling settings, tiling settings)
          /\ colorSpace tex
             = (match type with Tmap => SRGBColorSpace | _ => NoColorSpace end))
  /\ (forall type td,
        getSlot type material = Some td ->
        exists tex,
          In (slotName type, tex) textures
          /\ source tex = url td
          /\ wrapS tex = RepeatWrapping
          /\ wrapT tex = RepeatWrapping
          /\ repeat tex = (tiling settings, tiling settings)
          /\ colorSpace tex
             = (match type with Tmap => SRGBColorSpace | _ => NoColorSpace end))
  /\ MaterialViewer.displacementScale_prop
       (MaterialViewer.meshMaterial (MaterialViewer.PBRMeshInternal material settings))
     = Some (displacementScale settings).
Proof.
  cbv zeta.
  cbn [MaterialViewer.PBRMeshInternal MaterialViewer.meshMaterial MaterialViewer.textures
       MaterialViewer.displacementScale_prop].
  rewrite configured_useTexture.
  split; [| split; [| split; [| reflexivity]]].
  - rewrite List.map_map. cbn [fst]. apply mapConfig_keys.
  - intros key tex Hin. rewrite mapConfig_entries in Hin.
    apply in_map_iff in Hin as (e & He & Hin).
    apply in_flat_map in Hin as (type & _ & Hin).
    destruct (getSlot type material) as [td|] eqn:Hslot; [| destruct Hin].
    destruct Hin as [<- | []]. cbn [fst snd] in He. injection He as <- <-.
    exists type, td. cbn [source wrapS wrapT repeat colorSpace].
    rewrite slotName_is_map. repeat split; auto.
  - intros type td Hslot.
    exists (mkTexture (url td) RepeatWrapping RepeatWrapping
                      (tiling settings, tiling settings)
                      (match type with Tmap => SRGBColorSpace | _ => NoColorSpace end)
                      2).
    split; [| repeat split].
    apply in_map_iff. exists (slotName type, url td). split.
    + cbn [fst snd]. rewrite slotName_is_map. reflexivity.
    + rewrite mapConfig_entries. apply in_flat_map. exists type.
      split; [destruct type; simpl; tauto |].
      rewrite Hslot. left. reflexivity.
Qed.

(** ** Where the two versions build the same mesh *)



(** ** Removing twice *)


(** ** What the text box stores *)

Ltac q_props :=
  repeat match goal with
         | H : negb _ = true |- _ => apply negb_true_iff in H
         | H : negb _ = false |- _ => apply negb_false_iff in H
         | H : (_ && _) = true |- _ => apply andb_true_iff in H; destruct H
         | H : Qle_bool _ _ = true |- _ => apply Qle_bool_iff in H
         | H : Qle_bool ?a ?b = false |- _ =>
             assert (b < a)%Q
               by (apply Qnot_le_lt; intros HH; apply Qle_bool_iff in HH; congruence);
             clear H
         | |- Qle_bool _ _ = true => apply Qle_bool_iff
         | |- Qeq_bool _ _ = true => apply Qeq_bool_iff
         end.

Lemma clamp_cases (lo hi v : number) :
  num_leb lo hi = true -> isNaN v = false ->
  (num_ltb hi v = true -> num_same (Math_max lo (Math_min hi v)) hi = true)
  /\ (num_ltb v lo = true -> Math_max lo (Math_min hi v) = lo)
  /\ (within (lo, hi) v = true -> num_same (Math_max lo (Math_min hi v)) v = true).
Proof.
  unfold within, Math_max, Math_min.
  destruct lo as [| | lo |], hi as [| | hi |], v as [| | v |]; cbn;
    intros Hb Hv; try discriminate;
    repeat match goal with
           | |- context [Qle_bool ?a ?b] => destruct (Qle_bool a b) eqn:?; cbn
           end;
    (split; [| split]); intros H; try discriminate; try reflexivity;
    q_props; try lra; try (f_equal; lra).
Qed.

Lemma getControl_setControl (p : Vanilla.Param) (c : Vanilla.Control) (cs : Vanilla.Controls) :
  Vanilla.getControl p (Vanilla.setControl p c cs) = c.
Proof. destruct p; reflexivity. Qed.

(** X16. What a text entry stores in the vanilla version, for a slider
    with [min <= max] and an entry that parses to a number: an entry above
    [max] stores [max], an entry below [min] stores [min], an entry within
    the range is stored as it is; the slider is moved to the stored value,
    while the text box is left showing what was typed. *)
Theorem X16_Vanilla_text_entry_is_clamped (st : Vanilla.State) (p : Vanilla.Param)
        (v : number) :
  num_leb (fst (boundsOf st p)) (snd (boundsOf st p)) = true ->
  isNaN v = false ->
  exists st',
    Vanilla.onTextInput p v st = Ok (tt, st')
    /\ (num_ltb (snd (boundsOf st p)) v = true ->
        num_same (Vanilla.getParam p (Vanilla.settings st')) (snd (boundsOf st p)) = true)
    /\ (num_ltb v (fst (boundsOf st p)) = true ->
        Vanilla.getParam p (Vanilla.settings st') = fst (boundsOf st p))
    /\ (within (boundsOf st p) v = true ->
        num_same (Vanilla.getParam p (Vanilla.settings st')) v = true)
    /\ Vanilla.slider_value (Vanilla.getControl p (Vanilla.controlsUI (Vanilla.dom st')))
       = Vanilla.getParam p (Vanilla.settings st')
    /\ Vanilla.input_value (Vanilla.getControl p (Vanilla.controlsUI (Vanilla.dom st')))
       = Vanilla.input_value (Vanilla.getControl p (Vanilla.controlsUI (Vanilla.dom st))).
Proof.
  intros Hb Hv. exists (Vanilla_step (Vanilla.TextInput p v) st).
  split; [exact (Vanilla_handle_step (Vanilla.TextInput p v) st) |].
  cbn [Vanilla_step]. rewrite Hv.
  destruct (clamp_cases _ _ v Hb Hv) as (Hhi & Hlo & Hin).
  set (val := Math_max (fst (boundsOf st p)) (Math_min (snd (boundsOf st p)) v)) in *.
  assert (Hs : Vanilla.settings (Vanilla_applyParam p val (Vanilla.setSliderValue p val st))
               = Vanilla.setParam p val (Vanilla.settings st)).
  { unfold Vanilla_applyParam. destruct p; vframe; reflexivity. }
  assert (Hd : Vanilla.dom (Vanilla_applyParam p val (Vanilla.setSliderValue p val st))
               = Vanilla.dom (Vanilla.setSliderValue p val st)).
  { unfold Vanilla_applyParam. destruct p; vframe; reflexivity. }
  rewrite Hs, Hd, getParam_setParam_same.
  split; [exact Hhi |]. split; [exact Hlo |]. split.
  - destruct (boundsOf st p) as [lo hi]. exact Hin.
  - cbn [Vanilla.setSliderValue Vanilla.with_dom Vanilla.dom Vanilla.controlsUI].
    rewrite getControl_setControl. split; reflexivity.
Qed.

Lemma X16_Vanilla_text_entry_is_clamped_witness :
  exists st',
    Vanilla.onTextInput Vanilla.Ptiling (Finite 50) (Vanilla.start exampleBounds) = Ok (tt, st')
    /\ num_same (Vanilla.getParam Vanilla.Ptiling (Vanilla.settings st')) (Finite 10) = true.
Proof.
  destruct (X16_Vanilla_text_entry_is_clamped
              (Vanilla.start exampleBounds) Vanilla.Ptiling (Finite 50))
    as (st' & H & Hhi & _).
  - vm_compute. reflexivity.
  - reflexivity.
  - exists st'. split; [exact H |]. apply Hhi. vm_compute. reflexivity.
Defined.
